(** * PyTreeCheckpointHandler: a shallow embedding

    The development follows
    [checkpoint/orbax/checkpoint/pytree_checkpoint_handler.py].  Python
    objects that the handler walks with [jax.tree_util] are trees whose
    inner nodes are dictionaries; exceptions are an explicit error type;
    calls into collaborators (file system, aggregate store, type
    handlers, byte limiter, multi-host barrier) are recorded in a trace
    that survives a raised exception. *)

From Stdlib Require Import List String Ascii Bool ZArith Lia Permutation.
Import ListNotations.
Open Scope string_scope.
Open Scope list_scope.

Set Implicit Arguments.

(** ** Exceptions and the two monads of the development *)

Inductive PyError : Type :=
| FileNotFoundError (msg : string)
| ValueError (msg : string)
| KeyError (key : string)
| AttributeError (msg : string)
| TreeStructureError (msg : string)
| TypeError (msg : string)
| ReError (msg : string)
| CodecFailure (msg : string).

Inductive result (A : Type) : Type :=
| Ok (a : A)
| Raise (e : PyError).

Arguments Ok {A} a.
Arguments Raise {A} e.

Definition rbind {A B} (c : result A) (k : A -> result B) : result B :=
  match c with
  | Ok a => k a
  | Raise e => Raise e
  end.

Notation "x <- c ;; k" := (rbind c (fun x => k))
  (at level 61, c at next level, right associativity).
Notation "' pat <- c ;; k" := (rbind c (fun x => match x with pat => k end))
  (at level 61, pat pattern, c at next level, right associativity).

Fixpoint mapM {A B} (f : A -> result B) (l : list A) : result (list B) :=
  match l with
  | [] => Ok []
  | a :: r => b <- f a ;; bs <- mapM f r ;; Ok (b :: bs)
  end.

Definition is_ok {A} (r : result A) : bool :=
  match r with Ok _ => true | Raise _ => false end.

(** ** Paths, key paths and dictionaries in insertion order *)

Definition Path := string.

(** [directory / name] of [epath.Path], for a relative [name]. *)
Definition path_join (directory : Path) (name : string) : Path :=
  (directory ++ "/" ++ name)%string.

Definition TupleKey := list string.

Definition tuplekey_eqb (a b : TupleKey) : bool :=
  if list_eq_dec string_dec a b then true else false.

(** A Python [dict]: an association list in insertion order. *)
Definition dict (K V : Type) := list (K * V).

Fixpoint dict_get {K V} (eqb : K -> K -> bool) (k : K) (d : dict K V)
  : option V :=
  match d with
  | [] => None
  | (k', v) :: r => if eqb k k' then Some v else dict_get eqb k r
  end.

Definition dict_mem {K V} (eqb : K -> K -> bool) (k : K) (d : dict K V)
  : bool :=
  match dict_get eqb k d with Some _ => true | None => false end.

(** [d[k] = v]: overwrite in place, or append a new key. *)
Fixpoint dict_set {K V} (eqb : K -> K -> bool) (k : K) (v : V) (d : dict K V)
  : dict K V :=
  match d with
  | [] => [(k, v)]
  | (k', v') :: r =>
      if eqb k k' then (k', v) :: r else (k', v') :: dict_set eqb k v r
  end.

Definition keys {K V} (d : dict K V) : list K := map fst d.

(** ** Trees

    A PyTree is [None], a leaf or a dictionary of PyTrees.  For
    [jax.tree_util], [None] and the empty dictionary are nodes without
    children. *)

#[warnings="-register-all"]
Inductive PyTree (A : Type) : Type :=
| PNone
| Leaf (a : A)
| Dict (items : list (string * PyTree A)).

Arguments PNone {A}.
Arguments Leaf {A} a.
Arguments Dict {A} items.

Section PyTreeInd.
Variable A : Type.
Variable P : PyTree A -> Prop.
Hypothesis HNone : P PNone.
Hypothesis HLeaf : forall a, P (Leaf a).
Hypothesis HDict :
  forall items, Forall (fun kv => P (snd kv)) items -> P (Dict items).

Fixpoint PyTree_nested_ind (t : PyTree A) : P t :=
  match t with
  | PNone => HNone
  | Leaf a => HLeaf a
  | Dict items =>
      HDict
        ((fix go (l : list (string * PyTree A))
            : Forall (fun kv => P (snd kv)) l :=
            match l with
            | [] => Forall_nil _
            | kv :: r => Forall_cons kv (PyTree_nested_ind (snd kv)) (go r)
            end) items)
  end.
End PyTreeInd.

(** [utils.is_empty_node]: a node that flattens to no children. *)
Definition is_empty_node {A} (t : PyTree A) : bool :=
  match t with
  | PNone => true
  | Dict [] => true
  | _ => false
  end.

(** [utils.is_empty_or_leaf]. *)
Definition is_empty_or_leaf {A} (t : PyTree A) : bool :=
  match t with
  | Leaf _ => true
  | _ => is_empty_node t
  end.

(** The default [is_leaf] of [jax.tree_util]: no extra leaves. *)
Definition no_is_leaf {A} (_ : PyTree A) : bool := false.

(** The subtree at a key path. *)
Fixpoint tree_get {A} (kp : TupleKey) (t : PyTree A) : option (PyTree A) :=
  match kp with
  | [] => Some t
  | k :: kp' =>
      match t with
      | Dict items =>
          match dict_get String.eqb k items with
          | Some c => tree_get kp' c
          | None => None
          end
      | _ => None
      end
  end.

(** [tree_map_with_path(lambda kp, x: (kp, x), t, is_leaf=is_leaf)]: the
    positions at which a mapped function is called, each with its key
    path and the object found there. *)
Fixpoint tree_positions {A} (is_leaf : PyTree A -> bool) (kp : TupleKey)
  (t : PyTree A) : PyTree (TupleKey * PyTree A) :=
  if is_leaf t then Leaf (kp, t) else
  match t with
  | PNone => PNone
  | Leaf a => Leaf (kp, t)
  | Dict items =>
      Dict ((fix go (l : list (string * PyTree A)) :=
               match l with
               | [] => []
               | (k, c) :: r =>
                   (k, tree_positions is_leaf (kp ++ [k]) c) :: go r
               end) items)
  end.

(** [treedef.flatten_up_to]: the second tree must have the nodes of the
    first; what it holds at a leaf of the first is handed over whole. *)
Fixpoint flatten_up_to {X B} (shape : PyTree X) (t : PyTree B)
  : result (PyTree (X * PyTree B)) :=
  match shape with
  | PNone =>
      match t with
      | PNone => Ok PNone
      | _ => Raise (TreeStructureError "Expected None")
      end
  | Leaf x => Ok (Leaf (x, t))
  | Dict items =>
      match t with
      | Dict items' =>
          if Nat.eqb (List.length items) (List.length items') then
            zs <- (fix go (l : list (string * PyTree X)) :=
                     match l with
                     | [] => Ok []
                     | (k, c) :: r =>
                         match dict_get String.eqb k items' with
                         | Some c' =>
                             z <- flatten_up_to c c' ;;
                             zs <- go r ;;
                             Ok ((k, z) :: zs)
                         | None =>
                             Raise (TreeStructureError "Dict key mismatch")
                         end
                     end) items ;;
            Ok (Dict zs)
          else Raise (TreeStructureError "Dict key mismatch")
      | _ => Raise (TreeStructureError "Expected dict")
      end
  end.

(** Calling the mapped function at every leaf, left to right, and
    putting what it returns in the leaf's place. *)
Fixpoint tree_bind {X C} (f : X -> result (PyTree C)) (t : PyTree X)
  : result (PyTree C) :=
  match t with
  | PNone => Ok PNone
  | Leaf x => f x
  | Dict items =>
      zs <- (fix go (l : list (string * PyTree X)) :=
               match l with
               | [] => Ok []
               | (k, c) :: r =>
                   z <- tree_bind f c ;; zs <- go r ;; Ok ((k, z) :: zs)
               end) items ;;
      Ok (Dict zs)
  end.

(** [jax.tree_util.tree_map_with_path(f, t, is_leaf=is_leaf)]. *)
Definition tree_map_with_path {A C} (is_leaf : PyTree A -> bool)
  (f : TupleKey -> PyTree A -> result (PyTree C)) (t : PyTree A)
  : result (PyTree C) :=
  tree_bind (fun '(kp, a) => f kp a) (tree_positions is_leaf [] t).

(** [jax.tree_util.tree_map(f, t1, t2, is_leaf=is_leaf)]. *)
Definition tree_map2 {A B C} (is_leaf : PyTree A -> bool)
  (f : PyTree A -> PyTree B -> result (PyTree C))
  (t1 : PyTree A) (t2 : PyTree B) : result (PyTree C) :=
  z <- flatten_up_to (tree_positions is_leaf [] t1) t2 ;;
  tree_bind (fun '((_, a), b) => f a b) z.

(** [jax.tree_util.tree_map(f, t1, t2, t3)]. *)
Definition tree_map3 {A B C D}
  (f : PyTree A -> PyTree B -> PyTree C -> result (PyTree D))
  (t1 : PyTree A) (t2 : PyTree B) (t3 : PyTree C) : result (PyTree D) :=
  z2 <- flatten_up_to (tree_positions no_is_leaf [] t1) t2 ;;
  z3 <- flatten_up_to z2 t3 ;;
  tree_bind (fun '(((_, a), b), c) => f a b c) z3.

(** The leaves of a tree, left to right. *)
Fixpoint tree_leaves {X} (t : PyTree X) : list X :=
  match t with
  | PNone => []
  | Leaf x => [x]
  | Dict items =>
      (fix go (l : list (string * PyTree X)) :=
         match l with
         | [] => []
         | (_, c) :: r => tree_leaves c ++ go r
         end) items
  end.

(** The functions above walk a dictionary in the order of its list of
    items, whereas [jax.tree_util] visits the keys of a dictionary in
    ascending order.  The two orders are the same on a tree whose
    dictionaries list their keys in ascending order; a statement about
    the order of a traversal is made for such trees. *)
Fixpoint keys_ascending {A} (t : PyTree A) : bool :=
  match t with
  | Dict items =>
      (fix go (l : list (string * PyTree A)) : bool :=
         match l with
         | [] => true
         | (k, c) :: r =>
             keys_ascending c
             && match r with
                | [] => true
                | (k', _) :: _ => String.ltb k k'
                end
             && go r
         end) items
  | _ => true
  end.

(** ** Leaf values and the per-leaf records of [type_handlers] *)

Definition DType := string.

(** The objects found at the leaves of a tree that is saved or that was
    read back from the aggregate file. *)
Inductive Value : Type :=
| VInt (n : Z)
| VStr (s : string)
| VPlaceholder (name : string)
| VNdarray (data : list Z)
| VJaxArray (is_fully_replicated : bool) (data : list Z)
| VTsSpec (kvstore_path : string)
| VObject (type_name : string).

Inductive PyType : Type :=
| TNoneType
| TDict
| TInt
| TStr
| TNdarray
| TJaxArray
| TTsSpec
| TObject (type_name : string).

(** [type(value)]. *)
Definition type_of (value : PyTree Value) : PyType :=
  match value with
  | PNone => TNoneType
  | Dict _ => TDict
  | Leaf (VInt _) => TInt
  | Leaf (VStr _) => TStr
  | Leaf (VPlaceholder _) => TStr
  | Leaf (VNdarray _) => TNdarray
  | Leaf (VJaxArray _ _) => TJaxArray
  | Leaf (VTsSpec _) => TTsSpec
  | Leaf (VObject n) => TObject n
  end.

(** [not value] on the objects above.  An array of more than one
    element has no truth value. *)
Definition array_truth (data : list Z) : result bool :=
  match data with
  | [] => Ok false
  | [x] => Ok (negb (Z.eqb x 0))
  | _ =>
      Raise (ValueError "The truth value of an array with more than one element is ambiguous")
  end.

Definition truth (value : PyTree Value) : result bool :=
  match value with
  | PNone => Ok false
  | Dict [] => Ok false
  | Dict _ => Ok true
  | Leaf (VInt n) => Ok (negb (Z.eqb n 0))
  | Leaf (VStr s) => Ok (negb (String.eqb s ""))
  | Leaf (VPlaceholder _) => Ok true
  | Leaf (VNdarray data) => array_truth data
  | Leaf (VJaxArray _ data) => array_truth data
  | Leaf (VTsSpec _) => Ok true
  | Leaf (VObject _) => Ok true
  end.

Record SaveArgs : Type := mkSaveArgs {
  aggregate : bool;
  save_dtype : option DType
}.

(** [RestoreArgs]; [array_args] is present exactly on an instance of the
    subclass [ArrayRestoreArgs] and stands for its mesh, sharding and
    global shape. *)
Record RestoreArgs : Type := mkRestoreArgs {
  restore_type : option PyType;
  restore_dtype : option DType;
  array_args : option string
}.

(** [RestoreArgs()]. *)
Definition default_RestoreArgs : RestoreArgs := mkRestoreArgs None None None.

(** The shared [_LimitInFlightBytes] object, known by its budget. *)
Definition ByteLimiter := Z.

Record ParamInfo : Type := mkParamInfo {
  name : option string;
  path : option Path;
  skip_deserialize : bool;
  is_ocdbt_checkpoint : option bool;
  byte_limiter : option ByteLimiter
}.

(** [ParamInfo(skip_deserialize=True)]. *)
Definition skipped_ParamInfo : ParamInfo :=
  mkParamInfo None None true None None.

(** Modelled from the spec: [utils.leaf_placeholder],
    [utils.leaf_is_placeholder] and [utils.name_from_leaf_placeholder]
    are not among the sources.  A placeholder is the marker recorded in
    the aggregate artifact for a leaf stored individually; it carries
    the leaf's name. *)
Definition leaf_placeholder (name : string) : PyTree Value :=
  Leaf (VPlaceholder name).

Definition leaf_is_placeholder (leaf : PyTree Value) : bool :=
  match leaf with
  | Leaf (VPlaceholder _) => true
  | _ => false
  end.

Definition name_from_leaf_placeholder (leaf : PyTree Value) : string :=
  match leaf with
  | Leaf (VPlaceholder n) => n
  | _ => ""
  end.

(** ** Transform rules of [transform_utils] *)

Inductive MultiValueFn : Type :=
| Fn2 (f : string -> PyTree Value -> result (PyTree Value))
| Fn3 (f : string -> PyTree Value -> PyTree RestoreArgs ->
           result (PyTree Value)).

(** [Transform] and its subclass [RestoreTransform], which adds
    [multi_value_fn_input_args]: input key regex to [RestoreArgs]. *)
Record Transform : Type := mkTransform {
  is_RestoreTransform : bool;
  original_key : option string;
  use_fallback : bool;
  value_fn : option (PyTree Value -> result (PyTree Value));
  multi_value_fn : option MultiValueFn;
  multi_value_fn_input_args : option (dict string (PyTree RestoreArgs))
}.

(** ** Collaborators *)

Definition Handler := string.
Definition Future := string.

(** The per-leaf argument of a batch request: [Union[SaveArgs,
    RestoreArgs]]. *)
Inductive BatchArg : Type :=
| BSave (a : SaveArgs)
| BRestore (a : RestoreArgs).

(** A match object of [re]: the groups of a successful match. *)
Definition ReMatch := list string.

(** Everything the handler calls but does not define: the file system,
    the aggregate handler, the type-handler registry and its handlers,
    helper predicates of [utils], array casts of numpy and jax, and
    Python's [re]. *)
Record World : Type := mkWorld {
  path_exists : Path -> bool;
  process_index : nat;
  aggregate_deserialize : Path -> result (PyTree Value);
  aggregate_serialize : Path -> PyTree Value -> result Future;
  pytree_structure : Path -> result (PyTree Value);
  is_supported_aggregation_type : PyTree Value -> bool;
  is_scalar : Value -> bool;
  has_type_handler : PyType -> bool;
  get_type_handler : option PyType -> result Handler;
  dir_is_ocdbt_checkpoint : Path -> bool;
  handler_serialize :
    Handler -> list (PyTree Value) -> list ParamInfo ->
    list (PyTree BatchArg) -> result (list Future);
  handler_deserialize :
    Handler -> list ParamInfo -> list (PyTree BatchArg) ->
    result (list (PyTree Value));
  astype : Value -> DType -> Value;
  make_sharded_array : Value -> string -> Value;
  re_fullmatch : string -> string -> result (option ReMatch);
  match_expand : ReMatch -> string -> result string;
  strip_tmp_dir_suffix : string -> string
}.

(** What the handler does to its collaborators, in order. *)
Inductive Event : Type :=
| EvByteLimiter (concurrent_bytes : Z)
| EvAggregateDeserialize (p : Path)
| EvAggregateSerialize (p : Path) (ser_item : PyTree Value)
| EvPytreeStructure (directory : Path)
| EvMakedirs (p : Path)
| EvSyncGlobalDevices (barrier : string)
| EvSerialize (h : Handler) (values : list (PyTree Value))
    (infos : list ParamInfo) (args : list (PyTree BatchArg))
| EvDeserialize (h : Handler) (infos : list ParamInfo)
    (args : list (PyTree BatchArg))
| EvFutureResult (f : Future)
| EvClose.

(** An effectful computation: its outcome and the calls it made, also
    when it raised. *)
Definition IO (A : Type) : Type := (result A * list Event)%type.

Definition io_ret {A} (a : A) : IO A := (Ok a, []).
Definition io_raise {A} (e : PyError) : IO A := (Raise e, []).
Definition io_lift {A} (r : result A) : IO A := (r, []).
Definition io_emit (ev : Event) : IO unit := (Ok tt, [ev]).

(** The calls that reach a type handler. *)
Definition touches_type_handler (ev : Event) : bool :=
  match ev with
  | EvSerialize _ _ _ _ => true
  | EvDeserialize _ _ _ => true
  | _ => false
  end.

(** The paths read by type handlers in a trace. *)
Definition fetched_paths (trace : list Event) : list (option Path) :=
  flat_map (fun ev => match ev with
                      | EvDeserialize _ infos _ => map path infos
                      | _ => []
                      end) trace.

Definition io_bind {A B} (c : IO A) (k : A -> IO B) : IO B :=
  match c with
  | (Ok a, trace) =>
      match k a with
      | (r, trace') => (r, trace ++ trace')
      end
  | (Raise e, trace) => (Raise e, trace)
  end.

Notation "x <~ c ;; k" := (io_bind c (fun x => k))
  (at level 61, c at next level, right associativity).
Notation "' pat <~ c ;; k" := (io_bind c (fun x => match x with pat => k end))
  (at level 61, pat pattern, c at next level, right associativity).

(** [await asyncio.gather] of the operations, taken in list order. *)
Fixpoint io_gather {A} (ops : list (IO A)) : IO (list A) :=
  match ops with
  | [] => io_ret []
  | op :: r => a <~ op ;; rest <~ io_gather r ;; io_ret (a :: rest)
  end.

(** ** Helpers of [utils] on trees *)

Fixpoint tree_fmap {A B} (f : A -> B) (t : PyTree A) : PyTree B :=
  match t with
  | PNone => PNone
  | Leaf a => Leaf (f a)
  | Dict items =>
      Dict ((fix go (l : list (string * PyTree A)) :=
               match l with
               | [] => []
               | (k, c) :: r => (k, tree_fmap f c) :: go r
               end) items)
  end.

(** Modelled from the spec: [utils.to_flat_dict] is not among the
    sources.  It flattens a nested tree into an ordered mapping from key
    path to leaf, in the insertion order of the tree; with
    [keep_empty_nodes] an empty node is kept as a leaf, otherwise it is
    dropped. *)
Fixpoint to_flat_dict_from {A} (keep_empty_nodes : bool) (kp : TupleKey)
  (t : PyTree A) : dict TupleKey (PyTree A) :=
  match t with
  | PNone => if keep_empty_nodes then [(kp, t)] else []
  | Leaf _ => [(kp, t)]
  | Dict items =>
      match items with
      | [] => if keep_empty_nodes then [(kp, t)] else []
      | _ =>
          (fix go (l : list (string * PyTree A)) :=
             match l with
             | [] => []
             | (k, c) :: r =>
                 to_flat_dict_from keep_empty_nodes (kp ++ [k]) c ++ go r
             end) items
      end
  end.

Definition to_flat_dict {A} (keep_empty_nodes : bool) (t : PyTree A)
  : dict TupleKey (PyTree A) :=
  to_flat_dict_from keep_empty_nodes [] t.

(** [utils.to_flat_dict(tree, sep=sep)]: the keys joined by [sep].  The
    result stands for a Python dictionary only when no two key paths of
    the tree have the same joined form. *)
Definition to_flat_dict_sep {A} (sep : string) (t : PyTree A)
  : dict string (PyTree A) :=
  map (fun kv => (String.concat sep (fst kv), snd kv)) (to_flat_dict false t).

Definition key_error {A} (k : string) : result A := Raise (KeyError k).

(** Modelled from the spec: [utils.from_flat_dict] with a [target] is
    not among the sources.  It is the inverse of flattening: the shape
    of [target] is populated with the value the mapping holds at each
    leaf's key path; empty nodes of the shape stay as they are. *)
Definition from_flat_dict {A B} (flat_dict : dict TupleKey (PyTree A))
  (target : PyTree B) : result (PyTree A) :=
  tree_map_with_path no_is_leaf
    (fun kp _ =>
       match dict_get tuplekey_eqb kp flat_dict with
       | Some v => Ok v
       | None => key_error (String.concat "/" kp)
       end)
    target.

Definition from_flat_dict_sep {A B} (sep : string)
  (flat_dict : dict string (PyTree A)) (target : PyTree B)
  : result (PyTree A) :=
  tree_map_with_path no_is_leaf
    (fun kp _ =>
       match dict_get String.eqb (String.concat sep kp) flat_dict with
       | Some v => Ok v
       | None => key_error (String.concat sep kp)
       end)
    target.

(** Modelled from the spec: [utils.serialize_tree] is not among the
    sources.  It turns a tree of custom containers into nested
    dictionaries; the trees of this development already are. *)
Definition serialize_tree {A} (keep_empty_nodes : bool) (t : PyTree A)
  : PyTree A := t.

(** Modelled from the spec: [utils.deserialize_tree] is not among the
    sources.  Reassembly restructures the restored values into the
    target shape: every leaf of [target] takes what [serialized] holds
    at the same key path. *)
Definition deserialize_tree {A B} (serialized : PyTree A) (target : PyTree B)
  : result (PyTree A) :=
  tree_map_with_path no_is_leaf
    (fun kp _ =>
       match tree_get kp serialized with
       | Some v => Ok v
       | None => key_error (String.concat "/" kp)
       end)
    target.

(** ** The handler *)

Definition _TYPE_METADATA_FILE : string := "type_metadata".
Definition _CHECKPOINT_FILE : string := "checkpoint".

(** A leaf of the tree handed to [_maybe_set_default_save_args] as
    [args]: a [SaveArgs], or whatever else the caller left there. *)
Inductive ArgLeaf : Type :=
| ASaveArgs (a : SaveArgs)
| AOther (v : Value).

(** [hasattr(arr, 'astype')] and [hasattr(value, 'reshape')]. *)
Definition has_astype (arr : PyTree Value) : bool :=
  match arr with
  | Leaf (VNdarray _) => true
  | Leaf (VJaxArray _ _) => true
  | _ => false
  end.

Definition has_reshape (value : PyTree Value) : bool := has_astype value.

Definition _keystr (key : TupleKey) : string := String.concat "/" key.

Section Handler.

Variable env : World.

Definition _create_param_save_dir (param_info : ParamInfo)
  (args : SaveArgs) : IO unit :=
  match path param_info with
  | None => io_ret tt
  | Some p =>
      if aggregate args then io_ret tt
      else if Nat.eqb (process_index env) 0 then io_emit (EvMakedirs p)
      else io_ret tt
  end.

Definition _maybe_set_default_save_args (value : PyTree Value)
  (args : PyTree ArgLeaf) : SaveArgs :=
  match args with
  | Leaf (ASaveArgs a) => a
  | _ =>
      let aggregate := negb (has_type_handler env (type_of value)) in
      mkSaveArgs aggregate None
  end.

Definition _maybe_set_default_restore_args (args : PyTree RestoreArgs)
  : RestoreArgs :=
  match args with
  | Leaf a => a
  | _ => mkRestoreArgs None None None
  end.

(** [np.asarray(arr).astype(dtype).item()] on a scalar and
    [arr.astype(dtype)] on an array are both the cast [astype] of the
    world. *)
Definition _try_array_cast (arr : PyTree Value) (dtype : option DType)
  : PyTree Value :=
  match dtype with
  | Some d =>
      match arr with
      | Leaf v =>
          if is_scalar env v then Leaf (astype env v d)
          else if has_astype arr then Leaf (astype env v d)
          else arr
      | _ => arr
      end
  | None => arr
  end.

Definition _maybe_shard_array (value : PyTree Value) (args : RestoreArgs)
  : PyTree Value :=
  match value, array_args args with
  | Leaf v, Some sharding =>
      if has_reshape value then Leaf (make_sharded_array env v sharding)
      else value
  | _, _ => value
  end.

Definition _param_name_from_keypath (keypath : TupleKey) : string :=
  String.concat "." keypath.

(** [tree_map_with_path] with [is_leaf=utils.is_empty_or_leaf]: the
    name at every leaf and at every empty node. *)
Definition _get_param_names (item : PyTree Value) : PyTree string :=
  tree_fmap (fun p => _param_name_from_keypath (fst p))
    (tree_positions is_empty_or_leaf [] item).

(** The loop over [multi_value_fn_input_args.items()]: the arguments
    of the first regex that matches the whole input key. *)
Fixpoint _match_input_key_regexes (input_key : TupleKey)
  (input_args : dict string (PyTree RestoreArgs))
  : result (option (PyTree RestoreArgs)) :=
  match input_args with
  | [] => Ok None
  | (input_key_regex, args) :: rest =>
      m <- re_fullmatch env input_key_regex (_keystr input_key) ;;
      match m with
      | Some _ => Ok (Some args)
      | None => _match_input_key_regexes input_key rest
      end
  end.

(** The loop [for output_key in flat_item] of a rule that neither
    merges nor falls back. *)
Fixpoint _match_output_keys (input_key transform_key : TupleKey)
  (transform : Transform)
  (flat_restore_args : dict TupleKey (PyTree RestoreArgs))
  (output_keys : list TupleKey) : result (option (PyTree RestoreArgs)) :=
  match output_keys with
  | [] => Ok None
  | output_key :: rest =>
      m <- re_fullmatch env (_keystr transform_key) (_keystr output_key) ;;
      match m with
      | Some mt =>
          input_key_pattern <-
            match original_key transform with
            | None => Ok (_keystr output_key)
            | Some pattern => match_expand env mt pattern
            end ;;
          if String.eqb input_key_pattern (_keystr input_key) then
            match dict_get tuplekey_eqb output_key flat_restore_args with
            | Some args => Ok (Some args)
            | None => key_error (_keystr output_key)
            end
          else
            _match_output_keys input_key transform_key transform
              flat_restore_args rest
      | None =>
          _match_output_keys input_key transform_key transform
            flat_restore_args rest
      end
  end.

Fixpoint _find_matching_input_args {I} (input_key : TupleKey)
  (flat_item : dict TupleKey I)
  (flat_transforms : dict TupleKey Transform)
  (flat_restore_args : dict TupleKey (PyTree RestoreArgs))
  : result (option (PyTree RestoreArgs)) :=
  match flat_transforms with
  | [] => Ok None
  | (transform_key, transform) :: rest =>
      match multi_value_fn transform with
      | Some _ =>
          if negb (is_RestoreTransform transform) then
            Raise (ValueError "Must use RestoreTransform in order to use multi_value_fn during restore.")
          else
            match multi_value_fn_input_args transform with
            | None =>
                Raise (ValueError "`multi_value_fn` was specified, but `multi_value_fn_input_args` were not. The latter must be specified to identify inputs for the function.")
            | Some input_args =>
                r <- _match_input_key_regexes input_key input_args ;;
                match r with
                | Some args => Ok (Some args)
                | None =>
                    _find_matching_input_args input_key flat_item rest
                      flat_restore_args
                end
            end
      | None =>
          if negb (use_fallback transform) then
            r <- _match_output_keys input_key transform_key transform
                   flat_restore_args (keys flat_item) ;;
            match r with
            | Some args => Ok (Some args)
            | None =>
                _find_matching_input_args input_key flat_item rest
                  flat_restore_args
            end
          else
            _find_matching_input_args input_key flat_item rest
              flat_restore_args
      end
  end.

Fixpoint _has_use_fallback_transform (input_key : TupleKey)
  (flat_transforms : dict TupleKey Transform) : result bool :=
  match flat_transforms with
  | [] => Ok false
  | (transform_key, transform) :: rest =>
      m <- re_fullmatch env (_keystr transform_key) (_keystr input_key) ;;
      result <- _has_use_fallback_transform input_key rest ;;
      match m with
      | Some _ => Ok (use_fallback transform || result)
      | None => Ok result
      end
  end.

(** Modelled from the spec: [utils.is_supported_empty_aggregation_type]
    is not among the sources.  Empty containers are preserved as
    leaves of the aggregate artifact; such a leaf has no [ParamInfo]. *)
Definition is_supported_empty_aggregation_type (leaf : PyTree Value)
  : bool := is_empty_node leaf.

(** An empty node, whatever the type of the leaves around it. *)
Definition empty_node_as {A B} (leaf : PyTree A) : PyTree B :=
  match leaf with
  | PNone => PNone
  | _ => Dict []
  end.

(** The truth value of what [_find_matching_input_args] returned. *)
Definition args_truth (maybe_input_args : option (PyTree RestoreArgs))
  : bool :=
  match maybe_input_args with
  | None => false
  | Some PNone => false
  | Some (Dict []) => false
  | Some _ => true
  end.

(** The leaves of a flattened tree that are not empty nodes. *)
Fixpoint flat_leaves {K A} (d : dict K (PyTree A)) : dict K A :=
  match d with
  | [] => []
  | (k, Leaf a) :: r => (k, a) :: flat_leaves r
  | _ :: r => flat_leaves r
  end.

Section RestoreParameters.

Variable directory : Path.
Variable byte_limiter : option ByteLimiter.

(** The closure [_get_param_info] of [_get_restore_parameters]. *)
Definition _get_param_info (is_ocdbt_checkpoint : bool)
  (nested_name : TupleKey) (leaf : PyTree Value)
  : result (PyTree ParamInfo) :=
  let info path :=
    Ok (Leaf (mkParamInfo
                (Some (String.concat "." nested_name))
                path
                (match path with None => true | Some _ => false end)
                (Some is_ocdbt_checkpoint)
                byte_limiter)) in
  if leaf_is_placeholder leaf then
    info (Some (path_join directory (name_from_leaf_placeholder leaf)))
  else
    match leaf with
    | Leaf (VTsSpec kvstore_path) =>
        info (Some (strip_tmp_dir_suffix env kvstore_path))
    | _ =>
        if is_supported_empty_aggregation_type leaf then
          Ok (empty_node_as leaf)
        else if is_supported_aggregation_type env leaf then
          info None
        else Raise (ValueError "Unsupported type")
    end.

(** One turn of the loop [for input_key, value in
    flat_structure.items()] under transforms: what is stored in
    [flat_param_infos] and in [flat_input_restore_args] at
    [input_key]. *)
Definition _restore_parameter_of_key (is_ocdbt_checkpoint : bool)
  (flat_item : dict TupleKey (PyTree Value))
  (flat_transforms : dict TupleKey Transform)
  (flat_restore_args : dict TupleKey (PyTree RestoreArgs))
  (transforms_default_to_original : bool)
  (input_key : TupleKey) (value : PyTree Value)
  : result (PyTree ParamInfo * PyTree RestoreArgs) :=
  let fetch_with_item_args :=
    info <- _get_param_info is_ocdbt_checkpoint input_key value ;;
    match dict_get tuplekey_eqb input_key flat_restore_args with
    | Some args => Ok (info, args)
    | None => key_error (_keystr input_key)
    end in
  let skip := Ok (Leaf skipped_ParamInfo, Leaf default_RestoreArgs) in
  maybe_input_args <-
    _find_matching_input_args input_key flat_item flat_transforms
      flat_restore_args ;;
  if args_truth maybe_input_args then
    info <- _get_param_info is_ocdbt_checkpoint input_key value ;;
    match maybe_input_args with
    | Some args => Ok (info, args)
    | None => Ok (info, PNone)
    end
  else if dict_mem tuplekey_eqb input_key flat_item then
    fallback <- _has_use_fallback_transform input_key flat_transforms ;;
    if fallback then
      if transforms_default_to_original then skip
      else fetch_with_item_args
    else
      if transforms_default_to_original then fetch_with_item_args
      else skip
  else skip.

Definition _get_restore_parameters (item structure : PyTree Value)
  (transforms : PyTree Transform) (restore_args : PyTree RestoreArgs)
  (transforms_default_to_original : bool)
  : result (PyTree ParamInfo * PyTree RestoreArgs) :=
  let flat_structure := to_flat_dict true structure in
  let restore_args :=
    match restore_args with
    | PNone => tree_fmap (fun _ => default_RestoreArgs) structure
    | _ => restore_args
    end in
  let flat_restore_args := to_flat_dict true restore_args in
  let is_ocdbt_checkpoint := dir_is_ocdbt_checkpoint env directory in
  match transforms with
  | PNone =>
      flat_param_infos <-
        mapM (fun kv =>
                info <- _get_param_info is_ocdbt_checkpoint
                          (fst kv) (snd kv) ;;
                Ok (fst kv, info))
             flat_structure ;;
      let restore_args := serialize_tree true restore_args in
      param_infos <- from_flat_dict flat_param_infos structure ;;
      Ok (param_infos, restore_args)
  | _ =>
      match item with
      | PNone =>
          Raise (ValueError "If providing `transforms`, must provide `item` matching structure of expected result.")
      | _ =>
          let flat_item := to_flat_dict true item in
          let flat_transforms :=
            flat_leaves (to_flat_dict false transforms) in
          flat <-
            mapM (fun kv =>
                    r <- _restore_parameter_of_key is_ocdbt_checkpoint
                           flat_item flat_transforms flat_restore_args
                           transforms_default_to_original
                           (fst kv) (snd kv) ;;
                    Ok (fst kv, r))
                 flat_structure ;;
          let flat_param_infos :=
            map (fun kr => (fst kr, fst (snd kr))) flat in
          let flat_input_restore_args :=
            map (fun kr => (fst kr, snd (snd kr))) flat in
          restore_args <-
            from_flat_dict flat_input_restore_args structure ;;
          param_infos <- from_flat_dict flat_param_infos structure ;;
          Ok (param_infos, restore_args)
      end
  end.

End RestoreParameters.

(** [isinstance(value, jax.Array) and not value.is_fully_replicated]. *)
Definition is_unreplicated_jax_array (value : PyTree Value) : bool :=
  match value with
  | Leaf (VJaxArray is_fully_replicated _) => negb is_fully_replicated
  | _ => false
  end.

Definition _get_leaf_for_aggregation (param_info : PyTree ParamInfo)
  (arg : PyTree SaveArgs) (value : PyTree Value)
  : result (PyTree Value) :=
  match arg with
  | Leaf arg =>
      if aggregate arg then
        if is_unreplicated_jax_array value then
          Raise (ValueError "jax.Array must be fully replicated to be saved in aggregate file.")
        else
          let value :=
            if negb (is_supported_aggregation_type env value) then PNone
            else value in
          Ok (_try_array_cast value (save_dtype arg))
      else
        match param_info with
        | Leaf info =>
            match name info with
            | Some n => Ok (leaf_placeholder n)
            | None => Raise (TypeError "name is None")
            end
        | _ => Raise (AttributeError "name")
        end
  | _ => Raise (AttributeError "aggregate")
  end.

Definition _get_tree_for_aggregation (param_infos : PyTree ParamInfo)
  (save_args : PyTree SaveArgs) (item : PyTree Value)
  : result (PyTree Value) :=
  tree_map3 _get_leaf_for_aggregation param_infos save_args item.

Record _BatchRequest : Type := mkBatchRequest {
  handler : Handler;
  values : list (PyTree Value);
  infos : list ParamInfo;
  args : list (PyTree BatchArg)
}.

(** The closure [_group_value] of [_batched_serialization_requests],
    with the dictionary [grouped] it updates passed along. *)
Definition _group_value (grouped : dict Handler _BatchRequest)
  (info : PyTree ParamInfo) (value : PyTree Value)
  (arg : PyTree BatchArg) : result (dict Handler _BatchRequest) :=
  match info with
  | Leaf info =>
      if skip_deserialize info then Ok grouped
      else
        type_handler <-
          match arg with
          | Leaf (BRestore a) => get_type_handler env (restore_type a)
          | _ => get_type_handler env (Some (type_of value))
          end ;;
        let grouped :=
          if negb (dict_mem String.eqb type_handler grouped) then
            dict_set String.eqb type_handler
              (mkBatchRequest type_handler [] [] []) grouped
          else grouped in
        match dict_get String.eqb type_handler grouped with
        | Some request =>
            Ok (dict_set String.eqb type_handler
                  (mkBatchRequest (handler request)
                     (values request ++ [value])
                     (infos request ++ [info])
                     (args request ++ [arg]))
                  grouped)
        | None => key_error type_handler
        end
  | _ => Raise (AttributeError "skip_deserialize")
  end.

Fixpoint _group_values (grouped : dict Handler _BatchRequest)
  (leaves : list (TupleKey * PyTree ParamInfo * PyTree Value
                  * PyTree BatchArg))
  : result (dict Handler _BatchRequest) :=
  match leaves with
  | [] => Ok grouped
  | (_, info, value, arg) :: rest =>
      grouped <- _group_value grouped info value arg ;;
      _group_values grouped rest
  end.

Definition _batched_serialization_requests (tree : PyTree Value)
  (param_infos : PyTree ParamInfo) (args : PyTree BatchArg)
  : result (list _BatchRequest) :=
  let result : list _BatchRequest := [] in
  z2 <- flatten_up_to (tree_positions no_is_leaf [] param_infos) tree ;;
  z3 <- flatten_up_to z2 args ;;
  grouped <- _group_values [] (tree_leaves z3) ;;
  Ok (result ++ map snd grouped).

(** The first rule whose key pattern matches the whole of [key]. *)
Fixpoint find_transform (key : string) (transforms : dict string Transform)
  : result (option (ReMatch * Transform)) :=
  match transforms with
  | [] => Ok None
  | (transform_key, transform) :: rest =>
      m <- re_fullmatch env transform_key key ;;
      match m with
      | Some mt => Ok (Some (mt, transform))
      | None => find_transform key rest
      end
  end.

(** The value placed at [key] of the target shape by the post-restore
    step. *)
Definition transformed_value (original_tree : PyTree Value)
  (original : dict string (PyTree Value))
  (transforms : dict string Transform) (default_to_original : bool)
  (key : string) (new_value : PyTree Value) : result (PyTree Value) :=
  r <- find_transform key transforms ;;
  match r with
  | Some (mt, transform) =>
      match multi_value_fn transform with
      | Some (Fn2 f) => f key original_tree
      | Some (Fn3 _) => Raise (TypeError "multi_value_fn")
      | None =>
          if use_fallback transform then Ok new_value
          else
            original_key <-
              match original_key transform with
              | None => Ok key
              | Some pattern => match_expand env mt pattern
              end ;;
            match dict_get String.eqb original_key original with
            | Some v =>
                match value_fn transform with
                | Some f => f v
                | None => Ok v
                end
            | None => key_error original_key
            end
      end
  | None =>
      if default_to_original then
        match dict_get String.eqb key original with
        | Some v => Ok v
        | None => key_error key
        end
      else Ok new_value
  end.

(** Modelled from the spec: [transform_utils.apply_transformations]
    is not among the sources.  The post-restore step maps the
    restored values, in the shape of the checkpoint, into the target
    shape by invoking each rule's merge or rename function; with
    [UseFallback] the value comes from the caller's target tree, not
    from the checkpoint; a key without a matching rule carries the
    original value when [default_to_original] is true, else the
    caller's own value is kept. *)
Definition apply_transformations (original_tree : PyTree Value)
  (transformations : PyTree Transform) (new_tree : PyTree Value)
  (default_to_original : bool) : result (PyTree Value) :=
  let original := to_flat_dict_sep "/" original_tree in
  let new := to_flat_dict_sep "/" new_tree in
  let transforms := flat_leaves (to_flat_dict_sep "/" transformations) in
  new <-
    mapM (fun kv =>
            v <- transformed_value original_tree original transforms
                   default_to_original (fst kv) (snd kv) ;;
            Ok (fst kv, v))
         new ;;
  from_flat_dict_sep "/" new new_tree.

(** The closure [_maybe_wrap_transform]. *)
Definition _maybe_wrap_transform
  (flat_restore_args : dict string (PyTree RestoreArgs))
  (transform : Transform) : Transform :=
  let _multi_value_fn_with_args fn transform_key tree :=
    match dict_get String.eqb transform_key flat_restore_args with
    | Some restore_args =>
        match fn with
        | Fn3 f => f transform_key tree restore_args
        | Fn2 _ => Raise (TypeError "multi_value_fn")
        end
    | None => key_error transform_key
    end in
  match multi_value_fn transform with
  | Some fn =>
      mkTransform false None false None
        (Some (Fn2 (_multi_value_fn_with_args fn))) None
  | None => transform
  end.

Definition _multi_value_fns_with_args (transforms : PyTree Transform)
  (restore_args : PyTree RestoreArgs) : PyTree Transform :=
  let flat_restore_args := to_flat_dict_sep "/" restore_args in
  tree_fmap (_maybe_wrap_transform flat_restore_args) transforms.

Definition _transform_structure (item restored : PyTree Value)
  (restore_args : PyTree RestoreArgs) (transforms : PyTree Transform)
  (transforms_default_to_original : bool) : result (PyTree Value) :=
  match item with
  | PNone =>
      match transforms with
      | PNone => Ok restored
      | _ =>
          Raise (ValueError "If providing `transforms`, must provide `item` matching structure of expected result.")
      end
  | _ =>
      match transforms with
      | PNone => deserialize_tree restored item
      | _ =>
          match restore_args with
          | PNone =>
              Raise (ValueError "If providing `transforms`, must provide `restore_args` matching structure of expected result.")
          | _ =>
              let transforms :=
                _multi_value_fns_with_args transforms restore_args in
              apply_transformations restored transforms item
                transforms_default_to_original
          end
      end
  end.

(** *** The class [PyTreeCheckpointHandler] *)

Record PyTreeCheckpointHandler : Type := mkPyTreeCheckpointHandler {
  _aggregate_filename : string;
  _concurrent_gb : Z;
  _use_ocdbt : bool;
  _restore_with_serialized_types : bool
}.

Definition __init__ (aggregate_filename : option string)
  (concurrent_gb : Z) (use_ocdbt restore_with_serialized_types : bool)
  : PyTreeCheckpointHandler :=
  let aggregate_filename :=
    match aggregate_filename with
    | None => _CHECKPOINT_FILE
    | Some f => f
    end in
  mkPyTreeCheckpointHandler aggregate_filename concurrent_gb use_ocdbt
    restore_with_serialized_types.

Variable self : PyTreeCheckpointHandler.

(** The closure [_param_info] of [_get_param_infos]; what it does to
    [all_params_aggregated] is [_all_aggregated] below. *)
Definition _param_info (directory : Path) (name : PyTree string)
  (args : PyTree SaveArgs) : result (PyTree ParamInfo) :=
  match args with
  | Leaf args =>
      match name with
      | Leaf name =>
          Ok (Leaf (mkParamInfo (Some name)
                      (Some (path_join directory name))
                      (aggregate args) None None))
      | _ => Raise (TypeError "name")
      end
  | _ => Raise (AttributeError "aggregate")
  end.

(** [all_params_aggregated] after [&= args.aggregate] at every leaf. *)
Definition _all_aggregated {X} (leaves : list (X * PyTree SaveArgs))
  : bool :=
  forallb (fun p => match snd p with
                    | Leaf args => aggregate args
                    | _ => true
                    end) leaves.

(** [jax.tree_util.tree_map(_param_info, names, save_args)], with the
    flag the closure accumulates computed from the same leaves. *)
Definition _get_param_infos (item : PyTree Value) (directory : Path)
  (save_args : PyTree SaveArgs) : result (PyTree ParamInfo * bool) :=
  nonempty <- truth item ;;
  if negb nonempty then Raise (ValueError "Found empty item")
  else
    let names := _get_param_names item in
    z <- flatten_up_to (tree_positions no_is_leaf [] names) save_args ;;
    param_infos <-
      tree_bind (fun p => _param_info directory (snd (fst p)) (snd p)) z ;;
    Ok (param_infos, _all_aggregated (tree_leaves z)).

Definition _write_aggregate_file (directory : Path) (item : PyTree Value)
  (param_infos : PyTree ParamInfo) (save_args : PyTree SaveArgs)
  : IO Future :=
  ser_item <~
    io_lift (_get_tree_for_aggregation param_infos save_args item) ;;
  let p := path_join directory (_aggregate_filename self) in
  _ <~ io_emit (EvAggregateSerialize p ser_item) ;;
  io_lift (aggregate_serialize env p ser_item).

(** The coroutine [_create_param_save_dir(info, args)] at one leaf. *)
Definition _create_param_save_dir_at (info : PyTree ParamInfo)
  (args : PyTree SaveArgs) : result (PyTree (IO unit)) :=
  match info, args with
  | Leaf info, Leaf args => Ok (Leaf (_create_param_save_dir info args))
  | _, _ => Ok (Leaf (io_raise (AttributeError "aggregate")))
  end.

Definition _serialize_request (request : _BatchRequest)
  : IO (list Future) :=
  _ <~ io_emit (EvSerialize (handler request) (values request)
                  (infos request) (args request)) ;;
  io_lift (handler_serialize env (handler request) (values request)
             (infos request) (args request)).

(** The first statement of [async_save]: the user-provided arguments
    filled in with defaults, by [tree_map] over [item] and [item if
    save_args is None else save_args] with [is_leaf=is_empty_or_leaf]. *)
Definition _args_or_item (item : PyTree Value) (save_args : PyTree ArgLeaf)
  : PyTree ArgLeaf :=
  match save_args with
  | PNone => tree_fmap AOther item
  | _ => save_args
  end.

Definition _default_save_args (item : PyTree Value)
  (save_args : PyTree ArgLeaf) : result (PyTree SaveArgs) :=
  tree_map2 is_empty_or_leaf
    (fun value args => Ok (Leaf (_maybe_set_default_save_args value args)))
    item (_args_or_item item save_args).

Definition async_save (directory : Path) (item : PyTree Value)
  (save_args : PyTree ArgLeaf) : IO (list Future) :=
  save_args <~ io_lift (_default_save_args item save_args) ;;
  ' (param_infos, all_params_aggregated) <~
    io_lift (_get_param_infos item directory save_args) ;;
  _ <~ (if negb (_use_ocdbt self) && negb all_params_aggregated then
          ops <~ io_lift (tree_map2 no_is_leaf _create_param_save_dir_at
                            param_infos save_args) ;;
          _ <~ io_gather (tree_leaves ops) ;;
          io_emit (EvSyncGlobalDevices
                     "PyTreeCheckpointHandler:create_param_save_dirs")
        else io_ret tt) ;;
  commit_futures <~
    (if all_params_aggregated then io_ret []
     else
       batch_requests <~
         io_lift (_batched_serialization_requests item param_infos
                    (tree_fmap BSave save_args)) ;;
       commit_futures <~
         io_gather (map _serialize_request batch_requests) ;;
       io_ret (List.concat commit_futures)) ;;
  aggregate_commit_future <~
    _write_aggregate_file directory item param_infos save_args ;;
  io_ret (commit_futures ++ [aggregate_commit_future]).

Definition save (directory : Path) (item : PyTree Value)
  (save_args : PyTree ArgLeaf) : IO unit :=
  commit_futures <~ async_save directory item save_args ;;
  _ <~ io_gather (map (fun f => io_emit (EvFutureResult f))
                    commit_futures) ;;
  io_emit (EvSyncGlobalDevices "PyTreeCheckpointHandler:save").

Definition _process_aggregated_value (info : PyTree ParamInfo)
  (value : PyTree Value) (args : PyTree RestoreArgs)
  : result (PyTree Value) :=
  match info with
  | Leaf info =>
      if skip_deserialize info then
        match args with
        | Leaf args =>
            let value := _try_array_cast value (restore_dtype args) in
            Ok (_maybe_shard_array value args)
        | _ => Raise (AttributeError "dtype")
        end
      else Ok value
  | _ => Raise (AttributeError "skip_deserialize")
  end.

Definition _deserialize_request (request : _BatchRequest)
  : IO (list (PyTree Value)) :=
  _ <~ io_emit (EvDeserialize (handler request) (infos request)
                  (args request)) ;;
  io_lift (handler_deserialize env (handler request) (infos request)
             (args request)).

(** [for info, value in zip(request.infos, deserialized):
    flat_restored[info.name] = value]. *)
Fixpoint _store_deserialized (flat_restored : dict string (PyTree Value))
  (infos : list ParamInfo) (deserialized : list (PyTree Value))
  : dict string (PyTree Value) :=
  match infos, deserialized with
  | info :: infos, value :: deserialized =>
      let flat_restored :=
        match name info with
        | Some n => dict_set String.eqb n value flat_restored
        | None => flat_restored
        end in
      _store_deserialized flat_restored infos deserialized
  | _, _ => flat_restored
  end.

(** [for request, deserialized in zip(batch_requests,
    deserialized_batches)]. *)
Fixpoint _store_batches (flat_restored : dict string (PyTree Value))
  (batch_requests : list _BatchRequest)
  (deserialized_batches : list (list (PyTree Value)))
  : dict string (PyTree Value) :=
  match batch_requests, deserialized_batches with
  | request :: batch_requests, deserialized :: deserialized_batches =>
      _store_batches
        (_store_deserialized flat_restored (infos request) deserialized)
        batch_requests deserialized_batches
  | _, _ => flat_restored
  end.

Definition _maybe_deserialize (structure : PyTree Value)
  (param_infos : PyTree ParamInfo) (restore_args : PyTree RestoreArgs)
  : IO (PyTree Value) :=
  structure <~
    io_lift (tree_map3 _process_aggregated_value param_infos structure
               restore_args) ;;
  batch_requests <~
    io_lift (_batched_serialization_requests structure param_infos
               (tree_fmap BRestore restore_args)) ;;
  deserialized_batches <~
    io_gather (map _deserialize_request batch_requests) ;;
  let flat_restored := to_flat_dict_sep "." structure in
  let flat_restored :=
    _store_batches flat_restored batch_requests deserialized_batches in
  io_lift (from_flat_dict_sep "." flat_restored structure).

Definition structure (directory : Path) : IO (PyTree Value) :=
  let checkpoint_path := path_join directory (_aggregate_filename self) in
  if path_exists env checkpoint_path then
    _ <~ io_emit (EvAggregateDeserialize checkpoint_path) ;;
    io_lift (aggregate_deserialize env checkpoint_path)
  else
    if _use_ocdbt self then
      io_raise (ValueError ("Checkpoint structure file does not exist at "
                          ++ directory ++ "."))
    else
      _ <~ io_emit (EvPytreeStructure directory) ;;
      io_lift (pytree_structure env directory).

(** [self._concurrent_gb * 10**9] of the closure [_create_byte_limiter]. *)
Definition _concurrent_bytes : Z := (_concurrent_gb self * 10 ^ 9)%Z.

Definition TransformFn : Type :=
  PyTree Value -> PyTree Value -> PyTree ParamInfo ->
  result (PyTree Value * PyTree ParamInfo).

Definition restore (directory : Path) (item : PyTree Value)
  (restore_args : PyTree RestoreArgs) (transforms : PyTree Transform)
  (transforms_default_to_original : bool)
  (transform_fn : option TransformFn) : IO (PyTree Value) :=
  if negb (path_exists env directory) then
    io_raise (FileNotFoundError
                ("Requested directory for restore does not exist at "
                 ++ directory))
  else
    let concurrent_bytes := _concurrent_bytes in
    _ <~ io_emit (EvByteLimiter concurrent_bytes) ;;
    let byte_limiter := Some concurrent_bytes in
    structure <~ structure directory ;;
    ' (param_infos, checkpoint_restore_args) <~
      io_lift (_get_restore_parameters directory byte_limiter item
                 structure transforms restore_args
                 transforms_default_to_original) ;;
    ' (structure, param_infos, restore_args, checkpoint_restore_args) <~
      match transform_fn with
      | Some fn =>
          match transforms with
          | PNone =>
              ' (structure, param_infos) <~
                io_lift (fn item structure param_infos) ;;
              let restore_args :=
                match restore_args with
                | PNone => tree_fmap (fun _ => default_RestoreArgs) item
                | _ => restore_args
                end in
              io_ret (structure, param_infos, restore_args, restore_args)
          | _ =>
              io_raise (ValueError
                "Cannot provide both `transforms` and `transform_fn`.")
          end
      | None =>
          io_ret (structure, param_infos, restore_args,
                  checkpoint_restore_args)
      end ;;
    restored_item <~
      _maybe_deserialize structure param_infos checkpoint_restore_args ;;
    restored_item <~
      match transform_fn with
      | None =>
          io_lift (_transform_structure item restored_item restore_args
                     transforms transforms_default_to_original)
      | Some _ => io_ret restored_item
      end ;;
    _ <~ io_emit (EvSyncGlobalDevices "PyTreeCheckpointHandler:restore") ;;
    io_ret restored_item.

Definition close : IO unit := io_emit EvClose.

End Handler.

Arguments _concurrent_bytes : simpl never.

(** ** A concrete world: one process, a checkpoint directory on disk

    The collaborators are instantiated the simplest way that still runs
    the handler end to end: type handlers are registered for integers,
    strings and arrays and keep each value under its path; the aggregate
    handler keeps the tree it was given; patterns are taken from the
    fragment of [re] without metacharacters, where a pattern matches
    exactly itself. *)

Module Scenario.

Definition is_meta (c : ascii) : bool :=
  existsb (Ascii.eqb c)
    (list_ascii_of_string ".^$*+?{}[]\|()").

Definition is_literal (pattern : string) : bool :=
  negb (existsb is_meta (list_ascii_of_string pattern)).

Definition literal_fullmatch (pattern s : string)
  : result (option ReMatch) :=
  if is_literal pattern then
    if String.eqb pattern s then Ok (Some [s]) else Ok None
  else Raise (ReError "pattern outside the literal fragment").

Definition literal_expand (m : ReMatch) (template : string)
  : result string :=
  if is_literal template then Ok template
  else Raise (ReError "template outside the literal fragment").

Definition registered (ty : PyType) : bool :=
  match ty with
  | TInt | TStr | TNdarray | TJaxArray => true
  | _ => false
  end.

Definition registry (ty : option PyType) : result Handler :=
  match ty with
  | None => Ok "NumpyHandler"
  | Some TInt => Ok "ScalarHandler"
  | Some TStr => Ok "StringHandler"
  | Some TNdarray => Ok "NumpyHandler"
  | Some TJaxArray => Ok "ArrayHandler"
  | Some _ => Raise (ValueError "Unknown type")
  end.

Definition supported_aggregation_type (value : PyTree Value) : bool :=
  match value with
  | Leaf (VInt _) | Leaf (VStr _) | Leaf (VPlaceholder _)
  | Leaf (VNdarray _) | Leaf (VJaxArray _ _) => true
  | Leaf _ => false
  | _ => is_empty_node value
  end.

Definition scalar (v : Value) : bool :=
  match v with VInt _ => true | _ => false end.

(** What is on disk: the paths that exist, the aggregate files and the
    individually stored leaves. *)
Record Disk : Type := mkDisk {
  paths : list Path;
  aggregates : dict Path (PyTree Value);
  leaves : dict Path (PyTree Value)
}.

Definition empty_disk : Disk := mkDisk [] [] [].

Definition read_leaf (disk : Disk) (info : ParamInfo)
  : result (PyTree Value) :=
  match path info with
  | Some p =>
      match dict_get String.eqb p (leaves disk) with
      | Some v => Ok v
      | None => Raise (CodecFailure p)
      end
  | None => Raise (CodecFailure "no path")
  end.

Definition world (disk : Disk) : World :=
  {| path_exists := fun p => existsb (String.eqb p) (paths disk);
     process_index := 0;
     aggregate_deserialize := fun p =>
       match dict_get String.eqb p (aggregates disk) with
       | Some t => Ok t
       | None => Raise (FileNotFoundError p)
       end;
     aggregate_serialize := fun p _ => Ok p;
     pytree_structure := fun p => Raise (FileNotFoundError p);
     is_supported_aggregation_type := supported_aggregation_type;
     is_scalar := scalar;
     has_type_handler := registered;
     get_type_handler := registry;
     dir_is_ocdbt_checkpoint := fun _ => false;
     handler_serialize := fun _ _ infos _ =>
       Ok (map (fun info => match path info with
                            | Some p => p
                            | None => ""
                            end) infos);
     handler_deserialize := fun _ infos _ => mapM (read_leaf disk) infos;
     astype := fun v _ => v;
     make_sharded_array := fun v _ => v;
     re_fullmatch := literal_fullmatch;
     match_expand := literal_expand;
     strip_tmp_dir_suffix := fun p => p |}.

(** The effect on the disk of the calls of a trace. *)
Fixpoint write_leaves (infos : list ParamInfo)
  (values : list (PyTree Value)) (disk : Disk) : Disk :=
  match infos, values with
  | info :: infos, value :: values =>
      let disk :=
        match path info with
        | Some p =>
            mkDisk (p :: paths disk) (aggregates disk)
              (dict_set String.eqb p value (leaves disk))
        | None => disk
        end in
      write_leaves infos values disk
  | _, _ => disk
  end.

Definition apply_event (disk : Disk) (ev : Event) : Disk :=
  match ev with
  | EvMakedirs p => mkDisk (p :: paths disk) (aggregates disk) (leaves disk)
  | EvAggregateSerialize p ser_item =>
      mkDisk (p :: paths disk)
        (dict_set String.eqb p ser_item (aggregates disk)) (leaves disk)
  | EvSerialize _ values infos _ => write_leaves infos values disk
  | _ => disk
  end.

Definition after (disk : Disk) (trace : list Event) : Disk :=
  fold_left apply_event trace disk.

(** The default handler, [PyTreeCheckpointHandler()]. *)
Definition handler0 : PyTreeCheckpointHandler :=
  __init__ None 96 false true.

(** The disk after [save(directory, item)] into an existing, empty
    directory. *)
Definition saved (directory : Path) (item : PyTree Value) : Disk :=
  let disk := mkDisk [directory] [] [] in
  after disk (snd (save (world disk) handler0 directory item PNone)).

End Scenario.

(** ** Shapes of trees *)

(** The nodes of a tree, without what its leaves hold. *)
Definition skeleton {A} (t : PyTree A) : PyTree unit :=
  tree_fmap (fun _ => tt) t.

(** No key occurs twice in a dictionary of the tree. *)
Fixpoint wf_keys {A} (t : PyTree A) : Prop :=
  match t with
  | Dict items =>
      NoDup (map fst items)
      /\ (fix go (l : list (string * PyTree A)) : Prop :=
            match l with
            | [] => True
            | (_, c) :: r => wf_keys c /\ go r
            end) items
  | _ => True
  end.

(** [t] has the nodes of [s], found by key, and [R] holds between each
    leaf of [s] and what [t] has there. *)
Fixpoint covers {X B} (R : X -> PyTree B -> Prop) (s : PyTree X)
  (t : PyTree B) : Prop :=
  match s with
  | PNone => t = PNone
  | Leaf x => R x t
  | Dict items =>
      match t with
      | Dict items' =>
          List.length items = List.length items'
          /\ (fix go (l : list (string * PyTree X)) : Prop :=
                match l with
                | [] => True
                | (k, c) :: r =>
                    match dict_get String.eqb k items' with
                    | Some c' => covers R c c'
                    | None => False
                    end /\ go r
                end) items
      | _ => False
      end
  end.

(** ** Data of the scenarios and of the statements *)

(** One turn of the loop of [flatten_up_to] at a dictionary. *)
Definition flatten_item {X B} (items' : list (string * PyTree B))
  (k : string) (c : PyTree X) : result (PyTree (X * PyTree B)) :=
  match dict_get String.eqb k items' with
  | Some c' => flatten_up_to c c'
  | None => Raise (TreeStructureError "Dict key mismatch")
  end.

(** A tree whose only leaf has no type handler, and what save builds
    for it. *)
Definition item_opt : PyTree Value :=
  Dict [("opt", Leaf (VObject "OptState"))].
Definition save_args_opt : PyTree SaveArgs :=
  Dict [("opt", Leaf (mkSaveArgs true None))].
Definition param_infos_opt : PyTree ParamInfo :=
  Dict [("opt", Leaf (mkParamInfo (Some "opt") (Some "ckpt/opt") true
                        None None))].

(** A tree with one aggregated and one individually stored leaf. *)
Definition item_mixed : PyTree Value :=
  Dict [("opt", Leaf (VObject "OptState")); ("w", Leaf (VInt 1))].
Definition save_args_mixed : PyTree SaveArgs :=
  Dict [("opt", Leaf (mkSaveArgs true None));
        ("w", Leaf (mkSaveArgs false None))].
Definition param_infos_mixed : PyTree ParamInfo :=
  Dict [("opt", Leaf (mkParamInfo (Some "opt") (Some "ckpt/opt") true
                        None None));
        ("w", Leaf (mkParamInfo (Some "w") (Some "ckpt/w") false None None))].

(** The ParamInfo [restore] builds for the leaf stored individually
    under [n]. *)
Definition restore_info (env : World) (self : PyTreeCheckpointHandler)
  (directory : Path) (n : string) : ParamInfo :=
  mkParamInfo (Some n) (Some (path_join directory n)) false
    (Some (dir_is_ocdbt_checkpoint env directory))
    (Some (_concurrent_bytes self)).

(** The [restore_args] that [_get_restore_parameters] flattens: when
    none are given, a default [RestoreArgs] at every leaf of the saved
    structure. *)
Definition restore_args_or_default (restore_args : PyTree RestoreArgs)
  (structure : PyTree Value) : PyTree RestoreArgs :=
  match restore_args with
  | PNone => tree_fmap (fun _ => default_RestoreArgs) structure
  | _ => restore_args
  end.

(** The saved trees of the scenarios. *)
Definition tree_a1c3 : PyTree Value :=
  Dict [("a", Leaf (VInt 1)); ("c", Leaf (VInt 3))].

Definition tree_a1 : PyTree Value := Dict [("a", Leaf (VInt 1))].

(** A rule that only sets [use_fallback]. *)
Definition fallback_rule : Transform :=
  mkTransform false None true None None None.

(** A rule that renames: the target key comes from [original]. *)
Definition rename_rule (original : string) : Transform :=
  mkTransform false (Some original) false None None None.

(** [Transform()]: a rule with every field at its default. *)
Definition plain_rule : Transform :=
  mkTransform false None false None None None.

(** [RestoreArgs(restore_type=int)]. *)
Definition restore_args_int : RestoreArgs :=
  mkRestoreArgs (Some TInt) None None.

(** The error of a [multi_value_fn] without [multi_value_fn_input_args]. *)
Definition missing_input_args_error : PyError :=
  ValueError "`multi_value_fn` was specified, but `multi_value_fn_input_args` were not. The latter must be specified to identify inputs for the function.".

(** The merge function of the scenarios: the sum of the integers at
    [x] and [y]. *)
Definition sum_x_y (transform_key : string) (tree : PyTree Value)
  (args : PyTree RestoreArgs) : result (PyTree Value) :=
  match tree_get ["x"] tree, tree_get ["y"] tree with
  | Some (Leaf (VInt x)), Some (Leaf (VInt y)) => Ok (Leaf (VInt (x + y)))
  | _, _ => Raise (TypeError "unsupported operand")
  end.

(** A [RestoreTransform] with [multi_value_fn=sum_x_y]. *)
Definition merge_rule
  (input_args : option (dict string (PyTree RestoreArgs))) : Transform :=
  mkTransform true None false None (Some (Fn3 sum_x_y)) input_args.

Definition tree_x1y2 : PyTree Value :=
  Dict [("x", Leaf (VInt 1)); ("y", Leaf (VInt 2))].

(** ** Further definitions *)



(** The handler [_group_value] resolves for one leaf: the one of
    [arg.restore_type] for a [RestoreArgs], the one of [type(value)]
    otherwise. *)
Definition handler_of_leaf (env : World) (value : PyTree Value)
  (arg : PyTree BatchArg) : result Handler :=
  match arg with
  | Leaf (BRestore a) => get_type_handler env (restore_type a)
  | _ => get_type_handler env (Some (type_of value))
  end.

Definition resolves_to (env : World) (h : Handler)
  (leaf : PyTree Value * ParamInfo * PyTree BatchArg) : bool :=
  match handler_of_leaf env (fst (fst leaf)) (snd leaf) with
  | Ok h' => String.eqb h' h
  | Raise _ => false
  end.

(** The leaves that [_group_value] does not skip, in traversal order,
    each as (value, info, arg). *)
Definition kept_leaves
  (leaves : list (TupleKey * PyTree ParamInfo * PyTree Value
                  * PyTree BatchArg))
  : list (PyTree Value * ParamInfo * PyTree BatchArg) :=
  flat_map (fun l =>
              match snd (fst (fst l)) with
              | Leaf info =>
                  if skip_deserialize info then []
                  else [(snd (fst l), info, snd l)]
              | _ => []
              end) leaves.

(** The parallel lists of a request, read by index. *)
Definition request_leaves (request : _BatchRequest)
  : list (PyTree Value * ParamInfo * PyTree BatchArg) :=
  combine (combine (values request) (infos request)) (args request).

Definition request_well_formed (request : _BatchRequest) : Prop :=
  List.length (values request) = List.length (infos request)
  /\ List.length (infos request) = List.length (args request).

(** ** Batches of leaves per type handler *)

Definition leaves_at (h : Handler) (grouped : dict Handler _BatchRequest)
  : list (PyTree Value * ParamInfo * PyTree BatchArg) :=
  match dict_get String.eqb h grouped with
  | Some request => request_leaves request
  | None => []
  end.

Definition grouped_invariant (grouped : dict Handler _BatchRequest) : Prop :=
  NoDup (map fst grouped)
  /\ Forall (fun hr => handler (snd hr) = fst hr
                       /\ request_well_formed (snd hr)) grouped.

(** The zipped leaves that the [tree_map] of
    [_batched_serialization_requests] visits, in its order. *)
Definition batch_leaves (tree : PyTree Value) (param_infos : PyTree ParamInfo)
  (args : PyTree BatchArg)
  : result (list (TupleKey * PyTree ParamInfo * PyTree Value
                  * PyTree BatchArg)) :=
  z2 <- flatten_up_to (tree_positions no_is_leaf [] param_infos) tree ;;
  z3 <- flatten_up_to z2 args ;;
  Ok (tree_leaves z3).

(** Three leaves that go to type handlers and one that stays in the
    aggregate file, with their infos and arguments at save. *)
Definition item_batches : PyTree Value :=
  Dict [("a", Leaf (VInt 1)); ("b", Leaf (VInt 2));
        ("opt", Leaf (VObject "OptState")); ("s", Leaf (VStr "x"))].
Definition param_infos_batches : PyTree ParamInfo :=
  Dict [("a", Leaf (mkParamInfo (Some "a") (Some "ckpt/a") false None None));
        ("b", Leaf (mkParamInfo (Some "b") (Some "ckpt/b") false None None));
        ("opt", Leaf (mkParamInfo (Some "opt") (Some "ckpt/opt") true
                        None None));
        ("s", Leaf (mkParamInfo (Some "s") (Some "ckpt/s") false None None))].
Definition args_batches : PyTree BatchArg :=
  Dict [("a", Leaf (BSave (mkSaveArgs false None)));
        ("b", Leaf (BSave (mkSaveArgs false None)));
        ("opt", Leaf (BSave (mkSaveArgs true None)));
        ("s", Leaf (BSave (mkSaveArgs false None)))].

(** ** Calls of a trace

    The calls that only saving makes: writes to the aggregate file and
    through type handlers, the creation of directories and the wait on
    a commit future. *)
Definition is_write (ev : Event) : bool :=
  match ev with
  | EvAggregateSerialize _ _ => true
  | EvMakedirs _ => true
  | EvSerialize _ _ _ _ => true
  | EvFutureResult _ => true
  | _ => false
  end.

(** The calls that only restoring makes. *)
Definition is_read (ev : Event) : bool :=
  match ev with
  | EvAggregateDeserialize _ => true
  | EvPytreeStructure _ => true
  | EvDeserialize _ _ _ => true
  | EvByteLimiter _ => true
  | _ => false
  end.

(** The directories created in a trace, in the order of the calls. *)
Definition created_dirs (trace : list Event) : list Path :=
  flat_map (fun ev => match ev with
                      | EvMakedirs p => [p]
                      | _ => []
                      end) trace.

(** The paths of the ParamInfos that are not marked
    [skip_deserialize], in the order of the leaves. *)
Definition unskipped_paths (param_infos : PyTree ParamInfo) : list Path :=
  flat_map (fun info =>
              if skip_deserialize info then []
              else match path info with
                   | Some p => [p]
                   | None => []
                   end) (tree_leaves param_infos).

Definition is_makedirs (ev : Event) : bool :=
  match ev with
  | EvMakedirs _ => true
  | _ => false
  end.

(** The coroutine gathered at one zipped leaf of the second [tree_map]
    of [async_save]. *)
Definition create_dir_op (env : World)
  (x : TupleKey * PyTree ParamInfo * PyTree SaveArgs) : IO unit :=
  match snd (fst x), snd x with
  | Leaf info, Leaf args => _create_param_save_dir env info args
  | _, _ => io_raise (AttributeError "aggregate")
  end.

Definition is_aggregate_write (ev : Event) : bool :=
  match ev with
  | EvAggregateSerialize _ _ => true
  | _ => false
  end.

(** What holds of every ParamInfo that [_get_restore_parameters] builds
    for [directory] with the byte limiter [limiter]. *)
Definition restore_info_ok (env : World) (directory : Path)
  (limiter : option ByteLimiter) (info : ParamInfo) : Prop :=
  skip_deserialize info
  = match path info with
    | None => true
    | Some _ => false
    end
  /\ (skip_deserialize info = false ->
      byte_limiter info = limiter
      /\ is_ocdbt_checkpoint info
         = Some (dir_is_ocdbt_checkpoint env directory)).

(** Where [_get_param_info] finds a leaf stored: the path a
    placeholder names, the path of a [ts.Spec], or nowhere. *)
Definition stored_path (env : World) (directory : Path) (v : Value)
  : option Path :=
  match v with
  | VPlaceholder n => Some (path_join directory n)
  | VTsSpec kvstore_path => Some (strip_tmp_dir_suffix env kvstore_path)
  | _ => None
  end.

(** The error of [_get_param_info] on a leaf it cannot classify; the
    message of the source also names the leaf's type. *)
Definition unsupported_type_error : PyError := ValueError "Unsupported type".

(** A tree in which two leaves have the same dot-joined key path. *)
Definition item_dotted : PyTree Value :=
  Dict [("a", Dict [("b", Leaf (VInt 1))]); ("a.b", Leaf (VInt 2))].
Definition save_args_dotted : PyTree SaveArgs :=
  Dict [("a", Dict [("b", Leaf (mkSaveArgs false None))]);
        ("a.b", Leaf (mkSaveArgs false None))].
Definition info_dotted : ParamInfo :=
  mkParamInfo (Some "a.b") (Some "ckpt/a.b") false None None.

(** A checkpoint whose aggregate file holds an object that is neither
    a placeholder nor of a supported aggregation type. *)
Definition disk_unsupported : Scenario.Disk :=
  Scenario.mkDisk ["ckpt"; "ckpt/checkpoint"]
    [("ckpt/checkpoint", Dict [("x", Leaf (VObject "Foo"))])] [].

(** A [transform_fn] that changes nothing. *)
Definition identity_transform_fn : TransformFn :=
  fun _ structure param_infos => Ok (structure, param_infos).

(** The worlds of the examples below: nothing on disk, and the disk
    after [save("ckpt", tree_a1)]. *)
Definition world0 : World := Scenario.world Scenario.empty_disk.
Definition world_a1 : World := Scenario.world (Scenario.saved "ckpt" tree_a1).

(** The barriers reached in a trace, in order. *)
Definition barriers (trace : list Event) : list string :=
  flat_map (fun ev => match ev with
                      | EvSyncGlobalDevices barrier => [barrier]
                      | _ => []
                      end) trace.

Definition is_barrier (ev : Event) : bool :=
  match ev with
  | EvSyncGlobalDevices _ => true
  | _ => false
  end.

(** The error of a [multi_value_fn] on a rule that is not a
    [RestoreTransform]. *)
Definition plain_multi_value_fn_error : PyError :=
  ValueError "Must use RestoreTransform in order to use multi_value_fn during restore.".

(** A plain [Transform] with [multi_value_fn=sum_x_y]. *)
Definition plain_merge_rule : Transform :=
  mkTransform false None false None (Some (Fn3 sum_x_y)) None.

(** The leaves of [item] as a [tree_map] with
    [is_leaf=utils.is_empty_or_leaf] visits them: key path and value,
    an empty node counting as a leaf. *)
Definition item_leaves (item : PyTree Value)
  : list (TupleKey * PyTree Value) :=
  tree_leaves (tree_positions is_empty_or_leaf [] item).

(** The SaveArgs and the ParamInfo that [async_save] derives for such
    a leaf when the caller gives no [save_args]. *)
Definition default_args_of (env : World) (p : TupleKey * PyTree Value)
  : SaveArgs :=
  mkSaveArgs (negb (has_type_handler env (type_of (snd p)))) None.

Definition save_info_of (env : World) (directory : Path)
  (p : TupleKey * PyTree Value) : ParamInfo :=
  mkParamInfo (Some (_param_name_from_keypath (fst p)))
    (Some (path_join directory (_param_name_from_keypath (fst p))))
    (negb (has_type_handler env (type_of (snd p)))) None None.

(** The registry answers for every type it claims to handle. *)
Definition handlers_registered (env : World) : Prop :=
  forall ty, has_type_handler env ty = true ->
             exists h, get_type_handler env (Some ty) = Ok h.

(** ** [StandardCheckpointHandler]: validation of its inputs

    The class of [standard_checkpoint_handler.py] wraps a
    [PyTreeCheckpointHandler]; of its state only [_supported_types]
    matters below, as the test [isinstance(x, self._supported_types)]
    on the type of a leaf. *)
Record StandardCheckpointHandler : Type := mkStandardCheckpointHandler {
  _pytree_handler : PyTreeCheckpointHandler;
  _supported_types : PyType -> bool
}.

(** [jax.tree_util.tree_map(lambda x: None, item)]. *)
Fixpoint none_like {A B} (t : PyTree A) : PyTree B :=
  match t with
  | Dict items =>
      Dict ((fix go (l : list (string * PyTree A)) :=
               match l with
               | [] => []
               | (k, c) :: r => (k, none_like c) :: go r
               end) items)
  | _ => PNone
  end.

(** [isinstance(x, jax.ShapeDtypeStruct)]. *)
Definition is_ShapeDtypeStruct (x : PyTree Value) : bool :=
  match x with
  | Leaf (VObject type_name) => String.eqb type_name "ShapeDtypeStruct"
  | _ => false
  end.

(** The closure [_check_input] of [_validate_save_state]; the messages
    of the source also name the key and the type. *)
Definition _check_input_save (self : StandardCheckpointHandler)
  (k : TupleKey) (x : PyTree Value) (arg : PyTree SaveArgs)
  : result (PyTree unit) :=
  _ <- match arg with
       | PNone => Ok tt
       | Leaf a =>
           if aggregate a then
             Raise (ValueError "Unsupported option `aggregate`")
           else Ok tt
       | Dict _ => Raise (AttributeError "aggregate")
       end ;;
  if negb (_supported_types self (type_of x)) then
    Raise (ValueError "Unsupported type")
  else Ok PNone.

Definition _validate_save_state (self : StandardCheckpointHandler)
  (item : PyTree Value) (save_args : PyTree SaveArgs) : result unit :=
  match item with
  | PNone => Raise (ValueError "Must provide item to save.")
  | _ =>
      let save_args :=
        match save_args with
        | PNone => none_like item
        | _ => save_args
        end in
      z <- flatten_up_to (tree_positions no_is_leaf [] item) save_args ;;
      _ <- tree_bind (fun '((k, x), arg) => _check_input_save self k x arg)
             z ;;
      Ok tt
  end.

(** The closure [_check_input] of [_validate_restore_state]. *)
Definition _check_input_restore (self : StandardCheckpointHandler)
  (k : TupleKey) (x : PyTree Value) : result (PyTree unit) :=
  if negb (_supported_types self (type_of x))
     && negb (is_ShapeDtypeStruct x) then
    Raise (ValueError "Unsupported type")
  else Ok PNone.

Definition _validate_restore_state (self : StandardCheckpointHandler)
  (item : PyTree Value) : result unit :=
  _ <- tree_map_with_path no_is_leaf (_check_input_restore self) item ;;
  Ok tt.

(** A handler as [StandardCheckpointHandler()] builds it, with integers
    and arrays as the supported types. *)
Definition standard_types (ty : PyType) : bool :=
  match ty with
  | TInt | TNdarray | TJaxArray => true
  | _ => false
  end.

Definition standard_handler : StandardCheckpointHandler :=
  mkStandardCheckpointHandler (__init__ None 96 true true) standard_types.

(** * Properties *)

(** ** Key paths *)

Lemma tuplekey_eqb_eq (a b : TupleKey) : tuplekey_eqb a b = true <-> a = b.
Proof.
  unfold tuplekey_eqb. destruct (list_eq_dec string_dec a b); split; congruence.
Qed.

Lemma tuplekey_eqb_refl (a : TupleKey) : tuplekey_eqb a a = true.
Proof. now apply tuplekey_eqb_eq. Qed.

(** ** The error monad and loops over dictionary items *)

Lemma rbind_Ok {A B} (c : result A) (k : A -> result B) (b : B) :
  rbind c k = Ok b -> exists a, c = Ok a /\ k a = Ok b.
Proof. destruct c as [a|e]; simpl; intros H; [eauto | discriminate]. Qed.

Ltac inv_bind H :=
  let a := fresh "a" in
  let Ha := fresh "Ha" in
  apply rbind_Ok in H; destruct H as (a & Ha & H).

Lemma dict_get_string_In {V} (k : string) (d : dict string V) (v : V) :
  dict_get String.eqb k d = Some v -> In (k, v) d.
Proof.
  induction d as [|[k' v'] r IH]; simpl; [discriminate|].
  destruct (String.eqb_spec k k') as [->|Hne].
  - intros [= ->]. now left.
  - intros H. right. auto.
Qed.

(** A loop that rebuilds a dictionary item by item, keeping the keys. *)
Lemma dict_get_mapM {X Y} (g : string -> X -> result Y)
  (items : list (string * X)) :
  forall zs,
    mapM (fun kc => z <- g (fst kc) (snd kc) ;; Ok (fst kc, z)) items = Ok zs ->
    forall k,
      match dict_get String.eqb k zs with
      | Some z => exists c, dict_get String.eqb k items = Some c /\ g k c = Ok z
      | None => dict_get String.eqb k items = None
      end.
Proof.
  induction items as [|[k0 c0] r IH]; simpl; intros zs H k.
  - injection H as <-. reflexivity.
  - inv_bind H. inv_bind Ha. injection Ha as <-.
    inv_bind H. injection H as <-. simpl.
    destruct (String.eqb_spec k k0) as [->|Hne]; [eauto|].
    apply IH. assumption.
Qed.

Lemma dict_get_map_items {X Y} (g : string -> X -> Y)
  (items : list (string * X)) (k : string) :
  dict_get String.eqb k (map (fun kc => (fst kc, g (fst kc) (snd kc))) items)
  = option_map (g k) (dict_get String.eqb k items).
Proof.
  induction items as [|[k0 c0] r IH]; simpl; [reflexivity|].
  destruct (String.eqb_spec k k0) as [->|Hne]; [reflexivity | apply IH].
Qed.

(** ** Equations of the tree functions at a dictionary *)

Lemma tree_bind_Dict {X C} (f : X -> result (PyTree C)) items :
  tree_bind f (Dict items)
  = (zs <- mapM (fun kc => z <- (fun _ => tree_bind f) (fst kc) (snd kc) ;;
                           Ok (fst kc, z)) items ;;
     Ok (Dict zs)).
Proof.
  simpl. f_equal.
  induction items as [|[k c] r IH]; simpl; [reflexivity|]. rewrite IH. now destruct (tree_bind f c).
Qed.

Lemma tree_fmap_Dict {A B} (f : A -> B) items :
  tree_fmap f (Dict items)
  = Dict (map (fun kc => (fst kc, (fun _ => tree_fmap f) (fst kc) (snd kc)))
            items).
Proof.
  simpl. f_equal.
  induction items as [|[k c] r IH]; simpl; [reflexivity|]. now rewrite IH.
Qed.

Lemma tree_positions_Dict {A} (is_leaf : PyTree A -> bool) kp items :
  is_leaf (Dict items) = false ->
  tree_positions is_leaf kp (Dict items)
  = Dict (map (fun kc =>
                 (fst kc,
                  (fun k => tree_positions is_leaf (kp ++ [k])) (fst kc)
                    (snd kc))) items).
Proof.
  intros Hl. simpl. rewrite Hl. f_equal. clear Hl.
  induction items as [|[k c] r IH]; simpl; [reflexivity|]. now rewrite IH.
Qed.

Lemma flatten_up_to_Dict {X B} (items : list (string * PyTree X))
  (items' : list (string * PyTree B)) :
  flatten_up_to (Dict items) (Dict items')
  = if Nat.eqb (List.length items) (List.length items') then
      zs <- mapM (fun kc => z <- flatten_item items' (fst kc) (snd kc) ;;
                            Ok (fst kc, z)) items ;;
      Ok (Dict zs)
    else Raise (TreeStructureError "Dict key mismatch").
Proof.
  simpl. destruct (Nat.eqb _ _); [|reflexivity]. f_equal.
  induction items as [|[k c] r IH]; simpl; [reflexivity|].
  rewrite IH. unfold flatten_item.
  destruct (dict_get String.eqb k items') as [c'|]; [|reflexivity].
  now destruct (flatten_up_to c c').
Qed.

(** ** Key paths through the tree functions *)

Lemma tree_get_not_dict {A} (t s : PyTree A) (kp : TupleKey) :
  (forall items, t <> Dict items) ->
  tree_get kp t = Some s -> kp = [] /\ s = t.
Proof.
  intros Ht. destruct kp as [|k kp]; simpl.
  - intros [= <-]. auto.
  - destruct t; try discriminate. now destruct (Ht items).
Qed.

Lemma tree_get_bind_leaf {X C} (f : X -> result (PyTree C)) :
  (forall x r, f x = Ok r -> exists y, r = Leaf y) ->
  forall t t' kp y,
    tree_bind f t = Ok t' ->
    tree_get kp t' = Some (Leaf y) ->
    exists x, tree_get kp t = Some (Leaf x) /\ f x = Ok (Leaf y).
Proof.
  intros Hf t. induction t as [|x|items IH] using PyTree_nested_ind;
    intros t' kp y Hb Hg.
  - injection Hb as <-.
    apply tree_get_not_dict in Hg; [|discriminate]. now destruct Hg.
  - simpl in Hb. destruct (Hf _ _ Hb) as (y' & ->).
    apply tree_get_not_dict in Hg; [|discriminate].
    destruct Hg as (-> & [= ->]). exists x. auto.
  - rewrite tree_bind_Dict in Hb. inv_bind Hb. injection Hb as <-.
    destruct kp as [|k kp]; [discriminate|]. simpl in Hg |- *.
    pose proof (dict_get_mapM (fun _ => tree_bind f) _ Ha k) as Hk.
    destruct (dict_get String.eqb k a) as [z|]; [|discriminate].
    destruct Hk as (c & Hc & Hz). rewrite Hc.
    rewrite Forall_forall in IH.
    apply (IH _ (dict_get_string_In _ _ Hc) z kp y Hz Hg).
Qed.

Lemma tree_get_flatten_up_to {X B} (shape : PyTree X) :
  forall (t : PyTree B) z kp x b,
    flatten_up_to shape t = Ok z ->
    tree_get kp z = Some (Leaf (x, b)) ->
    tree_get kp shape = Some (Leaf x) /\ tree_get kp t = Some b.
Proof.
  induction shape as [|x0|items IH] using PyTree_nested_ind;
    intros t z kp x b Hf Hg.
  - simpl in Hf. destruct t; try discriminate. injection Hf as <-.
    apply tree_get_not_dict in Hg; [|discriminate]. now destruct Hg.
  - injection Hf as <-.
    apply tree_get_not_dict in Hg; [|discriminate].
    destruct Hg as (-> & [= -> ->]). auto.
  - destruct t as [| |items']; try discriminate.
    rewrite flatten_up_to_Dict in Hf.
    destruct (Nat.eqb _ _); [|discriminate].
    inv_bind Hf. injection Hf as <-.
    destruct kp as [|k kp]; [discriminate|]. simpl in Hg |- *.
    pose proof (dict_get_mapM (flatten_item items') _ Ha k) as Hk.
    destruct (dict_get String.eqb k a) as [z|]; [|discriminate].
    destruct Hk as (c & Hc & Hz). rewrite Hc.
    unfold flatten_item in Hz.
    destruct (dict_get String.eqb k items') as [c'|]; [|discriminate].
    rewrite Forall_forall in IH.
    apply (IH _ (dict_get_string_In _ _ Hc) c' z kp x b Hz Hg).
Qed.

Lemma tree_get_fmap_leaf {A B} (f : A -> B) (t : PyTree A) :
  forall kp y,
    tree_get kp (tree_fmap f t) = Some (Leaf y) ->
    exists x, tree_get kp t = Some (Leaf x) /\ y = f x.
Proof.
  induction t as [|x|items IH] using PyTree_nested_ind; intros kp y Hg.
  - apply tree_get_not_dict in Hg; [|discriminate]. now destruct Hg.
  - apply tree_get_not_dict in Hg; [|discriminate].
    destruct Hg as (-> & [= ->]). exists x. auto.
  - rewrite tree_fmap_Dict in Hg.
    destruct kp as [|k kp]; [discriminate|]. simpl in Hg |- *.
    pose proof (dict_get_map_items (fun _ => tree_fmap f) items k) as E.
    cbv beta in E. rewrite E in Hg. clear E.
    destruct (dict_get String.eqb k items) as [c|] eqn:Hc; [|discriminate].
    simpl in Hg. rewrite Forall_forall in IH.
    apply (IH _ (dict_get_string_In _ _ Hc) kp y Hg).
Qed.

Lemma tree_get_positions {A} (is_leaf : PyTree A -> bool) (t : PyTree A) :
  forall pre kp kp0 s,
    tree_get kp (tree_positions is_leaf pre t) = Some (Leaf (kp0, s)) ->
    kp0 = pre ++ kp /\ tree_get kp t = Some s.
Proof.
  induction t as [|x|items IH] using PyTree_nested_ind; intros pre kp kp0 s Hg.
  - simpl in Hg. destruct (is_leaf PNone);
      (apply tree_get_not_dict in Hg; [|discriminate]);
      destruct Hg as (-> & Hg); [|discriminate].
    injection Hg as <- <-. now rewrite app_nil_r.
  - assert (Hp : tree_positions is_leaf pre (Leaf x) = Leaf (pre, Leaf x))
      by (simpl; now destruct (is_leaf (Leaf x))).
    rewrite Hp in Hg.
    apply tree_get_not_dict in Hg; [|discriminate].
    destruct Hg as (-> & [= <- <-]). now rewrite app_nil_r.
  - destruct (is_leaf (Dict items)) eqn:Hl.
    + assert (Hp : tree_positions is_leaf pre (Dict items)
                   = Leaf (pre, Dict items)) by (simpl; now rewrite Hl).
      rewrite Hp in Hg.
      apply tree_get_not_dict in Hg; [|discriminate].
      destruct Hg as (-> & [= <- <-]). now rewrite app_nil_r.
    + rewrite (tree_positions_Dict _ _ _ Hl) in Hg.
      destruct kp as [|k kp]; [discriminate|]. simpl in Hg |- *.
      pose proof (dict_get_map_items
                    (fun k => tree_positions is_leaf (pre ++ [k])) items k) as E.
      cbv beta in E. rewrite E in Hg. clear E.
      destruct (dict_get String.eqb k items) as [c|] eqn:Hc; [|discriminate].
      simpl in Hg. rewrite Forall_forall in IH.
      destruct (IH _ (dict_get_string_In _ _ Hc) _ _ _ _ Hg) as (-> & Hs).
      split; [now rewrite <- app_assoc | assumption].
Qed.

(** ** From a leaf of the first tree to what the map puts there *)

Lemma tree_get_positions_leaf {A} (t : PyTree A) :
  forall pre kp a,
    tree_get kp t = Some (Leaf a) ->
    tree_get kp (tree_positions no_is_leaf pre t)
    = Some (Leaf (pre ++ kp, Leaf a)).
Proof.
  induction t as [|x|items IH] using PyTree_nested_ind; intros pre kp a Hg.
  - apply tree_get_not_dict in Hg; [|discriminate]. now destruct Hg.
  - apply tree_get_not_dict in Hg; [|discriminate].
    destruct Hg as (-> & [= ->]). simpl. now rewrite app_nil_r.
  - rewrite tree_positions_Dict by reflexivity.
    destruct kp as [|k kp]; [discriminate|]. simpl in Hg |- *.
    pose proof (dict_get_map_items
                  (fun k => tree_positions no_is_leaf (pre ++ [k])) items k)
      as E.
    cbv beta in E. rewrite E. clear E.
    destruct (dict_get String.eqb k items) as [c|] eqn:Hc; [|discriminate].
    simpl. rewrite Forall_forall in IH.
    pose proof (IH _ (dict_get_string_In _ _ Hc) (pre ++ [k]) kp a Hg) as E.
    simpl in E. rewrite E. now rewrite <- app_assoc.
Qed.

Lemma tree_get_flatten_up_to_leaf {X B} (shape : PyTree X) :
  forall (t : PyTree B) z kp x,
    flatten_up_to shape t = Ok z ->
    tree_get kp shape = Some (Leaf x) ->
    exists b, tree_get kp t = Some b /\ tree_get kp z = Some (Leaf (x, b)).
Proof.
  induction shape as [|x0|items IH] using PyTree_nested_ind;
    intros t z kp x Hf Hg.
  - apply tree_get_not_dict in Hg; [|discriminate]. now destruct Hg.
  - apply tree_get_not_dict in Hg; [|discriminate].
    destruct Hg as (-> & [= ->]). injection Hf as <-. exists t. auto.
  - destruct t as [| |items']; try discriminate.
    rewrite flatten_up_to_Dict in Hf.
    destruct (Nat.eqb _ _); [|discriminate].
    inv_bind Hf. injection Hf as <-.
    destruct kp as [|k kp]; [discriminate|]. simpl in Hg |- *.
    pose proof (dict_get_mapM (flatten_item items') _ Ha k) as Hk.
    destruct (dict_get String.eqb k items) as [c|] eqn:Hc; [|discriminate].
    destruct (dict_get String.eqb k a) as [zc|]; [|discriminate].
    destruct Hk as (c0 & [= <-] & Hz). unfold flatten_item in Hz.
    destruct (dict_get String.eqb k items') as [c'|]; [|discriminate].
    rewrite Forall_forall in IH.
    apply (IH _ (dict_get_string_In _ _ Hc) c' zc kp x Hz Hg).
Qed.

Lemma tree_get_bind {X C} (f : X -> result (PyTree C)) (t : PyTree X) :
  forall t' kp x,
    tree_bind f t = Ok t' ->
    tree_get kp t = Some (Leaf x) ->
    exists r, f x = Ok r /\ tree_get kp t' = Some r.
Proof.
  induction t as [|x0|items IH] using PyTree_nested_ind; intros t' kp x Hb Hg.
  - apply tree_get_not_dict in Hg; [|discriminate]. now destruct Hg.
  - apply tree_get_not_dict in Hg; [|discriminate].
    destruct Hg as (-> & [= ->]). exists t'. auto.
  - rewrite tree_bind_Dict in Hb. inv_bind Hb. injection Hb as <-.
    destruct kp as [|k kp]; [discriminate|]. simpl in Hg |- *.
    pose proof (dict_get_mapM (fun _ => tree_bind f) _ Ha k) as Hk.
    destruct (dict_get String.eqb k items) as [c|] eqn:Hc; [|discriminate].
    destruct (dict_get String.eqb k a) as [zc|]; [|discriminate].
    destruct Hk as (c0 & [= <-] & Hz).
    rewrite Forall_forall in IH.
    apply (IH _ (dict_get_string_In _ _ Hc) zc kp x Hz Hg).
Qed.

(** What [tree_map3] calls its function on, and where the result goes. *)
Lemma tree_map3_at {A B C D}
  (f : PyTree A -> PyTree B -> PyTree C -> result (PyTree D))
  (t1 : PyTree A) (t2 : PyTree B) (t3 : PyTree C) (t' : PyTree D)
  (kp : TupleKey) (a : A) :
  tree_map3 f t1 t2 t3 = Ok t' ->
  tree_get kp t1 = Some (Leaf a) ->
  exists b c r,
    tree_get kp t2 = Some b /\ tree_get kp t3 = Some c
    /\ f (Leaf a) b c = Ok r /\ tree_get kp t' = Some r.
Proof.
  unfold tree_map3. intros H Hg.
  inv_bind H. rename a0 into z2. inv_bind H. rename a0 into z3.
  pose proof (tree_get_positions_leaf t1 [] kp Hg) as Hp.
  destruct (tree_get_flatten_up_to_leaf _ _ _ Ha Hp) as (b & Hb & Hz2).
  destruct (tree_get_flatten_up_to_leaf _ _ _ Ha0 Hz2) as (c & Hc & Hz3).
  destruct (tree_get_bind _ _ _ H Hz3) as (r & Hr & Ht).
  exists b, c, r. auto.
Qed.

Lemma tree_get_positions_empty_or_leaf {A} (t : PyTree A) :
  forall pre kp s,
    tree_get kp t = Some s ->
    is_empty_or_leaf s = true ->
    tree_get kp (tree_positions is_empty_or_leaf pre t)
    = Some (Leaf (pre ++ kp, s)).
Proof.
  induction t as [|x|items IH] using PyTree_nested_ind; intros pre kp s Hg Hl.
  - apply tree_get_not_dict in Hg; [|discriminate].
    destruct Hg as (-> & ->). simpl. now rewrite app_nil_r.
  - apply tree_get_not_dict in Hg; [|discriminate].
    destruct Hg as (-> & ->). simpl. now rewrite app_nil_r.
  - destruct kp as [|k kp].
    + injection Hg as <-. simpl in *. rewrite Hl. simpl.
      now rewrite app_nil_r.
    + simpl in Hg.
      destruct (dict_get String.eqb k items) as [c|] eqn:Hc; [|discriminate].
      assert (Hne : is_empty_or_leaf (Dict items) = false)
        by (destruct items; [discriminate | reflexivity]).
      rewrite (tree_positions_Dict _ _ _ Hne). simpl.
      pose proof (dict_get_map_items
                    (fun k => tree_positions is_empty_or_leaf (pre ++ [k]))
                    items k) as E.
      cbv beta in E. rewrite E, Hc. clear E. simpl.
      rewrite Forall_forall in IH.
      pose proof (IH _ (dict_get_string_In _ _ Hc) (pre ++ [k]) kp s Hg Hl)
        as E.
      simpl in E. rewrite E. now rewrite <- app_assoc.
Qed.

Lemma tree_get_fmap {A B} (f : A -> B) (t : PyTree A) :
  forall kp x,
    tree_get kp t = Some (Leaf x) ->
    tree_get kp (tree_fmap f t) = Some (Leaf (f x)).
Proof.
  induction t as [|x0|items IH] using PyTree_nested_ind; intros kp x Hg.
  - apply tree_get_not_dict in Hg; [|discriminate]. now destruct Hg.
  - apply tree_get_not_dict in Hg; [|discriminate].
    now destruct Hg as (-> & [= ->]).
  - rewrite tree_fmap_Dict.
    destruct kp as [|k kp]; [discriminate|]. simpl in Hg |- *.
    pose proof (dict_get_map_items (fun _ => tree_fmap f) items k) as E.
    cbv beta in E. rewrite E. clear E.
    destruct (dict_get String.eqb k items) as [c|] eqn:Hc; [|discriminate].
    simpl. rewrite Forall_forall in IH.
    apply (IH _ (dict_get_string_In _ _ Hc) kp x Hg).
Qed.

(** ** Trees of one shape: the maps over them return *)

Lemma wf_keys_Dict {A} (items : list (string * PyTree A)) :
  wf_keys (Dict items)
  <-> NoDup (map fst items) /\ Forall (fun kc => wf_keys (snd kc)) items.
Proof.
  simpl. split; intros [Hn Hc]; split; try assumption.
  - induction items as [|[k c] r IH]; constructor.
    + apply Hc.
    + apply IH; [now inversion Hn | apply Hc].
  - induction items as [|[k c] r IH]; [exact I|].
    inversion Hc; subst. split; [assumption|].
    apply IH; [now inversion Hn | assumption].
Qed.

Lemma skeleton_Dict {A} (items : list (string * PyTree A)) :
  skeleton (Dict items)
  = Dict (map (fun kc => (fst kc, skeleton (snd kc))) items).
Proof. unfold skeleton. now rewrite tree_fmap_Dict. Qed.

Lemma skeleton_fmap {A B} (f : A -> B) (t : PyTree A) :
  skeleton (tree_fmap f t) = skeleton t.
Proof.
  induction t as [|x|items IH] using PyTree_nested_ind; try reflexivity.
  rewrite tree_fmap_Dict, !skeleton_Dict. f_equal.
  rewrite map_map. simpl. apply map_ext_in. intros [k c] Hin. simpl.
  f_equal. rewrite Forall_forall in IH. apply (IH _ Hin).
Qed.

Lemma wf_keys_skeleton {A B} (t : PyTree A) :
  forall (t' : PyTree B), skeleton t = skeleton t' -> wf_keys t -> wf_keys t'.
Proof.
  induction t as [|x|items IH] using PyTree_nested_ind;
    intros t' Hs Hw; destruct t' as [|y|items']; try discriminate;
    try exact I.
  rewrite !skeleton_Dict in Hs. injection Hs as Hs.
  apply wf_keys_Dict in Hw. destruct Hw as [Hn Hc]. apply wf_keys_Dict.
  split.
  - assert (E : map fst items = map fst items').
    { apply (f_equal (map fst)) in Hs. rewrite !map_map in Hs. exact Hs. }
    now rewrite <- E.
  - revert items' Hs. induction items as [|[k c] r IHr];
      intros [|[k' c'] r'] Hs; try discriminate; constructor.
    + simpl in Hs. injection Hs as _ Hc' _. simpl.
      inversion IH; subst. inversion Hc; subst. simpl in *.
      now apply (H1 c').
    + simpl in Hs. injection Hs as _ _ Hr.
      inversion IH; subst. inversion Hc; subst. inversion Hn; subst.
      now apply IHr.
Qed.

Lemma covers_Dict {X B} (R : X -> PyTree B -> Prop) items items' :
  covers R (Dict items) (Dict items')
  <-> List.length items = List.length items'
      /\ Forall (fun kc => exists c', dict_get String.eqb (fst kc) items' = Some c'
                                      /\ covers R (snd kc) c') items.
Proof.
  simpl. split; intros [Hl Hc]; split; try assumption; clear Hl.
  - induction items as [|[k c] r IH]; constructor.
    + simpl. destruct Hc as [Hc _].
      destruct (dict_get String.eqb k items'); [eauto | contradiction].
    + apply IH. apply Hc.
  - induction items as [|[k c] r IH]; [exact I|].
    inversion Hc as [|? ? (c' & Hg & Hcov) Hr]; subst. simpl in Hg.
    rewrite Hg. split; [assumption | now apply IH].
Qed.

Lemma tree_leaves_Dict {X} (items : list (string * PyTree X)) :
  tree_leaves (Dict items) = flat_map (fun kc => tree_leaves (snd kc)) items.
Proof.
  simpl. induction items as [|[k c] r IH]; simpl; [reflexivity|].
  now rewrite IH.
Qed.

Lemma flatten_up_to_covers {X B} (R : X -> PyTree B -> Prop) (s : PyTree X) :
  forall t,
    covers R s t ->
    exists z,
      flatten_up_to s t = Ok z
      /\ skeleton z = skeleton s
      /\ Forall (fun p => R (fst p) (snd p)) (tree_leaves z).
Proof.
  induction s as [|x|items IH] using PyTree_nested_ind; intros t Hc.
  - simpl in Hc. subst. exists PNone. repeat split. constructor.
  - exists (Leaf (x, t)). repeat split. constructor; [exact Hc|constructor].
  - destruct t as [| |items']; try contradiction.
    apply covers_Dict in Hc. destruct Hc as [Hl Hc].
    rewrite flatten_up_to_Dict, Hl, Nat.eqb_refl.
    assert (Hloop : exists zs,
               mapM (fun kc => z <- flatten_item items' (fst kc) (snd kc) ;;
                               Ok (fst kc, z)) items = Ok zs
               /\ map (fun kc => (fst kc, skeleton (snd kc))) zs
                  = map (fun kc => (fst kc, skeleton (snd kc))) items
               /\ Forall (fun p => R (fst p) (snd p))
                    (flat_map (fun kc => tree_leaves (snd kc)) zs)).
    { clear Hl. induction items as [|[k c] r IHr].
      - exists []. repeat split. constructor.
      - inversion IH as [|? ? IHc IHrest]; subst.
        inversion Hc as [|? ? (c' & Hg & Hcov) Hr]; subst.
        simpl in Hg, Hcov, IHc.
        destruct (IHc c' Hcov) as (z & Hz & Hsk & Hlv).
        destruct (IHr IHrest Hr) as (zs & Hzs & Hsks & Hlvs).
        exists ((k, z) :: zs). simpl. unfold flatten_item at 1.
        rewrite Hg, Hz. simpl. rewrite Hzs. simpl.
        repeat split.
        + now rewrite Hsk, Hsks.
        + apply Forall_app. split; assumption. }
    destruct Hloop as (zs & Hzs & Hsk & Hlv).
    exists (Dict zs). rewrite Hzs. split; [reflexivity|]. split.
    + rewrite !skeleton_Dict. now rewrite Hsk.
    + now rewrite tree_leaves_Dict.
Qed.

Lemma flatten_up_to_skeleton {X B} (s : PyTree X) :
  forall (t : PyTree B) z,
    flatten_up_to s t = Ok z -> skeleton z = skeleton s.
Proof.
  induction s as [|x|items IH] using PyTree_nested_ind; intros t z H.
  - simpl in H. destruct t; try discriminate. now injection H as <-.
  - now injection H as <-.
  - destruct t as [| |items']; try discriminate.
    rewrite flatten_up_to_Dict in H.
    destruct (Nat.eqb _ _); [|discriminate].
    inv_bind H. injection H as <-. rewrite !skeleton_Dict. f_equal.
    revert a Ha. induction items as [|[k c] r IHr]; simpl; intros zs H.
    + now injection H as <-.
    + inv_bind H. inv_bind Ha. injection Ha as <-.
      inv_bind H. injection H as <-. simpl.
      inversion IH as [|? ? IHc IHrest]; subst. unfold flatten_item in Ha0.
      destruct (dict_get String.eqb k items') as [c'|]; [|discriminate].
      rewrite (IHc _ _ Ha0). f_equal. now apply IHr.
Qed.

Lemma tree_bind_skeleton {X C} (f : X -> result (PyTree C)) :
  (forall x r, f x = Ok r -> exists y, r = Leaf y) ->
  forall t t', tree_bind f t = Ok t' -> skeleton t' = skeleton t.
Proof.
  intros Hf t. induction t as [|x|items IH] using PyTree_nested_ind;
    intros t' H.
  - now injection H as <-.
  - simpl in H. now destruct (Hf _ _ H) as (y & ->).
  - rewrite tree_bind_Dict in H. inv_bind H. injection H as <-.
    rewrite !skeleton_Dict. f_equal.
    revert a Ha. induction items as [|[k c] r IHr]; simpl; intros zs H.
    + now injection H as <-.
    + inv_bind H. inv_bind Ha. injection Ha as <-.
      inv_bind H. injection H as <-. simpl.
      inversion IH as [|? ? IHc IHrest]; subst.
      rewrite (IHc _ Ha0). f_equal. now apply IHr.
Qed.

Lemma tree_bind_total {X C} (f : X -> result (PyTree C)) (t : PyTree X) :
  Forall (fun x => exists r, f x = Ok r) (tree_leaves t) ->
  exists t', tree_bind f t = Ok t'.
Proof.
  induction t as [|x|items IH] using PyTree_nested_ind; intros Hl.
  - exists PNone. reflexivity.
  - inversion Hl as [|? ? (r & Hr) _]; subst. exists r. exact Hr.
  - rewrite tree_leaves_Dict in Hl. rewrite tree_bind_Dict.
    assert (Hloop : exists zs,
               mapM (fun kc => z <- tree_bind f (snd kc) ;; Ok (fst kc, z))
                 items = Ok zs).
    { induction items as [|[k c] r IHr]; [now exists []|].
      simpl in Hl. apply Forall_app in Hl. destruct Hl as [Hc Hr].
      inversion IH as [|? ? IHc IHrest]; subst.
      destruct (IHc Hc) as (z & Hz). destruct (IHr IHrest Hr) as (zs & Hzs).
      exists ((k, z) :: zs). simpl in *. now rewrite Hz, Hzs. }
    destruct Hloop as (zs & Hzs). exists (Dict zs). now rewrite Hzs.
Qed.

Lemma dict_get_same_skeleton {A B} (l : list (string * PyTree A)) :
  forall (l' : list (string * PyTree B)),
    map (fun kc => (fst kc, skeleton (snd kc))) l
    = map (fun kc => (fst kc, skeleton (snd kc))) l' ->
    NoDup (map fst l) ->
    forall k c, In (k, c) l ->
      exists c', dict_get String.eqb k l' = Some c'
                 /\ skeleton c = skeleton c'.
Proof.
  induction l as [|[k0 c0] r IH]; intros [|[k0' c0'] r'] Hs Hn k c Hin;
    try discriminate; try contradiction.
  simpl in Hs. injection Hs as <- Hc Hr. inversion Hn as [|? ? Hnot Hn'].
  subst. simpl. destruct Hin as [[= <- <-]|Hin].
  - rewrite String.eqb_refl. eauto.
  - destruct (String.eqb_spec k k0) as [->|Hne].
    + destruct Hnot. apply in_map_iff. now exists (k0, c).
    + now apply IH.
Qed.

Lemma covers_skeleton {X B} (Q : X -> Prop) (s : PyTree X) :
  forall (t : PyTree B),
    wf_keys s -> skeleton s = skeleton t ->
    Forall Q (tree_leaves s) ->
    covers (fun x b => Q x /\ exists y, b = Leaf y) s t.
Proof.
  induction s as [|x|items IH] using PyTree_nested_ind; intros t Hw Hs Hq;
    destruct t as [|y|items']; try discriminate.
  - reflexivity.
  - simpl. inversion Hq; subst. eauto.
  - rewrite !skeleton_Dict in Hs. injection Hs as Hs.
    apply wf_keys_Dict in Hw. destruct Hw as [Hn Hw].
    rewrite tree_leaves_Dict in Hq.
    apply covers_Dict. split.
    + apply (f_equal (@List.length _)) in Hs. now rewrite !length_map in Hs.
    + rewrite Forall_forall in *. intros [k c] Hin. simpl.
      destruct (dict_get_same_skeleton _ _ Hs Hn _ _ Hin) as (c' & Hg & Hsk).
      exists c'. split; [assumption|].
      apply (IH _ Hin); [apply (Hw _ Hin) | assumption |].
      rewrite Forall_forall. intros x Hx. apply Hq.
      apply in_flat_map. exists (k, c). auto.
Qed.

Lemma skeleton_positions {A} (t : PyTree A) :
  forall pre, skeleton (tree_positions no_is_leaf pre t) = skeleton t.
Proof.
  induction t as [|x|items IH] using PyTree_nested_ind; intros pre;
    try reflexivity.
  rewrite tree_positions_Dict by reflexivity. rewrite !skeleton_Dict.
  f_equal. rewrite map_map. apply map_ext_in. intros [k c] Hin. simpl.
  f_equal. rewrite Forall_forall in IH. apply (IH _ Hin).
Qed.

Lemma tree_leaves_positions {A} (t : PyTree A) :
  forall pre,
    Forall (fun p => exists a, snd p = Leaf a)
      (tree_leaves (tree_positions no_is_leaf pre t)).
Proof.
  induction t as [|x|items IH] using PyTree_nested_ind; intros pre.
  - constructor.
  - constructor; [simpl; eauto | constructor].
  - rewrite tree_positions_Dict by reflexivity. rewrite tree_leaves_Dict.
    rewrite Forall_forall in *. intros p Hp.
    apply in_flat_map in Hp. destruct Hp as ([k z] & Hin & Hp).
    apply in_map_iff in Hin. destruct Hin as ([k' c] & [= <- <-] & Hin).
    simpl in Hp. pose proof (IH _ Hin (pre ++ [k'])) as E.
    rewrite Forall_forall in E. exact (E p Hp).
Qed.

Lemma wf_keys_positions {A} (is_leaf : PyTree A -> bool) (t : PyTree A) :
  forall pre, wf_keys t -> wf_keys (tree_positions is_leaf pre t).
Proof.
  induction t as [|x|items IH] using PyTree_nested_ind; intros pre Hw.
  - simpl. now destruct (is_leaf PNone).
  - simpl. now destruct (is_leaf (Leaf x)).
  - destruct (is_leaf (Dict items)) eqn:Hl.
    + simpl. now rewrite Hl.
    + rewrite (tree_positions_Dict _ _ _ Hl).
      apply wf_keys_Dict in Hw. destruct Hw as [Hn Hw].
      apply wf_keys_Dict. split.
      * rewrite map_map. simpl. exact Hn.
      * rewrite Forall_forall in *. intros [k z] Hin.
        apply in_map_iff in Hin. destruct Hin as ([k' c] & [= <- <-] & Hin).
        simpl. apply (IH _ Hin). apply (Hw _ Hin).
Qed.

Lemma dict_get_NoDup {V} (l : list (string * V)) (k : string) (c : V) :
  NoDup (map fst l) -> In (k, c) l -> dict_get String.eqb k l = Some c.
Proof.
  induction l as [|[k0 c0] r IH]; simpl; intros Hn Hin; [contradiction|].
  inversion Hn as [|? ? Hnot Hn']; subst.
  destruct Hin as [[= <- <-]|Hin].
  - now rewrite String.eqb_refl.
  - destruct (String.eqb_spec k k0) as [->|Hne]; [|now apply IH].
    destruct Hnot. apply in_map_iff. now exists (k0, c).
Qed.

Lemma covers_positions_fmap {A B} (is_leaf : PyTree A -> bool) (f : A -> B)
  (t : PyTree A) :
  forall pre,
    wf_keys t ->
    covers (fun _ _ => True) (tree_positions is_leaf pre t) (tree_fmap f t).
Proof.
  induction t as [|x|items IH] using PyTree_nested_ind; intros pre Hw.
  - simpl. now destruct (is_leaf PNone).
  - simpl. now destruct (is_leaf (Leaf x)).
  - destruct (is_leaf (Dict items)) eqn:Hl.
    + simpl tree_positions. rewrite Hl. exact I.
    + rewrite (tree_positions_Dict _ _ _ Hl), tree_fmap_Dict.
      apply wf_keys_Dict in Hw. destruct Hw as [Hn Hw].
      apply covers_Dict. split; [now rewrite !length_map|].
      rewrite Forall_forall in *. intros [k z] Hin.
      apply in_map_iff in Hin. destruct Hin as ([k' c] & [= <- <-] & Hin).
      simpl. exists (tree_fmap f c). split.
      * apply dict_get_NoDup.
        -- rewrite map_map. exact Hn.
        -- apply in_map_iff. now exists (k', c).
      * apply (IH _ Hin). apply (Hw _ Hin).
Qed.

(** ** The leaf classifier of save: [_get_param_infos] *)

Lemma _param_info_leaf (directory : Path) (p : TupleKey * PyTree string * PyTree SaveArgs)
  (r : PyTree ParamInfo) :
  _param_info directory (snd (fst p)) (snd p) = Ok r -> exists y, r = Leaf y.
Proof.
  unfold _param_info. destruct (snd p) as [|a|]; try discriminate.
  destruct (snd (fst p)) as [|n|]; try discriminate.
  intros [= <-]. eauto.
Qed.

Lemma _get_param_names_at (item : PyTree Value) (kp : TupleKey) (n : string) :
  tree_get kp (_get_param_names item) = Some (Leaf n) ->
  n = _param_name_from_keypath kp.
Proof.
  unfold _get_param_names. intros H.
  apply tree_get_fmap_leaf in H. destruct H as ([kp0 s] & H & ->).
  apply tree_get_positions in H. now destruct H as (-> & _).
Qed.

Lemma get_param_infos_of_info (item : PyTree Value)
  (directory : Path) (save_args : PyTree SaveArgs)
  (param_infos : PyTree ParamInfo) (all_params_aggregated : bool) :
  _get_param_infos item directory save_args
  = Ok (param_infos, all_params_aggregated) ->
  forall kp info,
    tree_get kp param_infos = Some (Leaf info) ->
    exists args,
      tree_get kp save_args = Some (Leaf args)
      /\ name info = Some (_param_name_from_keypath kp)
      /\ skip_deserialize info = aggregate args
      /\ path info
         = Some (path_join directory (_param_name_from_keypath kp)).
Proof.
  unfold _get_param_infos. intros H kp info Hg.
  inv_bind H. destruct (negb a); [discriminate|].
  inv_bind H. rename a0 into z. inv_bind H. injection H as <- _.
  destruct (tree_get_bind_leaf _ (_param_info_leaf directory) _ _ Ha1 Hg)
    as ([[kp0 nm] sa] & Hz & Hf).
  apply (tree_get_flatten_up_to _ _ _ Ha0) in Hz. destruct Hz as (Hp & Hs).
  apply tree_get_positions in Hp. destruct Hp as (_ & Hn).
  simpl in Hf. unfold _param_info in Hf.
  destruct sa as [|args|]; try discriminate.
  destruct nm as [|n|]; try discriminate.
  injection Hf as <-. apply _get_param_names_at in Hn. subst n.
  exists args. simpl. auto.
Qed.

Lemma get_param_infos_of_leaf (item : PyTree Value)
  (directory : Path) (save_args : PyTree SaveArgs)
  (param_infos : PyTree ParamInfo) (all_params_aggregated : bool) :
  _get_param_infos item directory save_args
  = Ok (param_infos, all_params_aggregated) ->
  forall kp leaf,
    tree_get kp item = Some leaf -> is_empty_or_leaf leaf = true ->
    exists info, tree_get kp param_infos = Some (Leaf info).
Proof.
  unfold _get_param_infos. intros H kp leaf Hg Hl.
  inv_bind H. destruct (negb a); [discriminate|].
  inv_bind H. rename a0 into z. inv_bind H. injection H as <- _.
  pose proof (tree_get_positions_empty_or_leaf item [] kp Hg Hl) as Hp.
  apply (tree_get_fmap (fun p => _param_name_from_keypath (fst p))) in Hp.
  fold (_get_param_names item) in Hp.
  pose proof (tree_get_positions_leaf (_get_param_names item) [] kp Hp) as Hq.
  destruct (tree_get_flatten_up_to_leaf _ _ _ Ha0 Hq) as (b & Hb & Hz).
  destruct (tree_get_bind _ _ _ Ha1 Hz) as (r & Hr & Ht).
  destruct (_param_info_leaf directory _ Hr) as (info & ->). eauto.
Qed.

(** With well-formed dictionaries and defaulted SaveArgs, the classifier
    of save returns. *)
Lemma get_param_infos_total (env : World) (item : PyTree Value)
  (directory : Path) (user_args : PyTree ArgLeaf)
  (save_args : PyTree SaveArgs) :
  wf_keys item ->
  truth item = Ok true ->
  _default_save_args env item user_args = Ok save_args ->
  exists param_infos all_params_aggregated,
    _get_param_infos item directory save_args
    = Ok (param_infos, all_params_aggregated).
Proof.
  intros Hw Ht Hd. unfold _default_save_args, tree_map2 in Hd.
  inv_bind Hd. rename a into z.
  assert (Hsk : skeleton save_args
                = skeleton (tree_positions is_empty_or_leaf [] item)).
  { assert (Hb : skeleton save_args = skeleton z).
    { eapply tree_bind_skeleton; [|exact Hd].
      intros [[kp a] b] r [= <-]. eauto. }
    rewrite Hb. eapply flatten_up_to_skeleton. exact Ha. }
  unfold _get_param_infos. rewrite Ht. simpl.
  set (names := _get_param_names item).
  assert (Hn : skeleton (tree_positions no_is_leaf [] names)
               = skeleton save_args).
  { rewrite skeleton_positions. unfold names, _get_param_names.
    now rewrite skeleton_fmap. }
  assert (Hwn : wf_keys (tree_positions no_is_leaf [] names)).
  { apply wf_keys_positions. unfold names, _get_param_names.
    eapply (@wf_keys_skeleton _ _
              (tree_positions is_empty_or_leaf [] item)).
    - now rewrite skeleton_fmap.
    - now apply wf_keys_positions. }
  pose proof (@covers_skeleton _ _ (fun p => exists a, snd p = Leaf a)
                _ save_args Hwn Hn (tree_leaves_positions names []))
    as Hc.
  destruct (@flatten_up_to_covers _ _ _ _ _ Hc) as (z2 & Hz2 & _ & Hl).
  rewrite Hz2. simpl.
  destruct (tree_bind_total
              (fun p => _param_info directory (snd (fst p)) (snd p)) z2)
    as (infos & Hi).
  { rewrite Forall_forall in *. intros [[kp nm] b] Hin.
    destruct (Hl _ Hin) as ((n & Hn') & (y & Hy)). simpl in *. subst.
    eexists. reflexivity. }
  rewrite Hi. simpl. eauto.
Qed.

(** C1, as amended: for every tree passed to save (non-empty, each of
    its dictionaries without a repeated key) and the SaveArgs that
    [async_save] derived for it, [_get_param_infos] returns, and for
    each leaf of the tree (an empty container counts as a leaf) it has
    built a ParamInfo with the leaf's dot-joined name, with
    [skip_deserialize] equal to the leaf's [save_args.aggregate], and
    with [path] equal to [directory / name], whether or not the leaf is
    aggregated. *)
Theorem get_param_infos_skip_and_path (env : World) (item : PyTree Value)
  (directory : Path) (user_args : PyTree ArgLeaf)
  (save_args : PyTree SaveArgs) :
  wf_keys item ->
  truth item = Ok true ->
  _default_save_args env item user_args = Ok save_args ->
  exists param_infos all_params_aggregated,
    _get_param_infos item directory save_args
    = Ok (param_infos, all_params_aggregated)
    /\ forall kp leaf,
         tree_get kp item = Some leaf -> is_empty_or_leaf leaf = true ->
         exists info args,
           tree_get kp param_infos = Some (Leaf info)
           /\ tree_get kp save_args = Some (Leaf args)
           /\ name info = Some (_param_name_from_keypath kp)
           /\ skip_deserialize info = aggregate args
           /\ path info
              = Some (path_join directory (_param_name_from_keypath kp)).
Proof.
  intros Hw Ht Hd.
  destruct (get_param_infos_total env item directory user_args Hw Ht Hd)
    as (param_infos & all_params_aggregated & H).
  exists param_infos, all_params_aggregated. split; [exact H|].
  intros kp leaf Hg Hl.
  destruct (get_param_infos_of_leaf _ _ _ H _ Hg Hl) as (info & Hi).
  destruct (get_param_infos_of_info _ _ _ H _ Hi) as (args & Ha).
  exists info, args. auto.
Qed.

Lemma get_param_infos_skip_and_path_witness :
  exists param_infos all_params_aggregated,
    _get_param_infos item_opt "ckpt" save_args_opt
    = Ok (param_infos, all_params_aggregated)
    /\ forall kp leaf,
         tree_get kp item_opt = Some leaf -> is_empty_or_leaf leaf = true ->
         exists info args,
           tree_get kp param_infos = Some (Leaf info)
           /\ tree_get kp save_args_opt = Some (Leaf args)
           /\ name info = Some (_param_name_from_keypath kp)
           /\ skip_deserialize info = aggregate args
           /\ path info
              = Some (path_join "ckpt" (_param_name_from_keypath kp)).
Proof.
  apply (@get_param_infos_skip_and_path (Scenario.world Scenario.empty_disk)
           item_opt "ckpt" PNone save_args_opt).
  - simpl. repeat split. repeat constructor. intros [].
  - reflexivity.
  - reflexivity.
Defined.

(** C1 as stated fails: the leaf [opt] is aggregated, and its ParamInfo
    has the path [ckpt/opt], not a null path. *)
Lemma get_param_infos_aggregated_path_not_null :
  ~ (exists param_infos all_params_aggregated info args,
       _get_param_infos item_opt "ckpt" save_args_opt
       = Ok (param_infos, all_params_aggregated)
       /\ tree_get ["opt"] param_infos = Some (Leaf info)
       /\ tree_get ["opt"] save_args_opt = Some (Leaf args)
       /\ skip_deserialize info = aggregate args
       /\ path info = (if aggregate args then None
                       else Some (path_join "ckpt" "opt"))).
Proof.
  intros (param_infos & all & info & args & H & Hg & Ha & _ & Hp).
  vm_compute in H. injection H as <- <-.
  vm_compute in Hg. injection Hg as <-.
  vm_compute in Ha. injection Ha as <-.
  discriminate.
Qed.

(** ** Default SaveArgs *)

(** With well-formed dictionaries and no SaveArgs supplied, the defaults
    are built. *)
Lemma default_save_args_total (env : World) (item : PyTree Value) :
  wf_keys item ->
  exists save_args, _default_save_args env item PNone = Ok save_args.
Proof.
  intros Hw. unfold _default_save_args, tree_map2, _args_or_item.
  destruct (@flatten_up_to_covers _ _ _ _ _
              (covers_positions_fmap is_empty_or_leaf AOther item [] Hw))
    as (z & Hz & _).
  rewrite Hz. simpl. apply tree_bind_total.
  rewrite Forall_forall. intros [[kp a] b] _. eexists. reflexivity.
Qed.

(** C7: for every leaf of the item (an empty container counts as a
    leaf) for which the caller supplied no SaveArgs, [async_save] builds
    a defaulted SaveArgs, and its [aggregate] is true if and only if no
    type handler is registered for the type of the leaf's value. *)
Theorem default_save_args_aggregate_iff_unregistered (env : World)
  (item : PyTree Value) (save_args : PyTree ArgLeaf)
  (defaulted : PyTree SaveArgs) (kp : TupleKey) (leaf : PyTree Value) :
  _default_save_args env item save_args = Ok defaulted ->
  tree_get kp item = Some leaf ->
  is_empty_or_leaf leaf = true ->
  (forall explicit,
     tree_get kp (_args_or_item item save_args)
     <> Some (Leaf (ASaveArgs explicit))) ->
  exists args,
    tree_get kp defaulted = Some (Leaf args)
    /\ (aggregate args = true
        <-> has_type_handler env (type_of leaf) = false).
Proof.
  unfold _default_save_args, tree_map2. intros H Hg Hl Hno.
  inv_bind H. rename a into z.
  pose proof (@tree_get_positions_empty_or_leaf _ item [] kp leaf Hg Hl)
    as Hp.
  destruct (@tree_get_flatten_up_to_leaf _ _ _ _ _ _ _ Ha Hp)
    as (b & Hb & Hz).
  destruct (@tree_get_bind _ _ _ _ _ _ _ H Hz) as (r & Hr & Ht).
  simpl in Hr. injection Hr as <-.
  exists (_maybe_set_default_save_args env leaf b). split; [assumption|].
  unfold _maybe_set_default_save_args.
  destruct b as [|[explicit|other]|]; simpl;
    try (now destruct (has_type_handler env (type_of leaf))).
  now destruct (Hno explicit Hb).
Qed.

Lemma default_save_args_aggregate_iff_unregistered_witness :
  exists args,
    tree_get ["opt"] save_args_opt = Some (Leaf args)
    /\ (aggregate args = true
        <-> has_type_handler (Scenario.world Scenario.empty_disk)
              (type_of (Leaf (VObject "OptState"))) = false).
Proof.
  apply (@default_save_args_aggregate_iff_unregistered
           (Scenario.world Scenario.empty_disk) item_opt PNone
           save_args_opt ["opt"] (Leaf (VObject "OptState"))).
  - reflexivity.
  - reflexivity.
  - reflexivity.
  - intros explicit. vm_compute. discriminate.
Defined.

(** ** The tree written to the aggregate file *)

(** C9: at a leaf with ParamInfo [info], SaveArgs [arg] and value
    [value], when the aggregate tree is built: if the leaf is marked
    aggregate and its value is a [jax.Array] that is not fully
    replicated, building the tree raises; at any other aggregate leaf
    whose value is not of a supported aggregation type the leaf function
    returns [None] instead of raising, and [None] is what the built tree
    holds there; a leaf that is not aggregate is recorded as the
    placeholder carrying the leaf's name. *)
Theorem tree_for_aggregation_at_leaf (env : World)
  (param_infos : PyTree ParamInfo) (save_args : PyTree SaveArgs)
  (item : PyTree Value) (kp : TupleKey) (info : ParamInfo) (arg : SaveArgs)
  (value : PyTree Value) :
  tree_get kp param_infos = Some (Leaf info) ->
  tree_get kp save_args = Some (Leaf arg) ->
  tree_get kp item = Some value ->
  (aggregate arg = true -> is_unreplicated_jax_array value = true ->
   exists e,
     _get_tree_for_aggregation env param_infos save_args item = Raise e)
  /\ (aggregate arg = true -> is_unreplicated_jax_array value = false ->
      is_supported_aggregation_type env value = false ->
      _get_leaf_for_aggregation env (Leaf info) (Leaf arg) value = Ok PNone
      /\ forall ser,
           _get_tree_for_aggregation env param_infos save_args item = Ok ser ->
           tree_get kp ser = Some PNone)
  /\ (aggregate arg = false ->
      forall ser,
        _get_tree_for_aggregation env param_infos save_args item = Ok ser ->
        exists n,
          name info = Some n /\ tree_get kp ser = Some (leaf_placeholder n)).
Proof.
  intros Hinfo Harg Hvalue.
  assert (Hat : forall ser,
             _get_tree_for_aggregation env param_infos save_args item = Ok ser ->
             exists r,
               _get_leaf_for_aggregation env (Leaf info) (Leaf arg) value = Ok r
               /\ tree_get kp ser = Some r).
  { intros ser H. unfold _get_tree_for_aggregation in H.
    destruct (tree_map3_at _ _ _ _ _ H Hinfo) as (b & c & r & Hb & Hc & Hr & Ht).
    rewrite Harg in Hb. injection Hb as <-.
    rewrite Hvalue in Hc. injection Hc as <-. eauto. }
  repeat split.
  - intros Hagg Hrep.
    destruct (_get_tree_for_aggregation env param_infos save_args item)
      as [ser|e] eqn:E; [|eauto].
    destruct (Hat ser eq_refl) as (r & Hr & _).
    unfold _get_leaf_for_aggregation in Hr. rewrite Hagg, Hrep in Hr.
    discriminate.
  - unfold _get_leaf_for_aggregation. rewrite H, H0, H1. simpl.
    unfold _try_array_cast. now destruct (save_dtype arg).
  - intros ser Hser. destruct (Hat ser Hser) as (r & Hr & Ht).
    unfold _get_leaf_for_aggregation in Hr. rewrite H, H0, H1 in Hr.
    simpl in Hr. unfold _try_array_cast in Hr.
    destruct (save_dtype arg); injection Hr as <-; assumption.
  - intros Hagg ser Hser. destruct (Hat ser Hser) as (r & Hr & Ht).
    unfold _get_leaf_for_aggregation in Hr. rewrite Hagg in Hr.
    destruct (name info) as [n|]; [|discriminate].
    injection Hr as <-. eauto.
Qed.

Lemma tree_for_aggregation_at_leaf_witness :
  _get_tree_for_aggregation (Scenario.world Scenario.empty_disk)
    param_infos_mixed save_args_mixed item_mixed
  = Ok (Dict [("opt", PNone); ("w", Leaf (VPlaceholder "w"))])
  /\ tree_get ["opt"]
       (Dict [("opt", @PNone Value); ("w", Leaf (VPlaceholder "w"))])
     = Some PNone.
Proof.
  split; [reflexivity|].
  refine (proj2 (proj1 (proj2
            (@tree_for_aggregation_at_leaf
               (Scenario.world Scenario.empty_disk)
               param_infos_mixed save_args_mixed item_mixed ["opt"]
               (mkParamInfo (Some "opt") (Some "ckpt/opt") true None None)
               (mkSaveArgs true None) (Leaf (VObject "OptState"))
               eq_refl eq_refl eq_refl))
            eq_refl eq_refl eq_refl) _ eq_refl).
Defined.

Example tree_for_aggregation_unreplicated :
  _get_tree_for_aggregation (Scenario.world Scenario.empty_disk)
    (Dict [("x", Leaf (mkParamInfo (Some "x") (Some "ckpt/x") true
                         None None))])
    (Dict [("x", Leaf (mkSaveArgs true None))])
    (Dict [("x", Leaf (VJaxArray false [1; 2]%Z))])
  = Raise (ValueError "jax.Array must be fully replicated to be saved in aggregate file.").
Proof. reflexivity. Qed.

(** ** Saving an empty item *)

Lemma truth_false_is_empty_or_leaf (item : PyTree Value) :
  truth item = Ok false -> is_empty_or_leaf item = true.
Proof.
  destruct item as [|v|[|kv r]]; simpl; intros H;
    try reflexivity; discriminate.
Qed.

Lemma _default_save_args_of_leaf (env : World) (item : PyTree Value)
  (save_args : PyTree ArgLeaf) :
  is_empty_or_leaf item = true ->
  _default_save_args env item save_args
  = Ok (Leaf (_maybe_set_default_save_args env item
                (_args_or_item item save_args))).
Proof.
  intros Hl. unfold _default_save_args, tree_map2.
  assert (Hp : tree_positions is_empty_or_leaf [] item = Leaf ([], item)).
  { destruct item as [|v|items]; simpl in *; try reflexivity.
    now rewrite Hl. }
  rewrite Hp. reflexivity.
Qed.

(** C10: for every save call whose item is falsy (an empty tree), both
    [async_save] and [save] raise [ValueError('Found empty item')], and
    no collaborator has been called by then: no directory was created
    and no file was written. *)
Theorem save_empty_item_raises (env : World) (self : PyTreeCheckpointHandler)
  (directory : Path) (item : PyTree Value) (save_args : PyTree ArgLeaf) :
  truth item = Ok false ->
  async_save env self directory item save_args
  = (Raise (ValueError "Found empty item"), [])
  /\ save env self directory item save_args
     = (Raise (ValueError "Found empty item"), []).
Proof.
  intros Ht.
  assert (Ha : async_save env self directory item save_args
               = (Raise (ValueError "Found empty item"), [])).
  { unfold async_save.
    rewrite (_default_save_args_of_leaf env item save_args
               (truth_false_is_empty_or_leaf item Ht)).
    unfold _get_param_infos. rewrite Ht. reflexivity. }
  split; [assumption|]. unfold save. rewrite Ha. reflexivity.
Qed.

Lemma save_empty_item_raises_witness :
  async_save (Scenario.world Scenario.empty_disk) Scenario.handler0 "ckpt"
    (Dict []) PNone
  = (Raise (ValueError "Found empty item"), [])
  /\ save (Scenario.world Scenario.empty_disk) Scenario.handler0 "ckpt"
       (Dict []) PNone
     = (Raise (ValueError "Found empty item"), []).
Proof.
  apply (@save_empty_item_raises (Scenario.world Scenario.empty_disk)
           Scenario.handler0 "ckpt" (Dict []) PNone).
  reflexivity.
Defined.

(** ** Reading the saved structure *)

Lemma structure_calls_no_type_handler (env : World)
  (self : PyTreeCheckpointHandler) (directory : Path) :
  existsb touches_type_handler (snd (structure env self directory)) = false.
Proof.
  unfold structure.
  destruct (path_exists env (path_join directory (_aggregate_filename self))).
  - cbn.
    now destruct (aggregate_deserialize env
                    (path_join directory (_aggregate_filename self))).
  - destruct (_use_ocdbt self); [reflexivity|].
    cbn. now destruct (pytree_structure env directory).
Qed.

(** C8: [structure(directory)] never calls a type handler, so no array
    payload is resolved.  When the aggregate file exists it returns what
    the aggregate handler reads from it.  When the file is missing it
    falls back to the implicit structure of the directory if and only if
    [use_ocdbt] is false, and raises otherwise. *)
Theorem structure_aggregate_or_fallback (env : World)
  (self : PyTreeCheckpointHandler) (directory : Path) :
  let checkpoint_path := path_join directory (_aggregate_filename self) in
  let out := structure env self directory in
  existsb touches_type_handler (snd out) = false
  /\ (path_exists env checkpoint_path = true ->
      out = (aggregate_deserialize env checkpoint_path,
             [EvAggregateDeserialize checkpoint_path]))
  /\ (path_exists env checkpoint_path = false ->
      (In (EvPytreeStructure directory) (snd out) <-> _use_ocdbt self = false)
      /\ (_use_ocdbt self = false ->
          out = (pytree_structure env directory,
                 [EvPytreeStructure directory]))
      /\ (_use_ocdbt self = true ->
          out = (Raise (ValueError
                          ("Checkpoint structure file does not exist at "
                           ++ directory ++ ".")), []))).
Proof.
  cbv zeta. unfold structure.
  destruct (path_exists env (path_join directory (_aggregate_filename self)))
    eqn:He.
  - cbn. destruct (aggregate_deserialize env _); cbn;
      repeat split; intros; discriminate.
  - destruct (_use_ocdbt self) eqn:Ho; cbn.
    + repeat split; intros; try discriminate; try reflexivity.
      contradiction.
    + destruct (pytree_structure env directory); cbn;
        repeat split; intros; try discriminate; try reflexivity; now left.
Qed.

Lemma structure_aggregate_or_fallback_witness :
  structure (Scenario.world (Scenario.mkDisk ["ckpt"] [] []))
    (__init__ None 96 true true) "ckpt"
  = (Raise (ValueError "Checkpoint structure file does not exist at ckpt."),
     []).
Proof.
  apply (proj2 (proj2 (proj2 (@structure_aggregate_or_fallback
                                (Scenario.world
                                   (Scenario.mkDisk ["ckpt"] [] []))
                                (__init__ None 96 true true) "ckpt"))
                  eq_refl)).
  reflexivity.
Defined.

(** ** Restoring: errors raised before anything is fetched *)

Lemma _get_restore_parameters_without_item (env : World) (directory : Path)
  (byte_limiter : option ByteLimiter) (structure : PyTree Value)
  (transforms : PyTree Transform) (restore_args : PyTree RestoreArgs)
  (transforms_default_to_original : bool) :
  transforms <> PNone ->
  _get_restore_parameters env directory byte_limiter PNone structure
    transforms restore_args transforms_default_to_original
  = Raise (ValueError "If providing `transforms`, must provide `item` matching structure of expected result.").
Proof.
  intros Ht. unfold _get_restore_parameters.
  destruct transforms; [now destruct Ht | reflexivity | reflexivity].
Qed.

(** C6: for every directory that does not exist, [restore] raises
    [FileNotFoundError] and has called no collaborator by then: the
    trace is empty.  When transforms are supplied without an item,
    [_get_restore_parameters] raises the [ValueError] asking for the
    item, and so does [restore] on an existing directory once the saved
    structure has been read, before any type handler is called. *)
Theorem restore_not_found_and_transforms_without_item (env : World)
  (self : PyTreeCheckpointHandler) (directory : Path) (item : PyTree Value)
  (restore_args : PyTree RestoreArgs) (transforms : PyTree Transform)
  (transforms_default_to_original : bool)
  (transform_fn : option TransformFn) :
  (path_exists env directory = false ->
   restore env self directory item restore_args transforms
     transforms_default_to_original transform_fn
   = (Raise (FileNotFoundError
               ("Requested directory for restore does not exist at "
                ++ directory)), []))
  /\ (transforms <> PNone ->
      (forall byte_limiter structure,
          _get_restore_parameters env directory byte_limiter PNone structure
            transforms restore_args transforms_default_to_original
          = Raise (ValueError "If providing `transforms`, must provide `item` matching structure of expected result."))
      /\ (path_exists env directory = true ->
          forall saved trace,
            structure env self directory = (Ok saved, trace) ->
            restore env self directory PNone restore_args transforms
              transforms_default_to_original transform_fn
            = (Raise (ValueError "If providing `transforms`, must provide `item` matching structure of expected result."),
               EvByteLimiter (_concurrent_bytes self) :: trace)
            /\ existsb touches_type_handler
                 (EvByteLimiter (_concurrent_bytes self) :: trace) = false)).
Proof.
  split.
  - intros He. unfold restore. now rewrite He.
  - intros Ht. split.
    + intros. now apply _get_restore_parameters_without_item.
    + intros He saved trace Hs. split.
      * unfold restore. rewrite He. cbn [negb]. unfold io_bind at 1.
        cbn [io_emit]. unfold io_bind at 1. rewrite Hs.
        unfold io_bind at 1. unfold io_lift.
        rewrite _get_restore_parameters_without_item by assumption.
        cbn. now rewrite app_nil_r.
      * pose proof (structure_calls_no_type_handler env self directory)
          as Hc.
        rewrite Hs in Hc. exact Hc.
Qed.

Lemma restore_not_found_and_transforms_without_item_witness :
  restore (Scenario.world Scenario.empty_disk) Scenario.handler0 "ckpt"
    PNone PNone PNone true None
  = (Raise (FileNotFoundError
              "Requested directory for restore does not exist at ckpt"), []).
Proof.
  apply (proj1 (@restore_not_found_and_transforms_without_item
                  (Scenario.world Scenario.empty_disk) Scenario.handler0
                  "ckpt" PNone PNone PNone true None)).
  reflexivity.
Defined.

(** ** Flattened trees and the restore parameters without transforms *)

Lemma dict_get_app {K V} (eqb : K -> K -> bool) (k : K) (l1 l2 : dict K V) :
  dict_get eqb k (l1 ++ l2)
  = match dict_get eqb k l1 with
    | Some v => Some v
    | None => dict_get eqb k l2
    end.
Proof.
  induction l1 as [|[k' v'] r IH]; simpl; [reflexivity|].
  now destruct (eqb k k').
Qed.

Lemma dict_get_tuplekey_In {V} (k : TupleKey) (d : dict TupleKey V) (v : V) :
  dict_get tuplekey_eqb k d = Some v -> In (k, v) d.
Proof.
  induction d as [|[k' v'] r IH]; simpl; [discriminate|].
  destruct (tuplekey_eqb k k') eqn:E.
  - apply tuplekey_eqb_eq in E. subst. intros [= ->]. now left.
  - intros H. right. auto.
Qed.

Lemma to_flat_dict_from_Dict {A} (keep : bool) (pre : TupleKey)
  (kc : string * PyTree A) (items : list (string * PyTree A)) :
  to_flat_dict_from keep pre (Dict (kc :: items))
  = flat_map (fun kc => to_flat_dict_from keep (pre ++ [fst kc]) (snd kc))
      (kc :: items).
Proof.
  destruct kc as [k0 c0]. simpl. f_equal.
  induction items as [|[k c] r IH]; simpl; [reflexivity|]. now rewrite IH.
Qed.

Lemma to_flat_dict_from_prefix {A} (keep : bool) (t : PyTree A) :
  forall pre k v,
    In (k, v) (to_flat_dict_from keep pre t) -> exists suffix, k = pre ++ suffix.
Proof.
  induction t as [|x|items IH] using PyTree_nested_ind; intros pre k v Hin.
  - simpl in Hin. destruct keep; [|contradiction].
    destruct Hin as [[= <- _]|[]]. exists []. now rewrite app_nil_r.
  - destruct Hin as [[= <- _]|[]]. exists []. now rewrite app_nil_r.
  - destruct items as [|kc items].
    + simpl in Hin. destruct keep; [|contradiction].
      destruct Hin as [[= <- _]|[]]. exists []. now rewrite app_nil_r.
    + rewrite to_flat_dict_from_Dict in Hin. apply in_flat_map in Hin.
      destruct Hin as ([k0 c0] & Hi & Hin). rewrite Forall_forall in IH.
      destruct (IH _ Hi _ _ _ Hin) as (suffix & ->). simpl.
      exists (k0 :: suffix). now rewrite <- app_assoc.
Qed.

Lemma to_flat_dict_from_leaf {A} (keep : bool) (t : PyTree A) :
  forall pre kp a,
    tree_get kp t = Some (Leaf a) ->
    dict_get tuplekey_eqb (pre ++ kp) (to_flat_dict_from keep pre t)
    = Some (Leaf a).
Proof.
  induction t as [|x|items IH] using PyTree_nested_ind; intros pre kp a Hg.
  - apply tree_get_not_dict in Hg; [|discriminate]. now destruct Hg.
  - apply tree_get_not_dict in Hg; [|discriminate].
    destruct Hg as (-> & [= ->]). simpl. rewrite app_nil_r.
    now rewrite tuplekey_eqb_refl.
  - destruct kp as [|k kp]; [discriminate|]. simpl in Hg.
    destruct items as [|kc items]; [discriminate|].
    rewrite to_flat_dict_from_Dict.
    induction (kc :: items) as [|[k0 c0] r IHr]; [discriminate|].
    simpl in Hg |- *. rewrite dict_get_app.
    inversion IH as [|? ? IH0 IHrest]; subst.
    destruct (String.eqb_spec k k0) as [->|Hne].
    + simpl in IH0. pose proof (IH0 (pre ++ [k0]) kp a Hg) as E.
      rewrite <- app_assoc in E. simpl in E. now rewrite E.
    + destruct (dict_get tuplekey_eqb (pre ++ k :: kp)
                  (to_flat_dict_from keep (pre ++ [k0]) c0)) as [v|] eqn:E.
      * apply dict_get_tuplekey_In in E.
        apply to_flat_dict_from_prefix in E. destruct E as (suffix & E).
        rewrite <- app_assoc in E. apply app_inv_head in E.
        injection E as E _. now destruct Hne.
      * now apply IHr.
Qed.

Lemma dict_get_mapM_tuplekey {X Y} (g : TupleKey -> X -> result Y)
  (flat : dict TupleKey X) :
  forall out,
    mapM (fun kv => r <- g (fst kv) (snd kv) ;; Ok (fst kv, r)) flat = Ok out ->
    forall k x,
      dict_get tuplekey_eqb k flat = Some x ->
      exists r, g k x = Ok r /\ dict_get tuplekey_eqb k out = Some r.
Proof.
  induction flat as [|[k0 x0] rest IH]; simpl; intros out H k x Hg;
    [discriminate|].
  inv_bind H. inv_bind Ha. injection Ha as <-.
  inv_bind H. injection H as <-. simpl.
  destruct (tuplekey_eqb k k0) eqn:E.
  - apply tuplekey_eqb_eq in E. subst. injection Hg as <-. eauto.
  - eauto.
Qed.

Lemma from_flat_dict_at {A B} (flat : dict TupleKey (PyTree A))
  (target : PyTree B) (t : PyTree A) (kp : TupleKey) (b : B) :
  from_flat_dict flat target = Ok t ->
  tree_get kp target = Some (Leaf b) ->
  exists v, dict_get tuplekey_eqb kp flat = Some v /\ tree_get kp t = Some v.
Proof.
  unfold from_flat_dict, tree_map_with_path. intros H Hg.
  pose proof (@tree_get_positions_leaf _ target [] kp _ Hg) as Hp.
  destruct (@tree_get_bind _ _ _ _ _ _ _ H Hp) as (r & Hr & Ht). simpl in Hr.
  destruct (dict_get tuplekey_eqb kp flat) as [v|]; [|discriminate].
  injection Hr as <-. eauto.
Qed.

(** Without transforms, a leaf that the aggregate file records as a
    placeholder is given a ParamInfo with a path, not to be skipped. *)
Lemma get_restore_parameters_placeholder (env : World) (directory : Path)
  (byte_limiter : option ByteLimiter) (item structure : PyTree Value)
  (restore_args : PyTree RestoreArgs) (d : bool)
  (param_infos : PyTree ParamInfo) (checkpoint_restore_args : PyTree RestoreArgs)
  (kp : TupleKey) (n : string) :
  _get_restore_parameters env directory byte_limiter item structure PNone
    restore_args d = Ok (param_infos, checkpoint_restore_args) ->
  tree_get kp structure = Some (leaf_placeholder n) ->
  tree_get kp param_infos
  = Some (Leaf (mkParamInfo (Some (String.concat "." kp))
                  (Some (path_join directory n)) false
                  (Some (dir_is_ocdbt_checkpoint env directory))
                  byte_limiter)).
Proof.
  unfold _get_restore_parameters, leaf_placeholder. intros H Hg.
  inv_bind H. rename a into flat. inv_bind H. injection H as <- _.
  destruct (@from_flat_dict_at _ _ _ _ _ _ _ Ha0 Hg) as (v & Hv & Ht).
  pose proof (@to_flat_dict_from_leaf _ true structure [] kp _ Hg) as Hf.
  change ([] ++ kp) with kp in Hf. fold (to_flat_dict true structure) in Hf.
  destruct (@dict_get_mapM_tuplekey _ _
              (_get_param_info env directory byte_limiter
                 (dir_is_ocdbt_checkpoint env directory)) _ _ Ha _ _ Hf)
    as (r & Hr & Hout).
  rewrite Hv in Hout. injection Hout as ->.
  rewrite Ht. f_equal. unfold _get_param_info in Hr. simpl in Hr.
  now injection Hr as <-.
Qed.

(** ** Restore scenarios

    The scenarios of the specification, stated for every world in which
    the checkpoint directory holds an aggregate file with a placeholder
    for each saved leaf, and type handlers that answer the requests the
    handler sends them. *)

Ltac run_handler :=
  repeat first
    [ progress cbn
    | rewrite String.eqb_refl
    | progress unfold dict_mem, _batched_serialization_requests,
        _restore_parameter_of_key, apply_transformations,
        transformed_value, to_flat_dict_sep, to_flat_dict,
        from_flat_dict_sep, from_flat_dict, tree_map_with_path ].




(** C3, as amended: with saved tree [{a}], caller target [{a: caller}]
    and a [use_fallback] rule on [a], the restore with
    [transforms_default_to_original=true] returns [{a: caller}] and the
    checkpoint leaf is not fetched.  With the flag false, storage is
    touched: the checkpoint leaf is fetched, with the RestoreArgs
    recorded at [a] in the target, and the restored tree
    [{a: saved_value}] is what [_transform_structure] receives together
    with the target; the outcome of the restore is the outcome of that
    post-restore step, followed by the barrier when it returns. *)
Theorem restore_fallback (env : World) (self : PyTreeCheckpointHandler)
  (directory : Path) (caller : Value) (args : RestoreArgs)
  (saved_value : PyTree Value) (h : Handler) (m : ReMatch) :
  path_exists env directory = true ->
  path_exists env (path_join directory (_aggregate_filename self)) = true ->
  aggregate_deserialize env (path_join directory (_aggregate_filename self))
  = Ok (Dict [("a", leaf_placeholder "a")]) ->
  re_fullmatch env "a" "a" = Ok (Some m) ->
  get_type_handler env (restore_type args) = Ok h ->
  handler_deserialize env h [restore_info env self directory "a"]
    [Leaf (BRestore args)]
  = Ok [saved_value] ->
  restore env self directory (Dict [("a", Leaf caller)])
    (Dict [("a", Leaf args)]) (Dict [("a", Leaf fallback_rule)]) true None
  = (Ok (Dict [("a", Leaf caller)]),
     [EvByteLimiter (_concurrent_bytes self);
      EvAggregateDeserialize (path_join directory (_aggregate_filename self));
      EvSyncGlobalDevices "PyTreeCheckpointHandler:restore"])
  /\ restore env self directory (Dict [("a", Leaf caller)])
       (Dict [("a", Leaf args)]) (Dict [("a", Leaf fallback_rule)]) false None
     = (let post :=
          _transform_structure env (Dict [("a", Leaf caller)])
            (Dict [("a", saved_value)]) (Dict [("a", Leaf args)])
            (Dict [("a", Leaf fallback_rule)]) false in
        (post,
         [EvByteLimiter (_concurrent_bytes self);
          EvAggregateDeserialize
            (path_join directory (_aggregate_filename self));
          EvDeserialize h [restore_info env self directory "a"]
            [Leaf (BRestore args)]]
         ++ (if is_ok post
             then [EvSyncGlobalDevices "PyTreeCheckpointHandler:restore"]
             else []))).
Proof.
  intros Hd Hc Hagg Hm Hh Hde. unfold restore_info, leaf_placeholder in *.
  split.
  - unfold restore, structure; rewrite Hd, Hc; cbn; rewrite Hagg;
      repeat first [progress run_handler | rewrite Hm | rewrite Hh
                   | rewrite Hde];
      reflexivity.
  - assert (Hp : _get_restore_parameters env directory
                   (Some (_concurrent_bytes self)) (Dict [("a", Leaf caller)])
                   (Dict [("a", Leaf (VPlaceholder "a"))])
                   (Dict [("a", Leaf fallback_rule)])
                   (Dict [("a", Leaf args)]) false
                 = Ok (Dict [("a", Leaf (mkParamInfo (Some "a")
                                           (Some (path_join directory "a"))
                                           false
                                           (Some (dir_is_ocdbt_checkpoint env
                                                    directory))
                                           (Some (_concurrent_bytes self))))],
                       Dict [("a", Leaf args)])).
    { repeat first [progress run_handler | rewrite Hm]. reflexivity. }
    assert (Hmd : forall info,
               handler_deserialize env h [info] [Leaf (BRestore args)]
               = Ok [saved_value] ->
               name info = Some "a" -> skip_deserialize info = false ->
               _maybe_deserialize env (Dict [("a", Leaf (VPlaceholder "a"))])
                 (Dict [("a", Leaf info)]) (Dict [("a", Leaf args)])
               = (Ok (Dict [("a", saved_value)]),
                  [EvDeserialize h [info] [Leaf (BRestore args)]])).
    { intros info Hi Hn Hs. unfold _maybe_deserialize.
      repeat first [progress run_handler | rewrite Hs | rewrite Hh
                   | rewrite Hi | rewrite Hn].
      reflexivity. }
    cbv zeta. unfold restore, structure. rewrite Hd, Hc. cbn [negb].
    rewrite Hagg.
    cbn -[_get_restore_parameters _maybe_deserialize _transform_structure].
    rewrite Hp.
    cbn -[_get_restore_parameters _maybe_deserialize _transform_structure].
    rewrite (Hmd _ Hde eq_refl eq_refl).
    cbn -[_transform_structure].
    destruct (_transform_structure _ _ _ _ _ _); reflexivity.
Qed.

Lemma restore_fallback_witness :
  restore (Scenario.world (Scenario.saved "ckpt" tree_a1)) Scenario.handler0
    "ckpt" (Dict [("a", Leaf (VInt 2))])
    (Dict [("a", Leaf restore_args_int)]) (Dict [("a", Leaf fallback_rule)])
    true None
  = (Ok (Dict [("a", Leaf (VInt 2))]),
     [EvByteLimiter (_concurrent_bytes Scenario.handler0);
      EvAggregateDeserialize "ckpt/checkpoint";
      EvSyncGlobalDevices "PyTreeCheckpointHandler:restore"])
  /\ restore (Scenario.world (Scenario.saved "ckpt" tree_a1))
       Scenario.handler0 "ckpt" (Dict [("a", Leaf (VInt 2))])
       (Dict [("a", Leaf restore_args_int)])
       (Dict [("a", Leaf fallback_rule)]) false None
     = (let post :=
          _transform_structure
            (Scenario.world (Scenario.saved "ckpt" tree_a1))
            (Dict [("a", Leaf (VInt 2))]) (Dict [("a", Leaf (VInt 1))])
            (Dict [("a", Leaf restore_args_int)])
            (Dict [("a", Leaf fallback_rule)]) false in
        (post,
         [EvByteLimiter (_concurrent_bytes Scenario.handler0);
          EvAggregateDeserialize "ckpt/checkpoint";
          EvDeserialize "ScalarHandler"
            [restore_info (Scenario.world (Scenario.saved "ckpt" tree_a1))
               Scenario.handler0 "ckpt" "a"]
            [Leaf (BRestore restore_args_int)]]
         ++ (if is_ok post
             then [EvSyncGlobalDevices "PyTreeCheckpointHandler:restore"]
             else []))).
Proof.
  apply (@restore_fallback
           (Scenario.world (Scenario.saved "ckpt" tree_a1))
           Scenario.handler0 "ckpt" (VInt 2) restore_args_int
           (Leaf (VInt 1)) "ScalarHandler" ["a"]
           eq_refl eq_refl eq_refl eq_refl eq_refl eq_refl).
Defined.

(** C3 as stated fails: with [transforms_default_to_original=false] the
    value is not taken from the target without touching storage: the
    path of [a] is read by the type handler. *)
Lemma restore_fallback_false_fetches_a :
  ~ (let out :=
       restore (Scenario.world (Scenario.saved "ckpt" tree_a1))
         Scenario.handler0 "ckpt" (Dict [("a", Leaf (VInt 2))])
         (Dict [("a", Leaf restore_args_int)])
         (Dict [("a", Leaf fallback_rule)]) false None in
     fst out = Ok (Dict [("a", Leaf (VInt 2))])
     /\ fetched_paths (snd out) = []).
Proof. cbv zeta. intros [_ H]. vm_compute in H. discriminate. Qed.

(** ** Rules that rename *)

Lemma _match_input_key_regexes_found (env : World) (input_key : TupleKey)
  (input_args : dict string (PyTree RestoreArgs))
  (found : PyTree RestoreArgs) :
  _match_input_key_regexes env input_key input_args = Ok (Some found) ->
  exists input_key_regex m,
    In (input_key_regex, found) input_args
    /\ re_fullmatch env input_key_regex (_keystr input_key) = Ok (Some m).
Proof.
  induction input_args as [|[regex args] rest IH]; simpl; [discriminate|].
  intros H. inv_bind H. destruct a as [m|].
  - injection H as <-. exists regex, m. auto.
  - destruct (IH H) as (regex' & m & Hin & Hm). exists regex', m. auto.
Qed.

Lemma _match_output_keys_found (env : World)
  (input_key transform_key : TupleKey) (transform : Transform)
  (flat_restore_args : dict TupleKey (PyTree RestoreArgs))
  (output_keys : list TupleKey) (found : PyTree RestoreArgs) :
  _match_output_keys env input_key transform_key transform flat_restore_args
    output_keys = Ok (Some found) ->
  exists output_key m,
    In output_key output_keys
    /\ re_fullmatch env (_keystr transform_key) (_keystr output_key)
       = Ok (Some m)
    /\ dict_get tuplekey_eqb output_key flat_restore_args = Some found
    /\ match original_key transform with
       | None => _keystr output_key = _keystr input_key
       | Some pattern => match_expand env m pattern = Ok (_keystr input_key)
       end.
Proof.
  induction output_keys as [|ok rest IH]; simpl; [discriminate|].
  intros H. inv_bind H.
  assert (Hrest :
    _match_output_keys env input_key transform_key transform
      flat_restore_args rest = Ok (Some found) ->
    exists output_key m,
      In output_key (ok :: rest)
      /\ re_fullmatch env (_keystr transform_key) (_keystr output_key)
         = Ok (Some m)
      /\ dict_get tuplekey_eqb output_key flat_restore_args = Some found
      /\ match original_key transform with
         | None => _keystr output_key = _keystr input_key
         | Some pattern => match_expand env m pattern = Ok (_keystr input_key)
         end).
  { intros H'. destruct (IH H') as (o & m & Hin & Ho).
    exists o, m. split; [now right | exact Ho]. }
  destruct a as [mt|]; [|now apply Hrest].
  inv_bind H. rename a into input_key_pattern.
  destruct (String.eqb_spec input_key_pattern (_keystr input_key)) as [E|_];
    [|now apply Hrest].
  destruct (dict_get tuplekey_eqb ok flat_restore_args) as [r|] eqn:Hr;
    [|discriminate].
  injection H as <-. exists ok, mt. repeat split; auto.
  destruct (original_key transform).
  - now rewrite <- E.
  - injection Ha0 as <-. exact E.
Qed.

Lemma _find_matching_input_args_found (env : World) {I}
  (input_key : TupleKey) (flat_item : dict TupleKey I)
  (flat_transforms : dict TupleKey Transform)
  (flat_restore_args : dict TupleKey (PyTree RestoreArgs))
  (found : PyTree RestoreArgs) :
  _find_matching_input_args env input_key flat_item flat_transforms
    flat_restore_args = Ok (Some found) ->
  exists transform_key transform,
    In (transform_key, transform) flat_transforms
    /\ match multi_value_fn transform with
       | Some _ =>
           exists input_args input_key_regex m,
             multi_value_fn_input_args transform = Some input_args
             /\ In (input_key_regex, found) input_args
             /\ re_fullmatch env input_key_regex (_keystr input_key)
                = Ok (Some m)
       | None =>
           use_fallback transform = false
           /\ exists output_key m,
                In output_key (keys flat_item)
                /\ re_fullmatch env (_keystr transform_key)
                     (_keystr output_key) = Ok (Some m)
                /\ dict_get tuplekey_eqb output_key flat_restore_args
                   = Some found
                /\ match original_key transform with
                   | None => _keystr output_key = _keystr input_key
                   | Some pattern =>
                       match_expand env m pattern = Ok (_keystr input_key)
                   end
       end.
Proof.
  induction flat_transforms as [|[tk t] rest IH]; simpl; [discriminate|].
  intros H.
  assert (Hrest :
    _find_matching_input_args env input_key flat_item rest flat_restore_args
    = Ok (Some found) ->
    exists transform_key transform,
      In (transform_key, transform) ((tk, t) :: rest)
      /\ match multi_value_fn transform with
         | Some _ =>
             exists input_args input_key_regex m,
               multi_value_fn_input_args transform = Some input_args
               /\ In (input_key_regex, found) input_args
               /\ re_fullmatch env input_key_regex (_keystr input_key)
                  = Ok (Some m)
         | None =>
             use_fallback transform = false
             /\ exists output_key m,
                  In output_key (keys flat_item)
                  /\ re_fullmatch env (_keystr transform_key)
                       (_keystr output_key) = Ok (Some m)
                  /\ dict_get tuplekey_eqb output_key flat_restore_args
                     = Some found
                  /\ match original_key transform with
                     | None => _keystr output_key = _keystr input_key
                     | Some pattern =>
                         match_expand env m pattern = Ok (_keystr input_key)
                     end
         end).
  { intros H'. destruct (IH H') as (tk' & t' & Hin & Ht).
    exists tk', t'. split; [now right | exact Ht]. }
  destruct (multi_value_fn t) as [fn|] eqn:Hfn.
  - destruct (negb (is_RestoreTransform t)); [discriminate|].
    destruct (multi_value_fn_input_args t) as [input_args|] eqn:Hargs;
      [|discriminate].
    inv_bind H. destruct a as [r|]; [|now apply Hrest].
    injection H as <-.
    destruct (_match_input_key_regexes_found _ _ _ Ha) as (regex & m & Hin & Hm).
    exists tk, t. split; [now left|]. rewrite Hfn.
    exists input_args, regex, m. auto.
  - destruct (use_fallback t) eqn:Hfb; simpl in H; [now apply Hrest|].
    inv_bind H. destruct a as [r|]; [|now apply Hrest].
    injection H as <-.
    destruct (_match_output_keys_found _ _ _ _ _ _ Ha) as (ok & m & Hok).
    exists tk, t. split; [now left|]. rewrite Hfn.
    split; [exact Hfb|]. exists ok, m. exact Hok.
Qed.

Lemma _match_output_keys_same_key (env : World)
  (input_key transform_key : TupleKey) (transform : Transform)
  (flat_restore_args : dict TupleKey (PyTree RestoreArgs))
  (before : list TupleKey) (output_key : TupleKey) (after : list TupleKey)
  (m : ReMatch) (found : PyTree RestoreArgs) :
  original_key transform = None ->
  (forall s, is_ok (re_fullmatch env (_keystr transform_key) s) = true) ->
  Forall (fun o => _keystr o <> _keystr input_key) before ->
  re_fullmatch env (_keystr transform_key) (_keystr output_key)
  = Ok (Some m) ->
  _keystr output_key = _keystr input_key ->
  dict_get tuplekey_eqb output_key flat_restore_args = Some found ->
  _match_output_keys env input_key transform_key transform flat_restore_args
    (before ++ output_key :: after) = Ok (Some found).
Proof.
  intros Ho Hre Hb Hm Hk Hf.
  induction Hb as [|o before Hne _ IH]; simpl.
  - rewrite Hm, Ho. simpl. rewrite Hk, String.eqb_refl. now rewrite Hf.
  - specialize (Hre (_keystr o)).
    destruct (re_fullmatch env (_keystr transform_key) (_keystr o))
      as [[mt|]|e]; [| |discriminate]; simpl; [|exact IH].
    rewrite Ho. simpl.
    destruct (String.eqb_spec (_keystr o) (_keystr input_key)) as [E|_];
      [now destruct Hne | exact IH].
Qed.

Lemma _find_matching_input_args_app (env : World) {I}
  (input_key : TupleKey) (flat_item : dict TupleKey I)
  (pre rules : dict TupleKey Transform)
  (flat_restore_args : dict TupleKey (PyTree RestoreArgs)) :
  _find_matching_input_args env input_key flat_item pre flat_restore_args
  = Ok None ->
  _find_matching_input_args env input_key flat_item (pre ++ rules)
    flat_restore_args
  = _find_matching_input_args env input_key flat_item rules flat_restore_args.
Proof.
  induction pre as [|[tk t] pre IH]; simpl; intros Hpre; [reflexivity|].
  destruct (multi_value_fn t).
  - destruct (negb (is_RestoreTransform t)); [discriminate|].
    destruct (multi_value_fn_input_args t) as [input_args|];
      [|discriminate].
    destruct (_match_input_key_regexes env input_key input_args)
      as [[r|]|e]; simpl in *; try discriminate. now apply IH.
  - destruct (negb (use_fallback t)); [|now apply IH].
    destruct (_match_output_keys env input_key tk t flat_restore_args
                (keys flat_item)) as [[r|]|e]; simpl in *;
      try discriminate.
    now apply IH.
Qed.

Lemma _find_matching_input_args_same_key (env : World) {I}
  (input_key : TupleKey) (flat_item : dict TupleKey I)
  (pre : dict TupleKey Transform) (transform_key : TupleKey)
  (transform : Transform) (rest : dict TupleKey Transform)
  (flat_restore_args : dict TupleKey (PyTree RestoreArgs))
  (before : list TupleKey) (output_key : TupleKey) (after : list TupleKey)
  (m : ReMatch) (found : PyTree RestoreArgs) :
  multi_value_fn transform = None ->
  use_fallback transform = false ->
  original_key transform = None ->
  _find_matching_input_args env input_key flat_item pre flat_restore_args
  = Ok None ->
  keys flat_item = before ++ output_key :: after ->
  (forall s, is_ok (re_fullmatch env (_keystr transform_key) s) = true) ->
  Forall (fun o => _keystr o <> _keystr input_key) before ->
  re_fullmatch env (_keystr transform_key) (_keystr output_key)
  = Ok (Some m) ->
  _keystr output_key = _keystr input_key ->
  dict_get tuplekey_eqb output_key flat_restore_args = Some found ->
  _find_matching_input_args env input_key flat_item
    (pre ++ (transform_key, transform) :: rest) flat_restore_args
  = Ok (Some found).
Proof.
  intros Hfn Hfb Ho Hpre Hkeys Hre Hb Hm Hk Hf.
  rewrite (_find_matching_input_args_app _ _ _ _ _ _ Hpre). simpl.
  rewrite Hfn, Hfb, Hkeys. simpl.
  now rewrite (_match_output_keys_same_key _ _ _ _ _ _ after Ho Hre Hb Hm Hk Hf).
Qed.

(** C5: restoring the saved tree [{a}] with a rule that maps the target
    key [b] to the original key [a] and target shape [{b: ?}] yields
    [{b: v}], [v] being the saved leaf [a] as the type handler read it
    with the RestoreArgs recorded at [b] in the target.  In general, the
    arguments found for a saved key come from one rule: for a rule that
    neither merges nor falls back they are the RestoreArgs recorded at a
    target key that the rule's pattern matches, and this key's string
    form equals the saved key when the rule has no original-key pattern,
    while otherwise expanding the pattern against the match yields the
    saved key.  Conversely, a rule without original-key pattern that the
    loop reaches finds the RestoreArgs of the first target key that has
    the saved key's string form, when its pattern matches that key. *)
Theorem restore_rename (env : World) (self : PyTreeCheckpointHandler)
  (directory : Path) (target : Value) (args : RestoreArgs)
  (v : Value) (h : Handler) (m : ReMatch)
  (transforms_default_to_original : bool) :
  path_exists env directory = true ->
  path_exists env (path_join directory (_aggregate_filename self)) = true ->
  aggregate_deserialize env (path_join directory (_aggregate_filename self))
  = Ok (Dict [("a", leaf_placeholder "a")]) ->
  re_fullmatch env "b" "b" = Ok (Some m) ->
  match_expand env m "a" = Ok "a" ->
  get_type_handler env (restore_type args) = Ok h ->
  handler_deserialize env h [restore_info env self directory "a"]
    [Leaf (BRestore args)]
  = Ok [Leaf v] ->
  restore env self directory (Dict [("b", Leaf target)])
    (Dict [("b", Leaf args)]) (Dict [("b", Leaf (rename_rule "a"))])
    transforms_default_to_original None
  = (Ok (Dict [("b", Leaf v)]),
     [EvByteLimiter (_concurrent_bytes self);
      EvAggregateDeserialize (path_join directory (_aggregate_filename self));
      EvDeserialize h [restore_info env self directory "a"]
        [Leaf (BRestore args)];
      EvSyncGlobalDevices "PyTreeCheckpointHandler:restore"])
  /\ (forall (input_key : TupleKey) (flat_item : dict TupleKey (PyTree Value))
        (flat_transforms : dict TupleKey Transform)
        (flat_restore_args : dict TupleKey (PyTree RestoreArgs))
        (found : PyTree RestoreArgs),
        _find_matching_input_args env input_key flat_item flat_transforms
          flat_restore_args = Ok (Some found) ->
        exists transform_key transform,
          In (transform_key, transform) flat_transforms
          /\ match multi_value_fn transform with
             | Some _ =>
                 exists input_args input_key_regex mt,
                   multi_value_fn_input_args transform = Some input_args
                   /\ In (input_key_regex, found) input_args
                   /\ re_fullmatch env input_key_regex (_keystr input_key)
                      = Ok (Some mt)
             | None =>
                 use_fallback transform = false
                 /\ exists output_key mt,
                      In output_key (keys flat_item)
                      /\ re_fullmatch env (_keystr transform_key)
                           (_keystr output_key) = Ok (Some mt)
                      /\ dict_get tuplekey_eqb output_key flat_restore_args
                         = Some found
                      /\ match original_key transform with
                         | None => _keystr output_key = _keystr input_key
                         | Some pattern =>
                             match_expand env mt pattern
                             = Ok (_keystr input_key)
                         end
             end)
  /\ (forall (input_key : TupleKey) (flat_item : dict TupleKey (PyTree Value))
        (pre : dict TupleKey Transform) (transform_key : TupleKey)
        (transform : Transform) (rest : dict TupleKey Transform)
        (flat_restore_args : dict TupleKey (PyTree RestoreArgs))
        (before : list TupleKey) (output_key : TupleKey)
        (after : list TupleKey) (mt : ReMatch) (found : PyTree RestoreArgs),
        multi_value_fn transform = None ->
        use_fallback transform = false ->
        original_key transform = None ->
        _find_matching_input_args env input_key flat_item pre
          flat_restore_args = Ok None ->
        keys flat_item = before ++ output_key :: after ->
        (forall s,
            is_ok (re_fullmatch env (_keystr transform_key) s) = true) ->
        Forall (fun o => _keystr o <> _keystr input_key) before ->
        re_fullmatch env (_keystr transform_key) (_keystr output_key)
        = Ok (Some mt) ->
        _keystr output_key = _keystr input_key ->
        dict_get tuplekey_eqb output_key flat_restore_args = Some found ->
        _find_matching_input_args env input_key flat_item
          (pre ++ (transform_key, transform) :: rest) flat_restore_args
        = Ok (Some found)).
Proof.
  intros Hd Hc Hagg Hm He Hh Hde. unfold restore_info, leaf_placeholder in *.
  split; [|split].
  - unfold restore, structure; rewrite Hd, Hc; cbn; rewrite Hagg.
    repeat first [progress run_handler | rewrite Hm | rewrite He
                 | rewrite Hh | rewrite Hde].
    reflexivity.
  - intros. eapply _find_matching_input_args_found; eassumption.
  - intros. eapply _find_matching_input_args_same_key; eassumption.
Qed.

Lemma restore_rename_witness :
  restore (Scenario.world (Scenario.saved "ckpt" tree_a1)) Scenario.handler0
    "ckpt" (Dict [("b", Leaf (VInt 0))])
    (Dict [("b", Leaf restore_args_int)])
    (Dict [("b", Leaf (rename_rule "a"))]) true None
  = (Ok (Dict [("b", Leaf (VInt 1))]),
     [EvByteLimiter (_concurrent_bytes Scenario.handler0);
      EvAggregateDeserialize "ckpt/checkpoint";
      EvDeserialize "ScalarHandler"
        [restore_info (Scenario.world (Scenario.saved "ckpt" tree_a1))
           Scenario.handler0 "ckpt" "a"]
        [Leaf (BRestore restore_args_int)];
      EvSyncGlobalDevices "PyTreeCheckpointHandler:restore"])
  /\ _find_matching_input_args
       (Scenario.world (Scenario.saved "ckpt" tree_a1)) ["a"]
       [(["b"], Leaf (VInt 0)); (["a"], Leaf (VInt 0))]
       [(["b"], rename_rule "c"); (["a"], plain_rule)]
       [(["b"], Leaf default_RestoreArgs); (["a"], Leaf restore_args_int)]
     = Ok (Some (Leaf restore_args_int)).
Proof.
  pose (w := Scenario.world (Scenario.saved "ckpt" tree_a1)).
  destruct (@restore_rename w Scenario.handler0 "ckpt" (VInt 0)
              restore_args_int (VInt 1) "ScalarHandler" ["b"] true
              eq_refl eq_refl eq_refl eq_refl eq_refl eq_refl eq_refl)
    as (Hrestore & _ & Hsame).
  split; [exact Hrestore|].
  apply (Hsame ["a"] [(["b"], Leaf (VInt 0)); (["a"], Leaf (VInt 0))]
           [(["b"], rename_rule "c")] ["a"] plain_rule []
           [(["b"], Leaf default_RestoreArgs); (["a"], Leaf restore_args_int)]
           [["b"]] ["a"] [] ["a"]);
    try reflexivity.
  - intros s.
    change (is_ok (if String.eqb "a" s then Ok (Some [s]) else Ok None) = true).
    now destruct (String.eqb "a" s).
  - repeat constructor. discriminate.
Defined.

(** ** Rules that merge several saved leaves *)

Lemma mapM_app_Raise {A B} (f : A -> result B) (l1 : list A) (x : A)
  (l2 : list A) (e0 : PyError) :
  f x = Raise e0 ->
  exists e, mapM f (l1 ++ x :: l2) = Raise e
            /\ (Forall (fun a => is_ok (f a) = true) l1 -> e = e0).
Proof.
  intros Hx. induction l1 as [|a l1 (e & He & Hfirst)]; simpl.
  - rewrite Hx. simpl. exists e0. auto.
  - destruct (f a) as [b|e'] eqn:Ha; simpl.
    + rewrite He. simpl. exists e. split; [reflexivity|].
      intros HF. inversion HF; subst. auto.
    + exists e'. split; [reflexivity|].
      intros HF. inversion HF as [|? ? Hok _]; subst.
      rewrite Ha in Hok. discriminate.
Qed.

Lemma _find_matching_input_args_missing (env : World) {I}
  (input_key : TupleKey) (flat_item : dict TupleKey I)
  (pre : dict TupleKey Transform) (transform_key : TupleKey)
  (rule : Transform) (rest : dict TupleKey Transform)
  (flat_restore_args : dict TupleKey (PyTree RestoreArgs)) :
  multi_value_fn rule <> None ->
  is_RestoreTransform rule = true ->
  multi_value_fn_input_args rule = None ->
  _find_matching_input_args env input_key flat_item pre flat_restore_args
  = Ok None ->
  _find_matching_input_args env input_key flat_item
    (pre ++ (transform_key, rule) :: rest) flat_restore_args
  = Raise missing_input_args_error.
Proof.
  intros Hfn Hrt Hargs.
  induction pre as [|[tk t] pre IH]; simpl; intros Hpre.
  - destruct (multi_value_fn rule); [|now destruct Hfn].
    now rewrite Hrt, Hargs.
  - destruct (multi_value_fn t).
    + destruct (negb (is_RestoreTransform t)); [discriminate|].
      destruct (multi_value_fn_input_args t) as [input_args|];
        [|discriminate].
      destruct (_match_input_key_regexes env input_key input_args)
        as [[r|]|e]; simpl in *; try discriminate. now apply IH.
    + destruct (negb (use_fallback t)); [|now apply IH].
      destruct (_match_output_keys env input_key tk t flat_restore_args
                  (keys flat_item)) as [[r|]|e]; simpl in *;
        try discriminate.
      now apply IH.
Qed.

Lemma _find_matching_input_args_empty (env : World) {I}
  (input_key : TupleKey) (flat_item : dict TupleKey I)
  (pre : dict TupleKey Transform) (transform_key : TupleKey)
  (rule : Transform) (rest : dict TupleKey Transform)
  (flat_restore_args : dict TupleKey (PyTree RestoreArgs)) :
  multi_value_fn rule <> None ->
  is_RestoreTransform rule = true ->
  multi_value_fn_input_args rule = Some [] ->
  _find_matching_input_args env input_key flat_item
    (pre ++ (transform_key, rule) :: rest) flat_restore_args
  = _find_matching_input_args env input_key flat_item (pre ++ rest)
      flat_restore_args.
Proof.
  intros Hfn Hrt Hargs.
  induction pre as [|[tk t] pre IH]; simpl.
  - destruct (multi_value_fn rule); [|now destruct Hfn].
    now rewrite Hrt, Hargs.
  - now rewrite IH.
Qed.

(** C4, as amended: a rule with a [multi_value_fn] whose map of input
    key regexes is missing is rejected as soon as the reconciliation
    loop reaches it for some saved key, that is, when the rules before
    it in the flattened transforms find nothing for that key: the
    restore raises before any type handler is called, and what it
    raises is the configuration error of the missing map when the turns
    of the saved keys before that one raise nothing.  A rule whose map
    is empty is accepted: the matching loop behaves as if the rule were
    not there. *)
Theorem restore_rejects_missing_input_args (env : World)
  (self : PyTreeCheckpointHandler) (directory : Path)
  (item : PyTree Value) (restore_args : PyTree RestoreArgs)
  (transforms : PyTree Transform) (transforms_default_to_original : bool)
  (transform_fn : option TransformFn)
  (saved : PyTree Value) (trace : list Event)
  (before : dict TupleKey (PyTree Value))
  (k : TupleKey) (v : PyTree Value) (more : dict TupleKey (PyTree Value))
  (pre : dict TupleKey Transform) (transform_key : TupleKey)
  (rule : Transform) (rest : dict TupleKey Transform) :
  path_exists env directory = true ->
  structure env self directory = (Ok saved, trace) ->
  item <> PNone ->
  to_flat_dict true saved = before ++ (k, v) :: more ->
  flat_leaves (to_flat_dict false transforms)
  = pre ++ (transform_key, rule) :: rest ->
  multi_value_fn rule <> None ->
  is_RestoreTransform rule = true ->
  multi_value_fn_input_args rule = None ->
  _find_matching_input_args env k (to_flat_dict true item) pre
    (to_flat_dict true (restore_args_or_default restore_args saved))
  = Ok None ->
  (exists e,
      restore env self directory item restore_args transforms
        transforms_default_to_original transform_fn
      = (Raise e, EvByteLimiter (_concurrent_bytes self) :: trace)
      /\ (Forall (fun kv =>
                    is_ok (_restore_parameter_of_key env directory
                             (Some (_concurrent_bytes self))
                             (dir_is_ocdbt_checkpoint env directory)
                             (to_flat_dict true item)
                             (pre ++ (transform_key, rule) :: rest)
                             (to_flat_dict true
                                (restore_args_or_default restore_args saved))
                             transforms_default_to_original
                             (fst kv) (snd kv)) = true) before ->
          e = missing_input_args_error))
  /\ existsb touches_type_handler
       (EvByteLimiter (_concurrent_bytes self) :: trace) = false
  /\ (forall (input_key : TupleKey) (flat_item : dict TupleKey (PyTree Value))
        (rules : dict TupleKey Transform) (empty_key : TupleKey)
        (empty_rule : Transform) (rules' : dict TupleKey Transform)
        (flat_restore_args : dict TupleKey (PyTree RestoreArgs)),
        multi_value_fn empty_rule <> None ->
        is_RestoreTransform empty_rule = true ->
        multi_value_fn_input_args empty_rule = Some [] ->
        _find_matching_input_args env input_key flat_item
          (rules ++ (empty_key, empty_rule) :: rules') flat_restore_args
        = _find_matching_input_args env input_key flat_item
            (rules ++ rules') flat_restore_args).
Proof.
  intros He Hs Hitem Hflat Hrules Hfn Hrt Hargs Hpre.
  split; [|split].
  - set (fra := to_flat_dict true (restore_args_or_default restore_args saved))
      in *.
    set (turn := fun kv : TupleKey * PyTree Value =>
                   r <- _restore_parameter_of_key env directory
                          (Some (_concurrent_bytes self))
                          (dir_is_ocdbt_checkpoint env directory)
                          (to_flat_dict true item)
                          (pre ++ (transform_key, rule) :: rest) fra
                          transforms_default_to_original (fst kv) (snd kv) ;;
                   Ok (fst kv, r)).
    assert (Hk : turn (k, v) = Raise missing_input_args_error).
    { unfold turn, _restore_parameter_of_key. cbn [fst snd].
      rewrite (_find_matching_input_args_missing env k
                 (to_flat_dict true item) pre transform_key rule rest fra
                 Hfn Hrt Hargs Hpre).
      reflexivity. }
    destruct (mapM_app_Raise turn before (k, v) more Hk) as (e & Hm & Hfirst).
    exists e. split.
    + assert (Hp : _get_restore_parameters env directory
                     (Some (_concurrent_bytes self)) item saved
                     transforms restore_args transforms_default_to_original
                   = Raise e).
      { unfold _get_restore_parameters.
        fold (restore_args_or_default restore_args saved). fold fra.
        rewrite Hflat, Hrules.
        destruct transforms as [|t|items].
        - destruct pre; discriminate.
        - destruct item; [now destruct Hitem | |]; fold turn; now rewrite Hm.
        - destruct item; [now destruct Hitem | |]; fold turn; now rewrite Hm. }
      unfold restore. rewrite He. cbn [negb]. unfold io_bind at 1.
      cbn [io_emit]. unfold io_bind at 1. rewrite Hs.
      unfold io_bind at 1. unfold io_lift. rewrite Hp.
      cbn. now rewrite app_nil_r.
    + intros HF. apply Hfirst. revert HF. apply Forall_impl.
      intros kv Hok. unfold turn.
      destruct (_restore_parameter_of_key _ _ _ _ _ _ _ _ _ _);
        [reflexivity | discriminate].
  - pose proof (structure_calls_no_type_handler env self directory) as Hc.
    rewrite Hs in Hc. exact Hc.
  - intros. now apply _find_matching_input_args_empty.
Qed.

Lemma restore_rejects_missing_input_args_witness :
  restore (Scenario.world (Scenario.saved "ckpt" tree_a1c3))
    Scenario.handler0 "ckpt" (Dict [("b", Leaf (VInt 0))])
    (Dict [("b", Leaf restore_args_int)])
    (Dict [("b", Leaf (rename_rule "a"));
           ("z", Leaf (merge_rule None))]) true None
  = (Raise missing_input_args_error,
     [EvByteLimiter (_concurrent_bytes Scenario.handler0);
      EvAggregateDeserialize "ckpt/checkpoint"])
  /\ _find_matching_input_args
       (Scenario.world (Scenario.saved "ckpt" tree_a1c3)) ["x"]
       [(["z"], Leaf (VInt 0)); (["x"], Leaf (VInt 0))]
       [(["z"], merge_rule (Some []))]
       [(["z"], Leaf restore_args_int); (["x"], Leaf restore_args_int)]
     = Ok None.
Proof.
  pose (w := Scenario.world (Scenario.saved "ckpt" tree_a1c3)).
  destruct (@restore_rejects_missing_input_args w
              Scenario.handler0 "ckpt" (Dict [("b", Leaf (VInt 0))])
              (Dict [("b", Leaf restore_args_int)])
              (Dict [("b", Leaf (rename_rule "a"));
                     ("z", Leaf (merge_rule None))]) true None
              (Dict [("a", Leaf (VPlaceholder "a"));
                     ("c", Leaf (VPlaceholder "c"))])
              [EvAggregateDeserialize "ckpt/checkpoint"]
              [(["a"], Leaf (VPlaceholder "a"))]
              ["c"] (Leaf (VPlaceholder "c")) []
              [(["b"], rename_rule "a")] ["z"] (merge_rule None) []
              eq_refl eq_refl ltac:(discriminate) eq_refl eq_refl
              ltac:(discriminate) eq_refl eq_refl eq_refl)
    as ((e & Hr & He) & _ & Hempty).
  split.
  - rewrite <- He; [exact Hr|]. repeat constructor.
  - etransitivity; [|reflexivity].
    exact (Hempty ["x"] [(["z"], Leaf (VInt 0)); (["x"], Leaf (VInt 0))]
             [] ["z"] (merge_rule (Some [])) []
             [(["z"], Leaf restore_args_int); (["x"], Leaf restore_args_int)]
             ltac:(discriminate) eq_refl eq_refl).
Defined.

(** C4 as stated fails, twice.  With a merge rule whose map of input
    key regexes is empty, no configuration error stops the restore
    before leaves are fetched: the saved leaf [x], wanted by the target,
    is read by its type handler.  And a merge rule whose map is missing
    is not rejected either when every saved key is matched by a rule
    before it: the saved leaf [a], renamed to [b], is read by its type
    handler. *)
Lemma restore_accepts_empty_or_unreached_input_args :
  ~ (exists msg trace,
       restore (Scenario.world (Scenario.saved "ckpt" tree_x1y2))
         Scenario.handler0 "ckpt"
         (Dict [("z", Leaf (VInt 0)); ("x", Leaf (VInt 0))])
         (Dict [("z", Leaf restore_args_int); ("x", Leaf restore_args_int)])
         (Dict [("z", Leaf (merge_rule (Some [])))]) true None
       = (Raise (ValueError msg), trace)
       /\ fetched_paths trace = [])
  /\ ~ (exists msg trace,
          restore (Scenario.world (Scenario.saved "ckpt" tree_a1))
            Scenario.handler0 "ckpt" (Dict [("b", Leaf (VInt 0))])
            (Dict [("b", Leaf restore_args_int)])
            (Dict [("b", Leaf (rename_rule "a"));
                   ("z", Leaf (merge_rule None))]) true None
          = (Raise (ValueError msg), trace)
          /\ fetched_paths trace = []).
Proof.
  split; intros (msg & trace & H & Hf);
    apply (f_equal snd) in H; cbn [snd] in H; subst trace;
    vm_compute in Hf; discriminate.
Qed.

Example get_restore_parameters_accepts_empty_input_args :
  is_ok (_get_restore_parameters
           (Scenario.world (Scenario.saved "ckpt" tree_x1y2)) "ckpt" None
           (Dict [("z", Leaf (VInt 0))])
           (Dict [("x", Leaf (VPlaceholder "x"));
                  ("y", Leaf (VPlaceholder "y"))])
           (Dict [("z", Leaf (merge_rule (Some [])))])
           (Dict [("z", Leaf restore_args_int)]) true)
  = true.
Proof. reflexivity. Qed.

Example restore_multi_merge :
  fst (restore (Scenario.world (Scenario.saved "ckpt" tree_x1y2))
         Scenario.handler0 "ckpt" (Dict [("z", Leaf (VInt 0))])
         (Dict [("z", Leaf restore_args_int)])
         (Dict [("z", Leaf (merge_rule
                              (Some [("x", Leaf restore_args_int);
                                     ("y", Leaf restore_args_int)])))])
         true None)
  = Ok (Dict [("z", Leaf (VInt 3))]).
Proof. reflexivity. Qed.

(** * Further properties *)

(** ** Leaves through the tree functions *)

Lemma tree_leaves_bind {X C} (f : X -> result (PyTree C)) (t : PyTree X) :
  (forall x r, f x = Ok r -> exists y, r = Leaf y) ->
  forall t',
    tree_bind f t = Ok t' ->
    Forall2 (fun x y => f x = Ok (Leaf y)) (tree_leaves t) (tree_leaves t').
Proof.
  intros Hf. induction t as [|x|items IH] using PyTree_nested_ind;
    intros t' H.
  - injection H as <-. constructor.
  - simpl in H. destruct (Hf _ _ H) as (y & ->). simpl.
    constructor; [assumption | constructor].
  - rewrite tree_bind_Dict in H. inv_bind H. injection H as <-.
    rewrite !tree_leaves_Dict.
    revert a Ha. induction items as [|[k c] r IHr]; simpl; intros zs H.
    + injection H as <-. constructor.
    + inv_bind H. inv_bind Ha. injection Ha as <-.
      inv_bind H. injection H as <-. simpl.
      inversion IH as [|? ? IHc IHrest]; subst.
      apply Forall2_app; [now apply IHc | now apply IHr].
Qed.

Lemma tree_leaves_flatten_up_to {X B} (s : PyTree X) :
  forall (t : PyTree B) z,
    flatten_up_to s t = Ok z -> map fst (tree_leaves z) = tree_leaves s.
Proof.
  induction s as [|x|items IH] using PyTree_nested_ind; intros t z H.
  - simpl in H. destruct t; try discriminate. now injection H as <-.
  - now injection H as <-.
  - destruct t as [| |items']; try discriminate.
    rewrite flatten_up_to_Dict in H.
    destruct (Nat.eqb _ _); [|discriminate].
    inv_bind H. injection H as <-. rewrite !tree_leaves_Dict.
    revert a Ha. induction items as [|[k c] r IHr]; simpl; intros zs H.
    + now injection H as <-.
    + inv_bind H. inv_bind Ha. injection Ha as <-.
      inv_bind H. injection H as <-. simpl.
      inversion IH as [|? ? IHc IHrest]; subst. unfold flatten_item in Ha0.
      destruct (dict_get String.eqb k items') as [c'|]; [|discriminate].
      rewrite map_app, (IHc _ _ Ha0). f_equal. now apply IHr.
Qed.

Lemma tree_leaves_positions_no_is_leaf {A} (t : PyTree A) :
  forall pre,
    map snd (tree_leaves (tree_positions no_is_leaf pre t))
    = map Leaf (tree_leaves t).
Proof.
  induction t as [|x|items IH] using PyTree_nested_ind; intros pre;
    try reflexivity.
  rewrite tree_positions_Dict by reflexivity. rewrite !tree_leaves_Dict.
  rewrite flat_map_concat_map, map_map, <- flat_map_concat_map.
  induction items as [|[k c] r IHr]; [reflexivity|].
  inversion IH as [|? ? IHc IHrest]; subst. simpl.
  rewrite !map_app, IHc. f_equal. now apply IHr.
Qed.

(** ** The flag returned by the classifier of save *)

Lemma get_param_infos_flag (item : PyTree Value) (directory : Path)
  (save_args : PyTree SaveArgs) (param_infos : PyTree ParamInfo)
  (all_params_aggregated : bool) :
  _get_param_infos item directory save_args
  = Ok (param_infos, all_params_aggregated) ->
  all_params_aggregated = forallb skip_deserialize (tree_leaves param_infos).
Proof.
  unfold _get_param_infos. intros H.
  inv_bind H. destruct (negb a); [discriminate|].
  inv_bind H. rename a0 into z. inv_bind H. injection H as <- <-.
  pose proof (tree_leaves_bind _ _ (_param_info_leaf directory) Ha1) as HF.
  unfold _all_aggregated. induction HF as [|x info xs infos Hx _ IH];
    [reflexivity|].
  simpl. rewrite IH. f_equal. unfold _param_info in Hx.
  destruct (snd x) as [|args|]; try discriminate.
  destruct (snd (fst x)); try discriminate. now injection Hx as <-.
Qed.

(** X1: the flag [all_params_aggregated] that [_get_param_infos] returns
    is true exactly when every ParamInfo it built has
    [skip_deserialize] set. *)
Theorem all_params_aggregated_iff_all_skipped (item : PyTree Value)
  (directory : Path) (save_args : PyTree SaveArgs)
  (param_infos : PyTree ParamInfo) (all_params_aggregated : bool) :
  _get_param_infos item directory save_args
  = Ok (param_infos, all_params_aggregated) ->
  all_params_aggregated = forallb skip_deserialize (tree_leaves param_infos).
Proof. apply get_param_infos_flag. Qed.

Lemma all_params_aggregated_iff_all_skipped_witness :
  _get_param_infos item_mixed "ckpt" save_args_mixed
  = Ok (param_infos_mixed, false)
  /\ false = forallb skip_deserialize (tree_leaves param_infos_mixed).
Proof.
  split; [reflexivity|].
  apply (@all_params_aggregated_iff_all_skipped item_mixed "ckpt"
           save_args_mixed param_infos_mixed false).
  reflexivity.
Defined.

(** ** The dictionary of requests *)

Lemma dict_get_set_same {V} (k : string) (v : V) (d : dict string V) :
  dict_get String.eqb k (dict_set String.eqb k v d) = Some v.
Proof.
  induction d as [|[k' v'] r IH]; simpl.
  - now rewrite String.eqb_refl.
  - destruct (String.eqb_spec k k') as [->|Hne]; simpl.
    + now rewrite String.eqb_refl.
    + destruct (String.eqb_spec k k'); [contradiction | exact IH].
Qed.

Lemma dict_get_set_other {V} (k k0 : string) (v : V) (d : dict string V) :
  k0 <> k ->
  dict_get String.eqb k0 (dict_set String.eqb k v d)
  = dict_get String.eqb k0 d.
Proof.
  intros Hne. induction d as [|[k' v'] r IH]; simpl.
  - destruct (String.eqb_spec k0 k); [contradiction | reflexivity].
  - destruct (String.eqb_spec k k') as [->|Hne']; simpl.
    + destruct (String.eqb_spec k0 k'); [contradiction | reflexivity].
    + destruct (String.eqb_spec k0 k'); [reflexivity | exact IH].
Qed.

Lemma dict_set_keys_mem {V} (k : string) (v v0 : V) (d : dict string V) :
  dict_get String.eqb k d = Some v0 ->
  map fst (dict_set String.eqb k v d) = map fst d.
Proof.
  induction d as [|[k' v'] r IH]; simpl; [discriminate|].
  destruct (String.eqb_spec k k') as [->|Hne]; simpl; [reflexivity|].
  intros H. now rewrite IH.
Qed.

Lemma dict_set_keys_new {V} (k : string) (v : V) (d : dict string V) :
  dict_get String.eqb k d = None ->
  dict_set String.eqb k v d = d ++ [(k, v)].
Proof.
  induction d as [|[k' v'] r IH]; simpl; [reflexivity|].
  destruct (String.eqb_spec k k') as [->|Hne]; [discriminate|].
  intros H. now rewrite IH.
Qed.

Lemma dict_set_last {V} (k : string) (v v' : V) (d : dict string V) :
  dict_get String.eqb k d = None ->
  dict_set String.eqb k v' (d ++ [(k, v)]) = d ++ [(k, v')].
Proof.
  induction d as [|[k0 v0] r IH]; simpl.
  - now rewrite String.eqb_refl.
  - destruct (String.eqb_spec k k0); [discriminate|].
    intros H. now rewrite IH.
Qed.

Lemma dict_get_snoc {V} (k k' : string) (v : V) (d : dict string V) :
  dict_get String.eqb k d = None ->
  dict_get String.eqb k' (d ++ [(k, v)])
  = if String.eqb k' k then Some v else dict_get String.eqb k' d.
Proof.
  induction d as [|[k0 v0] r IH]; simpl; [reflexivity|].
  destruct (String.eqb_spec k k0) as [->|Hne]; [discriminate|].
  intros H. destruct (String.eqb_spec k' k0) as [->|Hne'].
  - destruct (String.eqb_spec k0 k); [now destruct Hne | reflexivity].
  - now apply IH.
Qed.

Lemma dict_get_None_not_In {V} (k : string) (d : dict string V) :
  dict_get String.eqb k d = None -> ~ In k (map fst d).
Proof.
  induction d as [|[k' v'] r IH]; simpl; [tauto|].
  destruct (String.eqb_spec k k') as [->|Hne]; [discriminate|].
  intros H [E|Hin]; [now destruct Hne | now apply IH].
Qed.

Lemma dict_set_Forall {V} (P : string * V -> Prop) (k : string) (v : V)
  (d : dict string V) :
  Forall P d -> P (k, v) -> Forall P (dict_set String.eqb k v d).
Proof.
  intros Hd Hv. induction d as [|[k' v'] r IH]; simpl.
  - constructor; [assumption | constructor].
  - inversion Hd; subst.
    destruct (String.eqb_spec k k') as [->|Hne]; constructor; auto.
Qed.

Lemma combine_snoc {A B} (l1 : list A) (l2 : list B) (a : A) (b : B) :
  List.length l1 = List.length l2 ->
  combine (l1 ++ [a]) (l2 ++ [b]) = combine l1 l2 ++ [(a, b)].
Proof.
  revert l2. induction l1 as [|x l1 IH]; intros [|y l2] H;
    try discriminate; [reflexivity|].
  simpl. f_equal. apply IH. now injection H.
Qed.

(** One leaf added to the request of its handler. *)
Lemma _group_value_spec (env : World) (grouped : dict Handler _BatchRequest)
  (info : ParamInfo) (value : PyTree Value) (arg : PyTree BatchArg)
  (grouped' : dict Handler _BatchRequest) :
  grouped_invariant grouped ->
  skip_deserialize info = false ->
  _group_value env grouped (Leaf info) value arg = Ok grouped' ->
  exists h,
    handler_of_leaf env value arg = Ok h
    /\ grouped_invariant grouped'
    /\ leaves_at h grouped' = leaves_at h grouped ++ [(value, info, arg)]
    /\ (forall h', h' <> h -> leaves_at h' grouped' = leaves_at h' grouped)
    /\ (forall h', In h' (map fst grouped') ->
                   In h' (map fst grouped) \/ h' = h).
Proof.
  intros [Hnd Hwf] Hskip H. unfold _group_value in H. rewrite Hskip in H.
  fold (handler_of_leaf env value arg) in H.
  destruct (handler_of_leaf env value arg) as [h|e] eqn:Hh; [|discriminate].
  simpl in H. exists h. split; [reflexivity|].
  unfold dict_mem in H.
  destruct (dict_get String.eqb h grouped) as [r|] eqn:Hg; simpl in H.
  - rewrite Hg in H. injection H as <-.
    assert (Hr : handler r = h /\ request_well_formed r).
    { apply dict_get_string_In in Hg. rewrite Forall_forall in Hwf.
      apply (Hwf _ Hg). }
    destruct Hr as [Hrh [Hl1 Hl2]].
    repeat split.
    + now rewrite (dict_set_keys_mem _ _ _ Hg).
    + apply dict_set_Forall; [assumption|]. simpl.
      split; [assumption|]. unfold request_well_formed. simpl.
      rewrite !length_app. simpl. lia.
    + unfold leaves_at. rewrite dict_get_set_same, Hg.
      unfold request_leaves. simpl.
      rewrite !combine_snoc; try assumption; [reflexivity|].
      rewrite length_combine. lia.
    + intros h' Hne. unfold leaves_at. now rewrite dict_get_set_other.
    + intros h' Hin. left. now rewrite (dict_set_keys_mem _ _ _ Hg) in Hin.
  - rewrite dict_get_set_same in H. injection H as <-. simpl.
    rewrite (@dict_set_keys_new _ h (mkBatchRequest h [] [] []) grouped Hg).
    rewrite (@dict_set_last _ h (mkBatchRequest h [] [] [])
               (mkBatchRequest h [value] [info] [arg]) grouped Hg).
    pose proof (@dict_get_None_not_In _ h grouped Hg) as Hnot.
    assert (Hget : forall h',
               dict_get String.eqb h'
                 (grouped ++ [(h, mkBatchRequest h [value] [info] [arg])])
               = if String.eqb h' h
                 then Some (mkBatchRequest h [value] [info] [arg])
                 else dict_get String.eqb h' grouped).
    { intros h'. apply dict_get_snoc. exact Hg. }
    repeat split.
    + rewrite map_app. simpl. apply NoDup_app; try assumption.
      * constructor; [tauto | constructor].
      * intros x Hx [<-|[]]. contradiction.
    + apply Forall_app. split; [assumption|].
      constructor; [|constructor]. simpl. repeat split.
    + unfold leaves_at. rewrite Hget, String.eqb_refl, Hg. reflexivity.
    + intros h' Hne. unfold leaves_at. rewrite Hget.
      destruct (String.eqb_spec h' h); [contradiction | reflexivity].
    + intros h' Hin. rewrite map_app in Hin. apply in_app_or in Hin.
      destruct Hin as [Hin|[<-|[]]]; auto.
Qed.

Lemma flat_map_dict_set {V X} (f : V -> list X) (k : string) (v v' : V)
  (x : X) (d : dict string V) :
  dict_get String.eqb k d = Some v ->
  f v' = f v ++ [x] ->
  Permutation (flat_map (fun kv => f (snd kv)) (dict_set String.eqb k v' d))
    (flat_map (fun kv => f (snd kv)) d ++ [x]).
Proof.
  intros Hg Hf. induction d as [|[k0 v0] r IH]; simpl in *; [discriminate|].
  destruct (String.eqb_spec k k0) as [->|Hne]; simpl.
  - injection Hg as ->. rewrite Hf. rewrite <- !app_assoc.
    apply Permutation_app_head. apply Permutation_app_comm.
  - rewrite <- app_assoc. apply Permutation_app_head. now apply IH.
Qed.

Lemma _group_value_perm (env : World) (grouped : dict Handler _BatchRequest)
  (info : ParamInfo) (value : PyTree Value) (arg : PyTree BatchArg)
  (grouped' : dict Handler _BatchRequest) :
  grouped_invariant grouped ->
  skip_deserialize info = false ->
  _group_value env grouped (Leaf info) value arg = Ok grouped' ->
  Permutation (flat_map (fun hr => request_leaves (snd hr)) grouped')
    (flat_map (fun hr => request_leaves (snd hr)) grouped
     ++ [(value, info, arg)]).
Proof.
  intros [Hnd Hwf] Hskip H. unfold _group_value in H. rewrite Hskip in H.
  fold (handler_of_leaf env value arg) in H.
  destruct (handler_of_leaf env value arg) as [h|e] eqn:Hh; [|discriminate].
  simpl in H. unfold dict_mem in H.
  destruct (dict_get String.eqb h grouped) as [r|] eqn:Hg; simpl in H.
  - rewrite Hg in H. injection H as <-.
    apply (@flat_map_dict_set _ _ request_leaves h r); [exact Hg|].
    assert (Hr : handler r = h /\ request_well_formed r).
    { apply dict_get_string_In in Hg. rewrite Forall_forall in Hwf.
      apply (Hwf _ Hg). }
    destruct Hr as [_ [Hl1 Hl2]]. unfold request_leaves. simpl.
    rewrite !combine_snoc; try assumption; [reflexivity|].
    rewrite length_combine. lia.
  - rewrite dict_get_set_same in H. injection H as <-. simpl.
    rewrite (@dict_set_keys_new _ h (mkBatchRequest h [] [] []) grouped Hg).
    rewrite (@dict_set_last _ h (mkBatchRequest h [] [] [])
               (mkBatchRequest h [value] [info] [arg]) grouped Hg).
    rewrite flat_map_app. simpl. reflexivity.
Qed.

(** What the loop of [_batched_serialization_requests] has grouped once
    all leaves are seen. *)
Lemma _group_values_spec (env : World)
  (leaves : list (TupleKey * PyTree ParamInfo * PyTree Value
                  * PyTree BatchArg)) :
  forall grouped grouped',
    grouped_invariant grouped ->
    _group_values env grouped leaves = Ok grouped' ->
    grouped_invariant grouped'
    /\ (forall h,
           leaves_at h grouped'
           = leaves_at h grouped
             ++ filter (resolves_to env h) (kept_leaves leaves))
    /\ (forall h,
           In h (map fst grouped') ->
           In h (map fst grouped)
           \/ exists leaf, In leaf (kept_leaves leaves)
                           /\ resolves_to env h leaf = true)
    /\ Permutation (flat_map (fun hr => request_leaves (snd hr)) grouped')
         (flat_map (fun hr => request_leaves (snd hr)) grouped
          ++ kept_leaves leaves).
Proof.
  induction leaves as [|[[[kp info] value] arg] rest IH];
    intros grouped grouped' Hinv H.
  - injection H as <-. repeat split; try apply Hinv.
    + intros h. now rewrite app_nil_r.
    + auto.
    + simpl. now rewrite app_nil_r.
  - simpl in H. inv_bind H. rename a into g1.
    destruct info as [|i|]; try discriminate.
    unfold kept_leaves. simpl. fold (kept_leaves rest).
    destruct (skip_deserialize i) eqn:Hs.
    + unfold _group_value in Ha. rewrite Hs in Ha. injection Ha as <-.
      simpl. now apply IH.
    + destruct (@_group_value_spec env grouped i value arg g1 Hinv Hs Ha)
        as (h & Hh & Hinv1 & Hat & Hother & Hkeys).
      pose proof (@_group_value_perm env grouped i value arg g1 Hinv Hs Ha) as Hperm1.
      destruct (IH g1 grouped' Hinv1 H) as (Hinv' & Hat' & Hkeys' & Hperm').
      assert (Hres : forall h', resolves_to env h' (value, i, arg)
                                = String.eqb h h').
      { intros h'. unfold resolves_to. simpl. now rewrite Hh. }
      repeat split; try apply Hinv'.
      * intros h'. rewrite Hat'. simpl. rewrite Hres.
        destruct (String.eqb_spec h h') as [<-|Hne].
        -- rewrite Hat. now rewrite <- app_assoc.
        -- rewrite Hother; [reflexivity | congruence].
      * intros h' Hin. destruct (Hkeys' _ Hin) as [Hin1|(leaf & Hl & Hr)].
        -- destruct (Hkeys _ Hin1) as [Hin0| ->]; [now left|].
           right. exists (value, i, arg). split; [now left|].
           rewrite Hres. apply String.eqb_refl.
        -- right. exists leaf. split; [now right | assumption].
      * simpl. rewrite Hperm'. rewrite Hperm1. rewrite <- app_assoc.
        reflexivity.
Qed.

Lemma batch_leaves_infos (tree : PyTree Value) (param_infos : PyTree ParamInfo)
  (args : PyTree BatchArg) leaves :
  batch_leaves tree param_infos args = Ok leaves ->
  map (fun l => snd (fst (fst l))) leaves = map Leaf (tree_leaves param_infos).
Proof.
  unfold batch_leaves. intros H. inv_bind H. inv_bind H. injection H as <-.
  rewrite <- (tree_leaves_positions_no_is_leaf param_infos []).
  rewrite <- (tree_leaves_flatten_up_to _ _ Ha).
  rewrite <- (tree_leaves_flatten_up_to _ _ Ha0).
  rewrite !map_map. reflexivity.
Qed.

Lemma kept_leaves_infos
  (leaves : list (TupleKey * PyTree ParamInfo * PyTree Value
                  * PyTree BatchArg)) :
  forall infos,
    map (fun l => snd (fst (fst l))) leaves = map Leaf infos ->
    map (fun l => snd (fst l)) (kept_leaves leaves)
    = filter (fun i => negb (skip_deserialize i)) infos.
Proof.
  induction leaves as [|[[[kp info] value] arg] rest IH];
    intros [|i infos] H; try discriminate; [reflexivity|].
  simpl in H. injection H as -> H. unfold kept_leaves. simpl.
  fold (kept_leaves rest).
  destruct (skip_deserialize i); simpl; [|f_equal]; now apply IH.
Qed.

Lemma _batched_serialization_requests_grouped (env : World)
  (tree : PyTree Value) (param_infos : PyTree ParamInfo)
  (args : PyTree BatchArg) (requests : list _BatchRequest) :
  _batched_serialization_requests env tree param_infos args = Ok requests ->
  exists leaves grouped,
    batch_leaves tree param_infos args = Ok leaves
    /\ _group_values env [] leaves = Ok grouped
    /\ requests = map snd grouped.
Proof.
  unfold _batched_serialization_requests, batch_leaves. intros H.
  inv_bind H. inv_bind H. inv_bind H. injection H as <-.
  exists (tree_leaves a0), a1. rewrite Ha. simpl. rewrite Ha0. simpl.
  auto.
Qed.

Lemma grouped_invariant_nil : grouped_invariant [].
Proof. split; constructor. Qed.

Lemma map_fst_combine_same {A B} (l : list A) :
  forall l' : list B,
    List.length l = List.length l' -> map fst (combine l l') = l.
Proof.
  induction l as [|a l IH]; intros [|b l'] H; try discriminate;
    [reflexivity|].
  simpl. f_equal. apply IH. now injection H.
Qed.

Lemma map_snd_combine_same {A B} (l : list A) :
  forall l' : list B,
    List.length l = List.length l' -> map snd (combine l l') = l'.
Proof.
  induction l as [|a l IH]; intros [|b l'] H; try discriminate;
    [reflexivity|].
  simpl. f_equal. apply IH. now injection H.
Qed.

Lemma request_leaves_infos (r : _BatchRequest) :
  request_well_formed r ->
  map (fun l => snd (fst l)) (request_leaves r) = infos r.
Proof.
  intros [H1 H2]. unfold request_leaves.
  rewrite <- (map_map fst snd).
  rewrite map_fst_combine_same by (rewrite length_combine; lia).
  now apply map_snd_combine_same.
Qed.

Lemma grouped_requests_infos (grouped : dict Handler _BatchRequest) :
  grouped_invariant grouped ->
  map (fun l => snd (fst l))
    (flat_map (fun hr => request_leaves (snd hr)) grouped)
  = flat_map infos (map snd grouped).
Proof.
  intros [_ Hwf]. induction Hwf as [|[h r] rest [_ Hr] _ IH];
    [reflexivity|].
  simpl. rewrite map_app, IH. f_equal. now apply request_leaves_infos.
Qed.

Lemma grouped_requests_handlers (grouped : dict Handler _BatchRequest) :
  grouped_invariant grouped ->
  map handler (map snd grouped) = map fst grouped.
Proof.
  intros [_ Hwf]. induction Hwf as [|[h r] rest [Hh _] _ IH];
    [reflexivity|].
  simpl in *. now rewrite IH, Hh.
Qed.

Lemma grouped_request_at (grouped : dict Handler _BatchRequest)
  (r : _BatchRequest) :
  grouped_invariant grouped ->
  In r (map snd grouped) ->
  In (handler r) (map fst grouped)
  /\ request_well_formed r
  /\ leaves_at (handler r) grouped = request_leaves r.
Proof.
  intros [Hnd Hwf] Hin. apply in_map_iff in Hin.
  destruct Hin as ([h r'] & Hr & Hin). simpl in Hr. subst r'.
  rewrite Forall_forall in Hwf. destruct (Hwf _ Hin) as [Hh Hr].
  simpl in Hh, Hr. rewrite Hh. repeat split; try apply Hr.
  - apply in_map_iff. now exists (h, r).
  - unfold leaves_at. now rewrite (dict_get_NoDup _ _ _ Hnd Hin).
Qed.

Lemma batched_requests_infos (env : World)
  (tree : PyTree Value) (param_infos : PyTree ParamInfo)
  (args : PyTree BatchArg) (requests : list _BatchRequest) :
  _batched_serialization_requests env tree param_infos args = Ok requests ->
  Permutation (flat_map infos requests)
    (filter (fun i => negb (skip_deserialize i)) (tree_leaves param_infos)).
Proof.
  intros H.
  destruct (_batched_serialization_requests_grouped _ _ _ _ H)
    as (leaves & grouped & Hl & Hg & ->).
  destruct (@_group_values_spec env leaves [] grouped
              grouped_invariant_nil Hg) as (Hinv & _ & _ & Hperm).
  rewrite <- (grouped_requests_infos Hinv).
  rewrite <- (kept_leaves_infos leaves _ (batch_leaves_infos _ _ _ Hl)).
  apply Permutation_map. exact Hperm.
Qed.

(** X2: the requests of [_batched_serialization_requests] hold, between
    them, exactly the ParamInfos of [param_infos] that are not marked
    [skip_deserialize], each as often as it occurs in the tree. *)
Theorem batched_requests_hold_the_unskipped_infos (env : World)
  (tree : PyTree Value) (param_infos : PyTree ParamInfo)
  (args : PyTree BatchArg) (requests : list _BatchRequest) :
  _batched_serialization_requests env tree param_infos args = Ok requests ->
  Permutation (flat_map infos requests)
    (filter (fun i => negb (skip_deserialize i)) (tree_leaves param_infos)).
Proof. apply batched_requests_infos. Qed.

Lemma batched_requests_hold_the_unskipped_infos_witness :
  exists requests,
    _batched_serialization_requests (Scenario.world Scenario.empty_disk)
      item_batches param_infos_batches args_batches = Ok requests
    /\ Permutation (flat_map infos requests)
         (filter (fun i => negb (skip_deserialize i))
            (tree_leaves param_infos_batches)).
Proof.
  eexists. split; [reflexivity|].
  apply (@batched_requests_hold_the_unskipped_infos
           (Scenario.world Scenario.empty_disk)
           item_batches param_infos_batches args_batches).
  reflexivity.
Defined.


Lemma batched_requests_shape (env : World)
  (tree : PyTree Value) (param_infos : PyTree ParamInfo)
  (args : PyTree BatchArg) (requests : list _BatchRequest) :
  _batched_serialization_requests env tree param_infos args = Ok requests ->
  NoDup (map handler requests)
  /\ Forall (fun r => request_well_formed r /\ infos r <> []) requests.
Proof.
  intros H.
  destruct (_batched_serialization_requests_grouped _ _ _ _ H)
    as (leaves & grouped & Hl & Hg & ->).
  destruct (@_group_values_spec env leaves [] grouped
              grouped_invariant_nil Hg) as (Hinv & Hat & Hkeys & _).
  split.
  - rewrite (grouped_requests_handlers Hinv). apply Hinv.
  - apply Forall_forall. intros r Hin.
    destruct (grouped_request_at r Hinv Hin) as (Hk & Hwf & Hr).
    split; [exact Hwf|].
    destruct (Hkeys _ Hk) as [[]|(leaf & Hleaf & Hres)].
    rewrite <- (request_leaves_infos Hwf), <- Hr, Hat. simpl.
    assert (Hin' : In leaf (filter (resolves_to env (handler r))
                              (kept_leaves leaves))).
    { apply filter_In. now split. }
    destruct (filter _ _); [contradiction | discriminate].
Qed.

(** X3: [_batched_serialization_requests] returns at most one request
    per type handler, and in each request the lists [values], [infos]
    and [args] have the same length and are not empty. *)
Theorem batched_requests_one_per_handler (env : World)
  (tree : PyTree Value) (param_infos : PyTree ParamInfo)
  (args : PyTree BatchArg) (requests : list _BatchRequest) :
  _batched_serialization_requests env tree param_infos args = Ok requests ->
  NoDup (map handler requests)
  /\ Forall (fun r => request_well_formed r /\ infos r <> []) requests.
Proof. apply batched_requests_shape. Qed.

Lemma batched_requests_one_per_handler_witness :
  exists requests,
    _batched_serialization_requests (Scenario.world Scenario.empty_disk)
      item_batches param_infos_batches args_batches = Ok requests
    /\ NoDup (map handler requests)
    /\ Forall (fun r => request_well_formed r /\ infos r <> []) requests.
Proof.
  eexists. split; [reflexivity|].
  apply (@batched_requests_one_per_handler
           (Scenario.world Scenario.empty_disk)
           item_batches param_infos_batches args_batches).
  reflexivity.
Defined.


Lemma batched_request_leaves (env : World)
  (tree : PyTree Value) (param_infos : PyTree ParamInfo)
  (args : PyTree BatchArg) (requests : list _BatchRequest) :
  _batched_serialization_requests env tree param_infos args = Ok requests ->
  exists leaves,
    batch_leaves tree param_infos args = Ok leaves
    /\ forall r, In r requests ->
         request_leaves r
         = filter (resolves_to env (handler r)) (kept_leaves leaves).
Proof.
  intros H.
  destruct (_batched_serialization_requests_grouped _ _ _ _ H)
    as (leaves & grouped & Hl & Hg & ->).
  destruct (@_group_values_spec env leaves [] grouped
              grouped_invariant_nil Hg) as (Hinv & Hat & _ & _).
  exists leaves. split; [exact Hl|]. intros r Hin.
  destruct (grouped_request_at r Hinv Hin) as (_ & _ & Hr).
  now rewrite <- Hr, Hat.
Qed.

(** X4: when the dictionaries of the ParamInfo tree list their keys in
    ascending order, the order in which [jax.tree_util.tree_map] visits
    them, the leaves of one request are the leaves that are not skipped
    and whose type handler is the request's, in the order of that
    traversal. *)
Theorem batched_request_in_traversal_order (env : World)
  (tree : PyTree Value) (param_infos : PyTree ParamInfo)
  (args : PyTree BatchArg) (requests : list _BatchRequest) :
  keys_ascending param_infos = true ->
  _batched_serialization_requests env tree param_infos args = Ok requests ->
  exists leaves,
    batch_leaves tree param_infos args = Ok leaves
    /\ forall r, In r requests ->
         request_leaves r
         = filter (resolves_to env (handler r)) (kept_leaves leaves).
Proof. intros _. apply batched_request_leaves. Qed.

Lemma batched_request_in_traversal_order_witness :
  keys_ascending param_infos_batches = true
  /\ exists requests,
       _batched_serialization_requests (Scenario.world Scenario.empty_disk)
         item_batches param_infos_batches args_batches = Ok requests
       /\ exists leaves,
            batch_leaves item_batches param_infos_batches args_batches
            = Ok leaves
            /\ forall r, In r requests ->
                 request_leaves r
                 = filter (resolves_to (Scenario.world Scenario.empty_disk)
                             (handler r))
                     (kept_leaves leaves).
Proof.
  split; [reflexivity|].
  eexists. split; [reflexivity|].
  apply (@batched_request_in_traversal_order
           (Scenario.world Scenario.empty_disk)
           item_batches param_infos_batches args_batches);
    reflexivity.
Defined.


Lemma _group_value_total (env : World) (grouped : dict Handler _BatchRequest)
  (info : ParamInfo) (value : PyTree Value) (arg : PyTree BatchArg) :
  skip_deserialize info = false ->
  match handler_of_leaf env value arg with
  | Ok _ => exists grouped',
      _group_value env grouped (Leaf info) value arg = Ok grouped'
  | Raise e => _group_value env grouped (Leaf info) value arg = Raise e
  end.
Proof.
  intros Hs. unfold _group_value. rewrite Hs.
  fold (handler_of_leaf env value arg).
  destruct (handler_of_leaf env value arg) as [h|e]; [|reflexivity].
  simpl. unfold dict_mem.
  destruct (dict_get String.eqb h grouped) as [r|] eqn:Hg; simpl.
  - rewrite Hg. eauto.
  - rewrite dict_get_set_same. eauto.
Qed.

Lemma _group_values_total (env : World)
  (leaves : list (TupleKey * PyTree ParamInfo * PyTree Value
                  * PyTree BatchArg)) :
  Forall (fun l => exists i, snd (fst (fst l)) = Leaf i) leaves ->
  forall grouped,
    (exists grouped', _group_values env grouped leaves = Ok grouped')
    <-> Forall (fun leaf => exists h,
                  handler_of_leaf env (fst (fst leaf)) (snd leaf) = Ok h)
          (kept_leaves leaves).
Proof.
  induction 1 as [|[[[kp info] value] arg] rest [i Hi] _ IH];
    intros grouped.
  - split; [constructor | now exists grouped].
  - simpl in Hi. subst info.
    assert (Hk : kept_leaves ((kp, Leaf i, value, arg) :: rest)
                 = (if skip_deserialize i then [] else [(value, i, arg)])
                   ++ kept_leaves rest) by reflexivity.
    rewrite Hk. cbn [_group_values].
    destruct (skip_deserialize i) eqn:Hs.
    + unfold _group_value. rewrite Hs. simpl. apply IH.
    + pose proof (@_group_value_total env grouped i value arg Hs) as Ht.
      simpl app. split.
      * intros [g' Hg]. inv_bind Hg. rewrite Ha in Ht.
        destruct (handler_of_leaf env value arg) as [h|e] eqn:Hh;
          [|discriminate].
        constructor; [now exists h|]. apply (IH a). now exists g'.
      * intros HF. inversion HF as [|? ? [h Hh] HF']; subst.
        simpl in Hh. rewrite Hh in Ht. destruct Ht as [g1 Hg1].
        rewrite Hg1. simpl. now apply IH.
Qed.

Lemma batch_leaves_are_leaves (tree : PyTree Value)
  (param_infos : PyTree ParamInfo) (args : PyTree BatchArg) leaves :
  batch_leaves tree param_infos args = Ok leaves ->
  Forall (fun l => exists i, snd (fst (fst l)) = Leaf i) leaves.
Proof.
  intros H. apply batch_leaves_infos in H.
  revert H. generalize (tree_leaves param_infos) as infos.
  induction leaves as [|l rest IH]; intros [|i infos] H; try discriminate;
    constructor.
  - exists i. now injection H.
  - apply (IH infos). now injection H.
Qed.

(** X5: once the three trees match in structure,
    [_batched_serialization_requests] returns exactly when every leaf
    that is not skipped has a type handler; leaves marked
    [skip_deserialize] are never looked up. *)
Theorem batched_requests_returns_iff_handlers (env : World)
  (tree : PyTree Value) (param_infos : PyTree ParamInfo)
  (args : PyTree BatchArg) leaves :
  batch_leaves tree param_infos args = Ok leaves ->
  (exists requests,
      _batched_serialization_requests env tree param_infos args
      = Ok requests)
  <-> Forall (fun leaf => exists h,
                handler_of_leaf env (fst (fst leaf)) (snd leaf) = Ok h)
        (kept_leaves leaves).
Proof.
  intros Hl.
  rewrite <- (_group_values_total env (batch_leaves_are_leaves _ _ _ Hl) []).
  unfold _batched_serialization_requests. unfold batch_leaves in Hl.
  inv_bind Hl. inv_bind Hl. injection Hl as <-.
  rewrite Ha. simpl. rewrite Ha0. simpl. split.
  - intros [requests H]. inv_bind H. now exists a1.
  - intros [g Hg]. rewrite Hg. simpl. eauto.
Qed.

Lemma batched_requests_returns_iff_handlers_witness :
  exists leaves,
    batch_leaves item_batches param_infos_batches args_batches = Ok leaves
    /\ ((exists requests,
            _batched_serialization_requests
              (Scenario.world Scenario.empty_disk)
              item_batches param_infos_batches args_batches = Ok requests)
        <-> Forall (fun leaf => exists h,
                      handler_of_leaf (Scenario.world Scenario.empty_disk)
                        (fst (fst leaf)) (snd leaf) = Ok h)
              (kept_leaves leaves)).
Proof.
  eexists. split; [reflexivity|].
  apply (@batched_requests_returns_iff_handlers
           (Scenario.world Scenario.empty_disk)
           item_batches param_infos_batches args_batches).
  reflexivity.
Defined.

(** ** Traces of the handler *)

Lemma io_bind_trace {A B} (c : IO A) (k : A -> IO B) :
  snd (io_bind c k)
  = snd c ++ match fst c with
             | Ok a => snd (k a)
             | Raise _ => []
             end.
Proof.
  destruct c as [[a|e] trace]; simpl.
  - now destruct (k a).
  - now rewrite app_nil_r.
Qed.

Lemma io_bind_result {A B} (c : IO A) (k : A -> IO B) :
  fst (io_bind c k)
  = match fst c with
    | Ok a => fst (k a)
    | Raise e => Raise e
    end.
Proof.
  destruct c as [[a|e] trace]; simpl; [now destruct (k a) | reflexivity].
Qed.

Lemma io_bind_Ok {A B} (c : IO A) (k : A -> IO B) (b : B) trace :
  io_bind c k = (Ok b, trace) ->
  exists a t1 t2, c = (Ok a, t1) /\ k a = (Ok b, t2) /\ trace = t1 ++ t2.
Proof.
  destruct c as [[a|e] t1]; simpl; [|discriminate].
  destruct (k a) as [r t2] eqn:Hk. intros [= -> <-]. now exists a, t1, t2.
Qed.

Lemma io_bind_free {A B} (P : Event -> bool) (c : IO A) (k : A -> IO B) :
  existsb P (snd c) = false ->
  (forall a, fst c = Ok a -> existsb P (snd (k a)) = false) ->
  existsb P (snd (io_bind c k)) = false.
Proof.
  intros Hc Hk. rewrite io_bind_trace, existsb_app, Hc. simpl.
  destruct (fst c); [now apply Hk | reflexivity].
Qed.

Lemma io_gather_free {A} (P : Event -> bool) (ops : list (IO A)) :
  Forall (fun op => existsb P (snd op) = false) ops ->
  existsb P (snd (io_gather ops)) = false.
Proof.
  induction 1 as [|op r Hop _ IH]; [reflexivity|].
  simpl. apply io_bind_free; [exact Hop|]. intros a _.
  apply io_bind_free; [exact IH | reflexivity].
Qed.

Lemma io_lift_free {A} (P : Event -> bool) (r : result A) :
  existsb P (snd (io_lift r)) = false.
Proof. reflexivity. Qed.

Ltac trace_free :=
  repeat first
    [ reflexivity
    | apply io_lift_free
    | apply io_bind_free; [|intros ? ?]
    | apply io_gather_free
    | match goal with
      | |- existsb _ (snd (match ?x with _ => _ end)) = false => destruct x
      | |- existsb _ (snd (if ?x then _ else _)) = false => destruct x
      | |- existsb _ (snd (let '(_, _) := ?x in _)) = false => destruct x
      end ].

Lemma _maybe_deserialize_never_writes (env : World) (structure : PyTree Value)
  (param_infos : PyTree ParamInfo) (restore_args : PyTree RestoreArgs) :
  existsb is_write
    (snd (_maybe_deserialize env structure param_infos restore_args)) = false.
Proof.
  unfold _maybe_deserialize. trace_free.
  apply Forall_forall. intros op Hop. apply in_map_iff in Hop.
  destruct Hop as (r & <- & _). unfold _deserialize_request. trace_free.
Qed.

Lemma structure_never_writes (env : World) (self : PyTreeCheckpointHandler)
  (directory : Path) :
  existsb is_write (snd (structure env self directory)) = false.
Proof. unfold structure. trace_free. Qed.

(** X9: whatever its arguments and however it ends, [restore] writes
    nothing: it never creates a directory, never calls a type handler's
    or the aggregate handler's serialize and never waits on a commit
    future. *)
Theorem restore_never_writes (env : World) (self : PyTreeCheckpointHandler)
  (directory : Path) (item : PyTree Value)
  (restore_args : PyTree RestoreArgs) (transforms : PyTree Transform)
  (transforms_default_to_original : bool)
  (transform_fn : option (TransformFn)) :
  existsb is_write
    (snd (restore env self directory item restore_args transforms
            transforms_default_to_original transform_fn)) = false.
Proof.
  unfold restore. destruct (negb (path_exists env directory));
    [reflexivity|].
  apply io_bind_free; [reflexivity|]. intros _ _.
  apply io_bind_free; [apply structure_never_writes|]. intros s _.
  apply io_bind_free; [reflexivity|]. intros [param_infos cra] _.
  apply io_bind_free; [trace_free|]. intros [[[s' pi'] ra'] cra'] _.
  apply io_bind_free; [apply _maybe_deserialize_never_writes|]. intros r _.
  trace_free.
Qed.

Lemma flatten_up_to_same_skeleton {X Y B} (s1 : PyTree X) :
  forall (s2 : PyTree Y) (t : PyTree B) z1,
    skeleton s1 = skeleton s2 ->
    flatten_up_to s1 t = Ok z1 ->
    exists z2,
      flatten_up_to s2 t = Ok z2
      /\ map snd (tree_leaves z1) = map snd (tree_leaves z2).
Proof.
  induction s1 as [|x|items IH] using PyTree_nested_ind;
    intros s2 t z1 Hs H.
  - destruct s2 as [|y|items2]; try discriminate.
    simpl in H. destruct t; try discriminate. injection H as <-.
    now exists PNone.
  - destruct s2 as [|y|items2]; try discriminate.
    injection H as <-. now exists (Leaf (y, t)).
  - destruct s2 as [|y|items2]; try discriminate.
    rewrite !skeleton_Dict in Hs. injection Hs as Hs.
    destruct t as [| |items']; try discriminate.
    rewrite flatten_up_to_Dict in H. rewrite flatten_up_to_Dict.
    assert (Hlen : List.length items = List.length items2).
    { rewrite <- (length_map (fun kc => (fst kc, skeleton (snd kc))) items),
        Hs. apply length_map. }
    rewrite <- Hlen. revert H. destruct (Nat.eqb _ _); [|discriminate].
    intros H. inv_bind H. injection H as <-. rename a into zs.
    assert (Hloop : exists zs2,
               mapM (fun kc => z <- flatten_item items' (fst kc) (snd kc) ;;
                               Ok (fst kc, z)) items2 = Ok zs2
               /\ map snd (flat_map (fun kc => tree_leaves (snd kc)) zs)
                  = map snd (flat_map (fun kc => tree_leaves (snd kc)) zs2)).
    { clear Hlen. revert items2 Hs zs Ha.
      induction items as [|[k c] r IHr]; intros [|[k2 c2] r2] Hs zs H;
        try discriminate.
      - injection H as <-. now exists [].
      - simpl in Hs. injection Hs as -> Hc Hr.
        simpl in H. inv_bind H. inv_bind Ha. injection Ha as <-.
        inv_bind H. injection H as <-.
        inversion IH as [|? ? IHc IHrest]; subst.
        unfold flatten_item in Ha0 |- *. simpl.
        destruct (dict_get String.eqb k2 items') as [c'|]; [|discriminate].
        destruct (IHc _ _ _ Hc Ha0) as (z2 & Hz2 & Hl).
        destruct (IHr IHrest _ Hr _ Ha) as (zs2 & Hzs2 & Hls).
        exists ((k2, z2) :: zs2). rewrite Hz2. simpl.
        unfold flatten_item in Hzs2. rewrite Hzs2. simpl.
        split; [reflexivity|]. now rewrite !map_app, Hl, Hls. }
    destruct Hloop as (zs2 & Hzs2 & Hl). exists (Dict zs2).
    rewrite Hzs2. split; [reflexivity|].
    now rewrite !tree_leaves_Dict.
Qed.

Lemma tree_leaves_bind_map {X C} (f : X -> result (PyTree C)) (g : X -> C)
  (t : PyTree X) :
  (forall x, f x = Ok (Leaf (g x))) ->
  exists t', tree_bind f t = Ok t' /\ tree_leaves t' = map g (tree_leaves t).
Proof.
  intros Hf. induction t as [|x|items IH] using PyTree_nested_ind.
  - now exists PNone.
  - exists (Leaf (g x)). simpl. now rewrite Hf.
  - rewrite tree_bind_Dict.
    assert (Hloop : exists zs,
               mapM (fun kc => z <- tree_bind f (snd kc) ;; Ok (fst kc, z))
                 items = Ok zs
               /\ flat_map (fun kc => tree_leaves (snd kc)) zs
                  = map g (flat_map (fun kc => tree_leaves (snd kc)) items)).
    { induction items as [|[k c] r IHr]; [now exists []|].
      inversion IH as [|? ? IHc IHrest]; subst.
      destruct IHc as (z & Hz & Hl). destruct (IHr IHrest) as (zs & Hzs & Hls).
      exists ((k, z) :: zs). simpl in *. rewrite Hz, Hzs. simpl.
      split; [reflexivity|]. now rewrite map_app, Hl, Hls. }
    destruct Hloop as (zs & Hzs & Hl). exists (Dict zs). rewrite Hzs.
    split; [reflexivity|]. now rewrite !tree_leaves_Dict.
Qed.

Lemma io_gather_all_ok {A} (ops : list (IO A)) :
  Forall (fun op => exists a, fst op = Ok a) ops ->
  exists l, io_gather ops = (Ok l, flat_map snd ops).
Proof.
  induction 1 as [|[r tr] rest [a Ha] _ (l & IH)]; [now exists []|].
  simpl in Ha. subst r. exists (a :: l). simpl. rewrite IH. simpl.
  now rewrite app_nil_r.
Qed.

Lemma created_dirs_app (t1 t2 : list Event) :
  created_dirs (t1 ++ t2) = created_dirs t1 ++ created_dirs t2.
Proof. apply flat_map_app. Qed.

Lemma created_dirs_free (trace : list Event) :
  existsb is_makedirs trace = false -> created_dirs trace = [].
Proof.
  induction trace as [|ev r IH]; [reflexivity|]. simpl.
  destruct ev; simpl; try discriminate; exact IH.
Qed.

Lemma create_dir_ops (env : World) (directory : Path)
  (l1 : list (TupleKey * PyTree string * PyTree SaveArgs))
  (infos : list ParamInfo) :
  Forall2 (fun x info =>
             _param_info directory (snd (fst x)) (snd x) = Ok (Leaf info))
    l1 infos ->
  forall l2 : list (TupleKey * PyTree ParamInfo * PyTree SaveArgs),
    map (fun x => snd (fst x)) l2 = map Leaf infos ->
    map snd l2 = map snd l1 ->
    Forall (fun op => exists a, fst op = Ok a) (map (create_dir_op env) l2)
    /\ flat_map snd (map (create_dir_op env) l2)
       = if Nat.eqb (process_index env) 0 then
           map EvMakedirs
             (flat_map (fun info =>
                          if skip_deserialize info then []
                          else match path info with
                               | Some p => [p]
                               | None => []
                               end) infos)
         else [].
Proof.
  induction 1 as [|x1 info r1 infos Hx _ IH]; intros [|x2 l2] Hi Ha;
    try discriminate.
  - split; [constructor | now destruct (Nat.eqb _ _)].
  - simpl in Hi, Ha. injection Hi as Hi Hi'. injection Ha as Ha Ha'.
    destruct (IH _ Hi' Ha') as [IH1 IH2]. simpl. rewrite IH2.
    unfold create_dir_op at 1 3. rewrite Hi, Ha.
    unfold _param_info in Hx. destruct (snd x1) as [|args|]; try discriminate.
    destruct (snd (fst x1)) as [|n|]; try discriminate.
    injection Hx as <-. unfold _create_param_save_dir. simpl.
    destruct (aggregate args); simpl.
    + split; [constructor; [now exists tt | exact IH1] | reflexivity].
    + destruct (Nat.eqb (process_index env) 0); simpl;
        (split; [constructor; [now exists tt | exact IH1] | reflexivity]).
Qed.

Lemma create_param_save_dirs (env : World) (item : PyTree Value)
  (directory : Path) (save_args : PyTree SaveArgs)
  (param_infos : PyTree ParamInfo) (all_params_aggregated : bool) :
  _get_param_infos item directory save_args
  = Ok (param_infos, all_params_aggregated) ->
  exists ops done,
    tree_map2 no_is_leaf (_create_param_save_dir_at env) param_infos save_args
    = Ok ops
    /\ io_gather (tree_leaves ops)
       = (Ok done,
          if Nat.eqb (process_index env) 0 then
            map EvMakedirs (unskipped_paths param_infos)
          else []).
Proof.
  unfold _get_param_infos. intros H.
  inv_bind H. destruct (negb a); [discriminate|].
  inv_bind H. rename a0 into z1. inv_bind H. injection H as <- _.
  rename a0 into param_infos.
  assert (Hs : skeleton (tree_positions no_is_leaf [] (_get_param_names item))
               = skeleton (tree_positions no_is_leaf [] param_infos)).
  { rewrite (skeleton_positions param_infos []).
    rewrite (tree_bind_skeleton _ (_param_info_leaf directory) _ Ha1).
    now rewrite (flatten_up_to_skeleton _ _ Ha0). }
  destruct (flatten_up_to_same_skeleton _ _ _ Hs Ha0) as (z2 & Hz2 & Hl).
  unfold tree_map2. rewrite Hz2. simpl.
  destruct (@tree_leaves_bind_map _ _
              (fun '(_, a, b) => _create_param_save_dir_at env a b)
              (create_dir_op env) z2) as (ops & Hops & Hleaves).
  { intros [[kp a'] b]. unfold create_dir_op. simpl.
    destruct a', b; reflexivity. }
  exists ops. rewrite Hops, Hleaves.
  pose proof (tree_leaves_bind _ _ (_param_info_leaf directory) Ha1) as HF.
  destruct (@create_dir_ops env directory _ _ HF (tree_leaves z2))
    as [Hok Htr].
  - rewrite <- (tree_leaves_positions_no_is_leaf param_infos []).
    rewrite <- (tree_leaves_flatten_up_to _ _ Hz2). now rewrite map_map.
  - now rewrite Hl.
  - destruct (io_gather_all_ok Hok) as (done & Hdone). exists done.
    split; [reflexivity|]. rewrite Hdone, Htr. reflexivity.
Qed.

Lemma tree_map2_leaves {A B C} (is_leaf : PyTree A -> bool)
  (f : PyTree A -> PyTree B -> result (PyTree C)) (t1 : PyTree A)
  (t2 : PyTree B) (t' : PyTree C) :
  (forall a b r, f a b = Ok r -> exists y, r = Leaf y) ->
  tree_map2 is_leaf f t1 t2 = Ok t' ->
  Forall (fun y => exists a b, f a b = Ok (Leaf y)) (tree_leaves t').
Proof.
  intros Hf H. unfold tree_map2 in H. inv_bind H.
  assert (Hf' : forall (x : TupleKey * PyTree A * PyTree B) r,
             (let '(_, a, b) := x in f a b) = Ok r -> exists y, r = Leaf y).
  { intros [[kp a'] b] r. apply Hf. }
  pose proof (tree_leaves_bind _ _ Hf' H) as HF.
  induction HF as [|[[kp a'] b] y l l' Hy _ IH]; constructor; eauto.
Qed.

Lemma create_dirs_stage_free (env : World) (P : Event -> bool)
  (param_infos : PyTree ParamInfo) (save_args : PyTree SaveArgs)
  (b : bool) :
  (forall p, P (EvMakedirs p) = false) ->
  P (EvSyncGlobalDevices "PyTreeCheckpointHandler:create_param_save_dirs")
  = false ->
  existsb P
    (snd (if b then
            ops <~ io_lift (tree_map2 no_is_leaf
                              (_create_param_save_dir_at env)
                              param_infos save_args) ;;
            _ <~ io_gather (tree_leaves ops) ;;
            io_emit (EvSyncGlobalDevices
                       "PyTreeCheckpointHandler:create_param_save_dirs")
          else io_ret tt)) = false.
Proof.
  intros Hm Hs. destruct b; [|reflexivity].
  apply io_bind_free; [reflexivity|]. intros ops Hops.
  apply io_bind_free; [|intros _ _; simpl; now rewrite Hs].
  apply io_gather_free. simpl in Hops.
  apply tree_map2_leaves in Hops.
  - eapply Forall_impl; [|exact Hops]. intros op (a & b & Hop).
    unfold _create_param_save_dir_at in Hop.
    destruct a as [|info|], b as [|args|]; injection Hop as <-;
      try reflexivity.
    unfold _create_param_save_dir.
    destruct (path info); [|reflexivity].
    destruct (aggregate args); [reflexivity|].
    destruct (Nat.eqb _ _); [|reflexivity]. simpl. now rewrite Hm.
  - intros a b r Hr. unfold _create_param_save_dir_at in Hr.
    destruct a, b; injection Hr as <-; eauto.
Qed.

Lemma serialize_stage_free (env : World) (P : Event -> bool)
  (item : PyTree Value) (param_infos : PyTree ParamInfo)
  (save_args : PyTree SaveArgs) (b : bool) :
  (forall h values infos args, P (EvSerialize h values infos args) = false) ->
  existsb P
    (snd (if b then io_ret []
          else
            batch_requests <~
              io_lift (_batched_serialization_requests env item param_infos
                         (tree_fmap BSave save_args)) ;;
            commit_futures <~
              io_gather (map (_serialize_request env) batch_requests) ;;
            io_ret (List.concat commit_futures))) = false.
Proof.
  intros Hs. destruct b; [reflexivity|].
  apply io_bind_free; [reflexivity|]. intros requests _.
  apply io_bind_free; [|reflexivity].
  apply io_gather_free. apply Forall_forall. intros op Hop.
  apply in_map_iff in Hop. destruct Hop as (r & <- & _).
  unfold _serialize_request. apply io_bind_free; [|reflexivity].
  simpl. now rewrite Hs.
Qed.

Lemma write_aggregate_file_free (env : World) (self : PyTreeCheckpointHandler)
  (P : Event -> bool) (directory : Path) (item : PyTree Value)
  (param_infos : PyTree ParamInfo) (save_args : PyTree SaveArgs) :
  (forall p ser_item, P (EvAggregateSerialize p ser_item) = false) ->
  existsb P
    (snd (_write_aggregate_file env self directory item param_infos
            save_args)) = false.
Proof.
  intros Ha. unfold _write_aggregate_file.
  apply io_bind_free; [reflexivity|]. intros ser_item _.
  apply io_bind_free; [|reflexivity]. simpl. now rewrite Ha.
Qed.

Lemma async_save_never_reads (env : World) (self : PyTreeCheckpointHandler)
  (directory : Path) (item : PyTree Value) (save_args : PyTree ArgLeaf) :
  existsb is_read (snd (async_save env self directory item save_args))
  = false.
Proof.
  unfold async_save.
  apply io_bind_free; [reflexivity|]. intros sa _.
  apply io_bind_free; [reflexivity|]. intros [param_infos agg] _.
  apply io_bind_free; [now apply create_dirs_stage_free|]. intros _ _.
  apply io_bind_free; [now apply serialize_stage_free|]. intros futures _.
  apply io_bind_free; [|reflexivity].
  now apply write_aggregate_file_free.
Qed.

Lemma emit_all (events : list Event) :
  io_gather (map io_emit events) = (Ok (map (fun _ => tt) events), events).
Proof.
  induction events as [|ev r IH]; [reflexivity|].
  simpl. rewrite IH. simpl. now rewrite app_nil_r.
Qed.

(** X10: whatever its arguments and however it ends, [save] reads
    nothing back: it never deserializes, never asks for the structure
    of a checkpoint and creates no byte limiter. *)
Theorem save_never_reads (env : World) (self : PyTreeCheckpointHandler)
  (directory : Path) (item : PyTree Value) (save_args : PyTree ArgLeaf) :
  existsb is_read (snd (save env self directory item save_args)) = false.
Proof.
  unfold save. apply io_bind_free; [apply async_save_never_reads|].
  intros futures _. rewrite <- (map_map EvFutureResult io_emit), emit_all.
  simpl. rewrite existsb_app. simpl. rewrite orb_false_r.
  induction futures as [|f r IH]; [reflexivity | exact IH].
Qed.

(** X6: [save] runs [async_save], then waits on every future it
    returned, in order, and then reaches the barrier once (waiting on a
    future is a call that does not itself raise); when [async_save]
    raises, [save] raises the same error without waiting and without
    the barrier. *)
Theorem save_waits_then_syncs (env : World) (self : PyTreeCheckpointHandler)
  (directory : Path) (item : PyTree Value) (save_args : PyTree ArgLeaf) :
  save env self directory item save_args
  = match async_save env self directory item save_args with
    | (Ok commit_futures, trace) =>
        (Ok tt,
         trace ++ map EvFutureResult commit_futures
         ++ [EvSyncGlobalDevices "PyTreeCheckpointHandler:save"])
    | (Raise e, trace) => (Raise e, trace)
    end.
Proof.
  unfold save.
  destruct (async_save env self directory item save_args)
    as [[futures|e] trace]; [|reflexivity].
  simpl. rewrite <- (map_map EvFutureResult io_emit), emit_all. reflexivity.
Qed.

Lemma io_bind_lift {A B} (a : A) (k : A -> IO B) :
  io_bind (io_lift (Ok a)) k = k a.
Proof. unfold io_lift, io_bind. now destruct (k a). Qed.

Lemma unskipped_paths_all_skipped (param_infos : PyTree ParamInfo) :
  forallb skip_deserialize (tree_leaves param_infos) = true ->
  unskipped_paths param_infos = [].
Proof.
  unfold unskipped_paths. induction (tree_leaves param_infos) as [|i r IH];
    [reflexivity|].
  simpl. intros H. apply andb_prop in H. destruct H as [-> H]. now apply IH.
Qed.

Lemma created_dirs_makedirs (paths : list Path) :
  created_dirs (map EvMakedirs paths) = paths.
Proof. induction paths as [|p r IH]; [reflexivity | simpl; now rewrite IH]. Qed.

Lemma async_save_created_dirs (env : World) (self : PyTreeCheckpointHandler)
  (directory : Path) (item : PyTree Value) (user_args : PyTree ArgLeaf)
  (save_args : PyTree SaveArgs) (param_infos : PyTree ParamInfo)
  (all_params_aggregated : bool) :
  _default_save_args env item user_args = Ok save_args ->
  _get_param_infos item directory save_args
  = Ok (param_infos, all_params_aggregated) ->
  created_dirs (snd (async_save env self directory item user_args))
  = if negb (_use_ocdbt self) && Nat.eqb (process_index env) 0 then
      unskipped_paths param_infos
    else [].
Proof.
  intros Hsa Hpi. unfold async_save.
  rewrite Hsa, io_bind_lift. cbv beta. rewrite Hpi, io_bind_lift. cbv beta iota.
  rewrite io_bind_trace, created_dirs_app.
  match goal with
  | |- _ ++ created_dirs ?rest = _ =>
      assert (Hrest : created_dirs rest = [])
  end.
  { apply created_dirs_free.
    destruct (fst _); [|reflexivity].
    apply io_bind_free; [now apply serialize_stage_free|]. intros futures _.
    apply io_bind_free; [|reflexivity].
    now apply write_aggregate_file_free. }
  rewrite Hrest, app_nil_r. clear Hrest.
  destruct (create_param_save_dirs env _ _ _ Hpi) as (ops & done & Hops & Hg).
  destruct (_use_ocdbt self); simpl; [reflexivity|].
  destruct all_params_aggregated; simpl.
  - rewrite unskipped_paths_all_skipped; [now destruct (Nat.eqb _ _)|].
    symmetry. exact (get_param_infos_flag _ _ _ Hpi).
  - rewrite Hops. simpl. rewrite Hg. simpl. rewrite created_dirs_app. simpl.
    rewrite app_nil_r. destruct (Nat.eqb _ _); [|reflexivity].
    apply created_dirs_makedirs.
Qed.

(** X7: the directories [async_save] creates are exactly the paths of
    the parameters that are not aggregated, one per parameter, and only
    on process 0 of a handler without OCDBT; otherwise it creates
    none. *)
Theorem async_save_creates_dirs (env : World) (self : PyTreeCheckpointHandler)
  (directory : Path) (item : PyTree Value) (user_args : PyTree ArgLeaf)
  (save_args : PyTree SaveArgs) (param_infos : PyTree ParamInfo)
  (all_params_aggregated : bool) :
  _default_save_args env item user_args = Ok save_args ->
  _get_param_infos item directory save_args
  = Ok (param_infos, all_params_aggregated) ->
  Permutation
    (created_dirs (snd (async_save env self directory item user_args)))
    (if negb (_use_ocdbt self) && Nat.eqb (process_index env) 0 then
       unskipped_paths param_infos
     else []).
Proof.
  intros Hsa Hpi.
  now rewrite (async_save_created_dirs env self directory item user_args Hsa
                 Hpi).
Qed.

Lemma async_save_creates_dirs_witness :
  _default_save_args (Scenario.world Scenario.empty_disk) item_mixed PNone
  = Ok save_args_mixed
  /\ _get_param_infos item_mixed "ckpt" save_args_mixed
     = Ok (param_infos_mixed, false)
  /\ Permutation
       (created_dirs
          (snd (async_save (Scenario.world Scenario.empty_disk)
                  Scenario.handler0 "ckpt" item_mixed PNone)))
       ["ckpt/w"].
Proof.
  split; [reflexivity|]. split; [reflexivity|].
  apply (@async_save_creates_dirs (Scenario.world Scenario.empty_disk)
           Scenario.handler0 "ckpt" item_mixed PNone save_args_mixed
           param_infos_mixed false); reflexivity.
Defined.


(** X8: when [async_save] returns, its last call wrote the aggregate
    file at [directory / aggregate_filename], no earlier call did, and
    the future of that write is the last of the returned futures. *)
Theorem async_save_writes_aggregate_last (env : World)
  (self : PyTreeCheckpointHandler) (directory : Path) (item : PyTree Value)
  (save_args : PyTree ArgLeaf) (commit_futures : list Future)
  (trace : list Event) :
  async_save env self directory item save_args = (Ok commit_futures, trace) ->
  let p := path_join directory (_aggregate_filename self) in
  exists earlier ser_item futures aggregate_commit_future,
    trace = earlier ++ [EvAggregateSerialize p ser_item]
    /\ existsb is_aggregate_write earlier = false
    /\ aggregate_serialize env p ser_item = Ok aggregate_commit_future
    /\ commit_futures = futures ++ [aggregate_commit_future].
Proof.
  intros H p. unfold async_save in H.
  apply io_bind_Ok in H. destruct H as (sa & t1 & t1' & H1 & H & ->).
  apply io_bind_Ok in H. destruct H as ([pi agg] & t2 & t2' & H2 & H & ->).
  apply io_bind_Ok in H. destruct H as (u & t3 & t3' & H3 & H & ->).
  apply io_bind_Ok in H. destruct H as (futures & t4 & t4' & H4 & H & ->).
  apply io_bind_Ok in H. destruct H as (f & t5 & t5' & H5 & H & ->).
  injection H as <- <-.
  unfold _write_aggregate_file in H5.
  apply io_bind_Ok in H5. destruct H5 as (ser_item & t6 & t6' & H6 & H5 & ->).
  apply io_bind_Ok in H5. destruct H5 as (u' & t7 & t7' & H7 & H5 & ->).
  injection H6 as H6 <-. injection H7 as _ <-. injection H5 as H5 <-.
  injection H1 as H1 <-. injection H2 as H2 <-.
  exists (t3 ++ t4), ser_item, futures, f. fold p in H5. fold p.
  repeat split.
  - simpl. now rewrite app_assoc.
  - rewrite existsb_app. apply orb_false_intro.
    + pose proof (f_equal snd H3) as E. cbn [snd] in E. rewrite <- E.
      now apply create_dirs_stage_free.
    + pose proof (f_equal snd H4) as E. cbn [snd] in E. rewrite <- E.
      now apply serialize_stage_free.
  - exact H5.
Qed.

Lemma async_save_writes_aggregate_last_witness :
  exists commit_futures trace,
    async_save (Scenario.world Scenario.empty_disk) Scenario.handler0 "ckpt"
      item_mixed PNone = (Ok commit_futures, trace)
    /\ exists earlier ser_item futures aggregate_commit_future,
         trace = earlier ++ [EvAggregateSerialize "ckpt/checkpoint" ser_item]
         /\ existsb is_aggregate_write earlier = false
         /\ aggregate_serialize (Scenario.world Scenario.empty_disk)
              "ckpt/checkpoint" ser_item = Ok aggregate_commit_future
         /\ commit_futures = futures ++ [aggregate_commit_future].
Proof.
  eexists. eexists. split; [reflexivity|].
  apply (@async_save_writes_aggregate_last
           (Scenario.world Scenario.empty_disk) Scenario.handler0 "ckpt"
           item_mixed PNone).
  reflexivity.
Defined.

(** ** The ParamInfos of restore *)

Lemma tree_leaves_bind_Forall {X C} (Q : C -> Prop)
  (f : X -> result (PyTree C)) (t : PyTree X) :
  (forall x r, f x = Ok r -> Forall Q (tree_leaves r)) ->
  forall t', tree_bind f t = Ok t' -> Forall Q (tree_leaves t').
Proof.
  intros Hf. induction t as [|x|items IH] using PyTree_nested_ind;
    intros t' H.
  - injection H as <-. constructor.
  - simpl in H. now apply (Hf x).
  - rewrite tree_bind_Dict in H. inv_bind H. injection H as <-.
    rewrite tree_leaves_Dict.
    revert a Ha. induction items as [|[k c] r IHr]; simpl; intros zs H.
    + injection H as <-. constructor.
    + inv_bind H. inv_bind Ha. injection Ha as <-.
      inv_bind H. injection H as <-. simpl.
      inversion IH as [|? ? IHc IHrest]; subst.
      apply Forall_app. split; [now apply IHc | now apply IHr].
Qed.

Lemma from_flat_dict_leaves {A B} (Q : A -> Prop)
  (flat : dict TupleKey (PyTree A)) (target : PyTree B) (t : PyTree A) :
  Forall (fun kv => Forall Q (tree_leaves (snd kv))) flat ->
  from_flat_dict flat target = Ok t ->
  Forall Q (tree_leaves t).
Proof.
  intros Hflat H. unfold from_flat_dict, tree_map_with_path in H.
  revert H. apply tree_leaves_bind_Forall.
  intros [kp b] r Hr.
  destruct (dict_get tuplekey_eqb kp flat) as [v|] eqn:Hg; [|discriminate].
  injection Hr as <-. apply dict_get_tuplekey_In in Hg.
  rewrite Forall_forall in Hflat. exact (Hflat _ Hg).
Qed.

Lemma _get_param_info_ok (env : World) (directory : Path)
  (limiter : option ByteLimiter) (nested_name : TupleKey)
  (leaf : PyTree Value) (r : PyTree ParamInfo) :
  _get_param_info env directory limiter
    (dir_is_ocdbt_checkpoint env directory) nested_name leaf = Ok r ->
  Forall (restore_info_ok env directory limiter) (tree_leaves r).
Proof.
  unfold _get_param_info. intros H.
  assert (Hinfo : forall p,
             Forall (restore_info_ok env directory limiter)
               (tree_leaves
                  (Leaf (mkParamInfo (Some (String.concat "." nested_name))
                           p
                           match p with None => true | Some _ => false end
                           (Some (dir_is_ocdbt_checkpoint env directory))
                           limiter)))).
  { intros p. constructor; [|constructor]. split; [reflexivity|].
    intros _. split; reflexivity. }
  destruct (leaf_is_placeholder leaf).
  - injection H as <-. apply Hinfo.
  - destruct leaf as [|v|items].
    + simpl in H. injection H as <-. constructor.
    + destruct v; simpl in H;
        try (destruct (is_supported_aggregation_type env _);
             [|discriminate]);
        injection H as <-; apply Hinfo.
    + destruct items.
      * simpl in H. injection H as <-. constructor.
      * simpl in H. destruct (is_supported_aggregation_type env _);
          [|discriminate].
        injection H as <-. apply Hinfo.
Qed.

Lemma mapM_Forall2 {A B} (f : A -> result B) (l : list A) :
  forall out, mapM f l = Ok out -> Forall2 (fun a b => f a = Ok b) l out.
Proof.
  induction l as [|a r IH]; simpl; intros out H.
  - injection H as <-. constructor.
  - inv_bind H. inv_bind H. injection H as <-. constructor; auto.
Qed.

Lemma _restore_parameter_of_key_ok (env : World) (directory : Path)
  (limiter : option ByteLimiter)
  (flat_item : dict TupleKey (PyTree Value))
  (flat_transforms : dict TupleKey Transform)
  (flat_restore_args : dict TupleKey (PyTree RestoreArgs))
  (d : bool) (input_key : TupleKey) (value : PyTree Value)
  (r : PyTree ParamInfo * PyTree RestoreArgs) :
  _restore_parameter_of_key env directory limiter
    (dir_is_ocdbt_checkpoint env directory) flat_item flat_transforms
    flat_restore_args d input_key value = Ok r ->
  Forall (restore_info_ok env directory limiter) (tree_leaves (fst r)).
Proof.
  unfold _restore_parameter_of_key. intros H.
  assert (Hskip : Forall (restore_info_ok env directory limiter)
                    (tree_leaves (Leaf skipped_ParamInfo))).
  { constructor; [|constructor]. split; [reflexivity | discriminate]. }
  assert (Hfetch : forall r,
             (info <- _get_param_info env directory limiter
                        (dir_is_ocdbt_checkpoint env directory)
                        input_key value ;;
              match dict_get tuplekey_eqb input_key flat_restore_args with
              | Some args => Ok (info, args)
              | None => key_error (_keystr input_key)
              end) = Ok r ->
             Forall (restore_info_ok env directory limiter)
               (tree_leaves (fst r))).
  { intros r' Hr. inv_bind Hr.
    destruct (dict_get tuplekey_eqb input_key flat_restore_args);
      [|discriminate].
    injection Hr as <-. simpl. now apply _get_param_info_ok in Ha. }
  inv_bind H. destruct (args_truth a).
  - inv_bind H. apply _get_param_info_ok in Ha0.
    destruct a; injection H as <-; exact Ha0.
  - destruct (dict_mem tuplekey_eqb input_key flat_item).
    + inv_bind H. destruct a0, d;
        try (injection H as <-; exact Hskip); now apply Hfetch.
    + injection H as <-. exact Hskip.
Qed.

Lemma flat_param_infos_ok (env : World) (directory : Path)
  (limiter : option ByteLimiter)
  (flat_structure : dict TupleKey (PyTree Value)) :
  forall flat,
    mapM (fun kv =>
            info <- _get_param_info env directory limiter
                      (dir_is_ocdbt_checkpoint env directory)
                      (fst kv) (snd kv) ;;
            Ok (fst kv, info)) flat_structure = Ok flat ->
    Forall (fun kv => Forall (restore_info_ok env directory limiter)
                        (tree_leaves (snd kv))) flat.
Proof.
  intros flat Hm. apply mapM_Forall2 in Hm.
  induction Hm as [|kv out l l' Hkv _ IH]; [constructor|].
  constructor; [|exact IH].
  inv_bind Hkv. injection Hkv as <-. simpl.
  now apply _get_param_info_ok in Ha.
Qed.

Lemma flat_param_infos_of_transforms_ok (env : World) (directory : Path)
  (limiter : option ByteLimiter)
  (flat_item : dict TupleKey (PyTree Value))
  (flat_transforms : dict TupleKey Transform)
  (flat_restore_args : dict TupleKey (PyTree RestoreArgs)) (d : bool)
  (flat_structure : dict TupleKey (PyTree Value)) :
  forall flat,
    mapM (fun kv =>
            r <- _restore_parameter_of_key env directory limiter
                   (dir_is_ocdbt_checkpoint env directory)
                   flat_item flat_transforms flat_restore_args
                   d (fst kv) (snd kv) ;;
            Ok (fst kv, r)) flat_structure = Ok flat ->
    Forall (fun kv => Forall (restore_info_ok env directory limiter)
                        (tree_leaves (snd kv)))
      (map (fun kr => (fst kr, fst (snd kr))) flat).
Proof.
  intros flat Hm. apply mapM_Forall2 in Hm.
  induction Hm as [|kv out l l' Hkv _ IH]; [constructor|].
  simpl. constructor; [|exact IH].
  inv_bind Hkv. injection Hkv as <-. simpl.
  now apply _restore_parameter_of_key_ok in Ha.
Qed.

Lemma get_restore_parameters_infos_ok (env : World) (directory : Path)
  (limiter : option ByteLimiter) (item structure : PyTree Value)
  (transforms : PyTree Transform) (restore_args : PyTree RestoreArgs)
  (transforms_default_to_original : bool)
  (param_infos : PyTree ParamInfo) (out_args : PyTree RestoreArgs) :
  _get_restore_parameters env directory limiter item structure transforms
    restore_args transforms_default_to_original
  = Ok (param_infos, out_args) ->
  Forall (restore_info_ok env directory limiter) (tree_leaves param_infos).
Proof.
  unfold _get_restore_parameters. intros H.
  destruct transforms as [|tr|trs].
  - inv_bind H. inv_bind H. injection H as <- _.
    eapply from_flat_dict_leaves; [|exact Ha0].
    eapply flat_param_infos_ok; exact Ha.
  - destruct item; try discriminate;
      inv_bind H; inv_bind H; inv_bind H; injection H as <- _;
      (eapply from_flat_dict_leaves; [|exact Ha1]);
      eapply flat_param_infos_of_transforms_ok; exact Ha.
  - destruct item; try discriminate;
      inv_bind H; inv_bind H; inv_bind H; injection H as <- _;
      (eapply from_flat_dict_leaves; [|exact Ha1]);
      eapply flat_param_infos_of_transforms_ok; exact Ha.
Qed.

(** X11: with or without transforms, every ParamInfo that
    [_get_restore_parameters] returns is marked [skip_deserialize]
    exactly when it has no path, and one that is not skipped carries
    the byte limiter of the call and the OCDBT flag of the directory. *)
Theorem restore_parameters_path_or_skip (env : World) (directory : Path)
  (limiter : option ByteLimiter) (item structure : PyTree Value)
  (transforms : PyTree Transform) (restore_args : PyTree RestoreArgs)
  (transforms_default_to_original : bool)
  (param_infos : PyTree ParamInfo) (out_args : PyTree RestoreArgs) :
  _get_restore_parameters env directory limiter item structure transforms
    restore_args transforms_default_to_original
  = Ok (param_infos, out_args) ->
  Forall (restore_info_ok env directory limiter) (tree_leaves param_infos).
Proof.
  intros H. exact (get_restore_parameters_infos_ok _ _ _ _ _ _ _ _ H).
Qed.

Lemma restore_parameters_path_or_skip_witness :
  exists param_infos out_args,
    _get_restore_parameters world_a1 "ckpt" None PNone
      (Dict [("a", leaf_placeholder "a"); ("n", Leaf (VInt 3))]) PNone
      PNone true = Ok (param_infos, out_args)
    /\ Forall (restore_info_ok world_a1 "ckpt" None) (tree_leaves param_infos).
Proof.
  eexists. eexists. split; [reflexivity|].
  eapply (@restore_parameters_path_or_skip world_a1 "ckpt" None PNone
           (Dict [("a", leaf_placeholder "a"); ("n", Leaf (VInt 3))])
           PNone PNone true).
  reflexivity.
Defined.


Lemma io_bind_In {A B} (ev : Event) (c : IO A) (k : A -> IO B) :
  In ev (snd (io_bind c k)) ->
  In ev (snd c) \/ exists a, fst c = Ok a /\ In ev (snd (k a)).
Proof.
  destruct c as [[a|e] t]; simpl.
  - destruct (k a) as [r t'] eqn:Hk. simpl. intros H.
    apply in_app_or in H. destruct H as [H|H]; [now left|].
    right. exists a. rewrite Hk. now split.
  - now left.
Qed.

Lemma io_gather_In {A} (ev : Event) (ops : list (IO A)) :
  In ev (snd (io_gather ops)) -> exists op, In op ops /\ In ev (snd op).
Proof.
  induction ops as [|op r IH]; simpl; [intros []|].
  intros H. apply io_bind_In in H. destruct H as [H|(a & _ & H)].
  - exists op. auto.
  - apply io_bind_In in H. destruct H as [H|(l & _ & [])].
    destruct (IH H) as (op' & Hin & Hev). exists op'. auto.
Qed.

Lemma _maybe_deserialize_events (env : World) (structure : PyTree Value)
  (param_infos : PyTree ParamInfo) (restore_args : PyTree RestoreArgs)
  (ev : Event) :
  In ev (snd (_maybe_deserialize env structure param_infos restore_args)) ->
  exists structure' requests request,
    _batched_serialization_requests env structure' param_infos
      (tree_fmap BRestore restore_args) = Ok requests
    /\ In request requests
    /\ ev = EvDeserialize (handler request) (infos request) (args request).
Proof.
  unfold _maybe_deserialize. intros H.
  apply io_bind_In in H. destruct H as [[]|(s' & _ & H)].
  apply io_bind_In in H. destruct H as [[]|(requests & Hr & H)].
  apply io_bind_In in H. destruct H as [H|(l & _ & [])].
  apply io_gather_In in H. destruct H as (op & Hop & H).
  apply in_map_iff in Hop. destruct Hop as (request & <- & Hin).
  unfold _deserialize_request in H.
  apply io_bind_In in H. destruct H as [[<-|[]]|(u & _ & [])].
  exists s', requests, request. auto.
Qed.

(** X12: every request that [restore] (without [transform_fn]) hands
    to a type handler has as many ParamInfos as arguments, and each of
    its ParamInfos is not skipped, has a path, and carries the byte
    limiter created by this call and the OCDBT flag of the directory. *)
Theorem restore_deserializes_stored_leaves (env : World)
  (self : PyTreeCheckpointHandler) (directory : Path) (item : PyTree Value)
  (restore_args : PyTree RestoreArgs) (transforms : PyTree Transform)
  (transforms_default_to_original : bool)
  (h : Handler) (batch_infos : list ParamInfo)
  (batch_args : list (PyTree BatchArg)) :
  In (EvDeserialize h batch_infos batch_args)
    (snd (restore env self directory item restore_args transforms
            transforms_default_to_original None)) ->
  List.length batch_infos = List.length batch_args
  /\ Forall (fun info =>
               skip_deserialize info = false
               /\ path info <> None
               /\ byte_limiter info = Some (_concurrent_bytes self)
               /\ is_ocdbt_checkpoint info
                  = Some (dir_is_ocdbt_checkpoint env directory)) batch_infos.
Proof.
  unfold restore. destruct (negb (path_exists env directory)); [intros []|].
  intros H.
  apply io_bind_In in H. destruct H as [[H|[]]|(u & _ & H)]; [discriminate|].
  apply io_bind_In in H. destruct H as [H|(s & _ & H)].
  { pose proof (structure_calls_no_type_handler env self directory) as Hc.
    assert (Ht : existsb touches_type_handler
                   (snd (structure env self directory)) = true).
    { apply existsb_exists. eexists. split; [exact H | reflexivity]. }
    congruence. }
  apply io_bind_In in H. destruct H as [[]|([pi cra] & Hp & H)].
  simpl in Hp.
  apply io_bind_In in H. destruct H as [[]|(x & Hx & H)].
  injection Hx as <-.
  apply io_bind_In in H. destruct H as [H|(r & _ & H)].
  - apply _maybe_deserialize_events in H.
    destruct H as (s' & requests & request & Hr & Hin & [= -> -> ->]).
    pose proof (get_restore_parameters_infos_ok _ _ _ _ _ _ _ _ Hp) as Hok.
    pose proof (batched_requests_infos _ _ _ _ Hr) as Hperm.
    destruct (batched_requests_shape _ _ _ _ Hr) as [_ Hwf].
    rewrite Forall_forall in Hwf. destruct (Hwf _ Hin) as [[_ Hlen] _].
    split; [exact Hlen|].
    apply Forall_forall. intros info Hinfo.
    assert (Hin' : In info (flat_map infos requests)).
    { apply in_flat_map. now exists request. }
    apply (Permutation_in _ Hperm) in Hin'. apply filter_In in Hin'.
    destruct Hin' as [Hleaf Hs]. apply negb_true_iff in Hs.
    rewrite Forall_forall in Hok. destruct (Hok _ Hleaf) as [Hpath Hrest].
    destruct (Hrest Hs) as [Hb Ho]. repeat split; try assumption.
    rewrite Hs in Hpath. now destruct (path info).
  - apply io_bind_In in H. destruct H as [[]|(r' & _ & H)].
    apply io_bind_In in H. destruct H as [[H|[]]|(u' & _ & [])].
    discriminate.
Qed.

Lemma restore_deserializes_stored_leaves_witness :
  In (EvDeserialize "NumpyHandler"
        [restore_info world_a1 Scenario.handler0 "ckpt" "a"]
        [Leaf (BRestore default_RestoreArgs)])
    (snd (restore world_a1 Scenario.handler0 "ckpt" PNone PNone PNone true None))
  /\ List.length [restore_info world_a1 Scenario.handler0 "ckpt" "a"]
     = List.length [Leaf (BRestore default_RestoreArgs)]
  /\ Forall (fun info =>
               skip_deserialize info = false
               /\ path info <> None
               /\ byte_limiter info
                  = Some (_concurrent_bytes Scenario.handler0)
               /\ is_ocdbt_checkpoint info
                  = Some (dir_is_ocdbt_checkpoint world_a1 "ckpt"))
       [restore_info world_a1 Scenario.handler0 "ckpt" "a"].
Proof.
  split; [right; right; left; reflexivity|].
  apply (@restore_deserializes_stored_leaves world_a1 Scenario.handler0 "ckpt"
           PNone PNone PNone true "NumpyHandler").
  right; right; left; reflexivity.
Defined.


Lemma get_param_infos_leaves (item : PyTree Value) (directory : Path)
  (save_args : PyTree SaveArgs) (param_infos : PyTree ParamInfo)
  (all_params_aggregated : bool) :
  _get_param_infos item directory save_args
  = Ok (param_infos, all_params_aggregated) ->
  Forall (fun info => exists n,
            name info = Some n /\ path info = Some (path_join directory n))
    (tree_leaves param_infos).
Proof.
  unfold _get_param_infos. intros H.
  inv_bind H. destruct (negb a); [discriminate|].
  inv_bind H. rename a0 into z. inv_bind H. injection H as <- _.
  pose proof (tree_leaves_bind _ _ (_param_info_leaf directory) Ha1) as HF.
  induction HF as [|x info xs infos Hx _ IH]; constructor; [|exact IH].
  unfold _param_info in Hx.
  destruct (snd x) as [|args|]; try discriminate.
  destruct (snd (fst x)) as [|n|]; try discriminate.
  injection Hx as <-. now exists n.
Qed.

(** X13: every request that [async_save] hands to a type handler has
    as many values as ParamInfos as arguments, and each of its
    ParamInfos is not aggregated and has the path
    [directory / name]. *)
Theorem async_save_serializes_unaggregated_leaves (env : World)
  (self : PyTreeCheckpointHandler) (directory : Path) (item : PyTree Value)
  (save_args : PyTree ArgLeaf)
  (h : Handler) (batch_values : list (PyTree Value))
  (batch_infos : list ParamInfo) (batch_args : list (PyTree BatchArg)) :
  In (EvSerialize h batch_values batch_infos batch_args)
    (snd (async_save env self directory item save_args)) ->
  List.length batch_values = List.length batch_infos
  /\ List.length batch_infos = List.length batch_args
  /\ Forall (fun info =>
               skip_deserialize info = false
               /\ exists n, name info = Some n
                            /\ path info = Some (path_join directory n))
       batch_infos.
Proof.
  unfold async_save. intros H.
  apply io_bind_In in H. destruct H as [[]|(sa & _ & H)].
  apply io_bind_In in H. destruct H as [[]|([pi agg] & Hp & H)].
  simpl in Hp.
  apply io_bind_In in H. destruct H as [H|(u & _ & H)].
  { exfalso.
    assert (Hf : existsb touches_type_handler
                   (snd (if negb (_use_ocdbt self) && negb agg then
                           ops <~ io_lift (tree_map2 no_is_leaf
                                             (_create_param_save_dir_at env)
                                             pi sa) ;;
                           _ <~ io_gather (tree_leaves ops) ;;
                           io_emit (EvSyncGlobalDevices
                             "PyTreeCheckpointHandler:create_param_save_dirs")
                         else io_ret tt)) = false)
      by now apply create_dirs_stage_free.
    assert (Ht : existsb touches_type_handler
                   (snd (if negb (_use_ocdbt self) && negb agg then
                           ops <~ io_lift (tree_map2 no_is_leaf
                                             (_create_param_save_dir_at env)
                                             pi sa) ;;
                           _ <~ io_gather (tree_leaves ops) ;;
                           io_emit (EvSyncGlobalDevices
                             "PyTreeCheckpointHandler:create_param_save_dirs")
                         else io_ret tt)) = true).
    { apply existsb_exists. eexists. split; [exact H | reflexivity]. }
    congruence. }
  apply io_bind_In in H. destruct H as [H|(futures & _ & H)].
  - destruct agg; [destruct H|].
    apply io_bind_In in H. destruct H as [[]|(requests & Hr & H)].
    simpl in Hr.
    apply io_bind_In in H. destruct H as [H|(l & _ & [])].
    apply io_gather_In in H. destruct H as (op & Hop & H).
    apply in_map_iff in Hop. destruct Hop as (request & <- & Hin).
    unfold _serialize_request in H.
    apply io_bind_In in H. destruct H as [[H|[]]|(u' & _ & [])].
    injection H as <- <- <- <-.
    pose proof (get_param_infos_leaves _ _ _ Hp) as Hok.
    pose proof (batched_requests_infos _ _ _ _ Hr) as Hperm.
    destruct (batched_requests_shape _ _ _ _ Hr) as [_ Hwf].
    rewrite Forall_forall in Hwf. destruct (Hwf _ Hin) as [[Hl1 Hl2] _].
    repeat split; try assumption.
    apply Forall_forall. intros info Hinfo.
    assert (Hin' : In info (flat_map infos requests)).
    { apply in_flat_map. now exists request. }
    apply (Permutation_in _ Hperm) in Hin'. apply filter_In in Hin'.
    destruct Hin' as [Hleaf Hs]. apply negb_true_iff in Hs.
    rewrite Forall_forall in Hok. split; [exact Hs | exact (Hok _ Hleaf)].
  - apply io_bind_In in H. destruct H as [H|(f & _ & [])].
    unfold _write_aggregate_file in H.
    apply io_bind_In in H. destruct H as [[]|(ser & _ & H)].
    apply io_bind_In in H. destruct H as [[H|[]]|(u' & _ & [])].
    discriminate.
Qed.

Lemma async_save_serializes_unaggregated_leaves_witness :
  In (EvSerialize "ScalarHandler" [Leaf (VInt 1)]
        [mkParamInfo (Some "w") (Some "ckpt/w") false None None]
        [Leaf (BSave (mkSaveArgs false None))])
    (snd (async_save world0 Scenario.handler0 "ckpt" item_mixed PNone))
  /\ List.length [Leaf (VInt 1)]
     = List.length [mkParamInfo (Some "w") (Some "ckpt/w") false None None]
  /\ List.length [mkParamInfo (Some "w") (Some "ckpt/w") false None None]
     = List.length [Leaf (BSave (mkSaveArgs false None))]
  /\ Forall (fun info =>
               skip_deserialize info = false
               /\ exists n, name info = Some n
                            /\ path info = Some (path_join "ckpt" n))
       [mkParamInfo (Some "w") (Some "ckpt/w") false None None].
Proof.
  split; [right; right; left; reflexivity|].
  apply (@async_save_serializes_unaggregated_leaves world0 Scenario.handler0
           "ckpt" item_mixed PNone "ScalarHandler" [Leaf (VInt 1)]).
  right; right; left; reflexivity.
Defined.



(** X14: when the structure read at restore is the tree that save
    gave to the aggregate handler, every parameter that save did not
    aggregate gets, at restore without transforms, a ParamInfo at the
    same key path that is not skipped and has the same name and the
    same path as at save. *)
Theorem restore_reads_where_save_wrote (env env' : World)
  (item : PyTree Value) (directory : Path) (save_args : PyTree SaveArgs)
  (param_infos : PyTree ParamInfo) (all_params_aggregated : bool)
  (ser_item : PyTree Value) (limiter : option ByteLimiter)
  (target : PyTree Value) (restore_args : PyTree RestoreArgs) (d : bool)
  (restore_infos : PyTree ParamInfo) (out_args : PyTree RestoreArgs)
  (kp : TupleKey) (info : ParamInfo) :
  _get_param_infos item directory save_args
  = Ok (param_infos, all_params_aggregated) ->
  _get_tree_for_aggregation env param_infos save_args item = Ok ser_item ->
  _get_restore_parameters env' directory limiter target ser_item PNone
    restore_args d = Ok (restore_infos, out_args) ->
  tree_get kp param_infos = Some (Leaf info) ->
  skip_deserialize info = false ->
  exists restore_info,
    tree_get kp restore_infos = Some (Leaf restore_info)
    /\ skip_deserialize restore_info = false
    /\ name restore_info = name info
    /\ path restore_info = path info.
Proof.
  intros Hpi Hser Hr Hg Hs.
  destruct (get_param_infos_of_info _ _ _ Hpi _ Hg)
    as (args & Ha & Hn & Hskip & Hp).
  unfold _get_tree_for_aggregation in Hser.
  destruct (tree_map3_at _ _ _ _ _ Hser Hg)
    as (b & c & r & Hb & Hc & Hleaf & Ht).
  rewrite Ha in Hb. injection Hb as <-.
  unfold _get_leaf_for_aggregation in Hleaf.
  rewrite <- Hskip, Hs, Hn in Hleaf. injection Hleaf as <-.
  pose proof (@get_restore_parameters_placeholder env' directory limiter
                target ser_item restore_args d restore_infos out_args kp
                (_param_name_from_keypath kp) Hr Ht) as Hri.
  eexists. split; [exact Hri|]. simpl. rewrite Hn, Hp. auto.
Qed.

Lemma restore_reads_where_save_wrote_witness :
  exists ser_item restore_infos out_args,
    _get_param_infos item_mixed "ckpt" save_args_mixed
    = Ok (param_infos_mixed, false)
    /\ _get_tree_for_aggregation world0 param_infos_mixed save_args_mixed
         item_mixed = Ok ser_item
    /\ _get_restore_parameters world0 "ckpt" None PNone ser_item PNone PNone
         true = Ok (restore_infos, out_args)
    /\ tree_get ["w"] param_infos_mixed
       = Some (Leaf (mkParamInfo (Some "w") (Some "ckpt/w") false None None))
    /\ exists restore_info,
         tree_get ["w"] restore_infos = Some (Leaf restore_info)
         /\ skip_deserialize restore_info = false
         /\ name restore_info = Some "w"
         /\ path restore_info = Some "ckpt/w".
Proof.
  eexists. eexists. eexists.
  split; [reflexivity|]. split; [reflexivity|]. split; [reflexivity|].
  split; [reflexivity|].
  eapply (@restore_reads_where_save_wrote world0 world0 item_mixed "ckpt"
           save_args_mixed param_infos_mixed false _ None PNone PNone true
           _ _ ["w"]
           (mkParamInfo (Some "w") (Some "ckpt/w") false None None));
    reflexivity.
Defined.


Lemma get_restore_parameters_at_leaf (env : World) (directory : Path)
  (limiter : option ByteLimiter) (item structure : PyTree Value)
  (restore_args : PyTree RestoreArgs) (d : bool)
  (param_infos : PyTree ParamInfo) (out_args : PyTree RestoreArgs)
  (kp : TupleKey) (v : Value) :
  _get_restore_parameters env directory limiter item structure PNone
    restore_args d = Ok (param_infos, out_args) ->
  tree_get kp structure = Some (Leaf v) ->
  exists r,
    _get_param_info env directory limiter
      (dir_is_ocdbt_checkpoint env directory) kp (Leaf v) = Ok r
    /\ tree_get kp param_infos = Some r.
Proof.
  unfold _get_restore_parameters. intros H Hg.
  inv_bind H. rename a into flat. inv_bind H. injection H as <- _.
  destruct (@from_flat_dict_at _ _ _ _ _ _ _ Ha0 Hg) as (r & Hv & Ht).
  pose proof (@to_flat_dict_from_leaf _ true structure [] kp _ Hg) as Hf.
  change ([] ++ kp) with kp in Hf. fold (to_flat_dict true structure) in Hf.
  destruct (@dict_get_mapM_tuplekey _ _
              (_get_param_info env directory limiter
                 (dir_is_ocdbt_checkpoint env directory)) _ _ Ha _ _ Hf)
    as (r' & Hr & Hout).
  rewrite Hv in Hout. injection Hout as ->. eauto.
Qed.

Lemma tree_get_bind_inv {X C} (f : X -> result (PyTree C)) (t : PyTree X) :
  forall t' kp y,
    tree_bind f t = Ok t' ->
    tree_get kp t' = Some (Leaf y) ->
    exists kp1 kp2 x r,
      kp = kp1 ++ kp2 /\ tree_get kp1 t = Some (Leaf x)
      /\ f x = Ok r /\ tree_get kp2 r = Some (Leaf y).
Proof.
  induction t as [|x0|items IH] using PyTree_nested_ind; intros t' kp y Hb Hg.
  - injection Hb as <-. apply tree_get_not_dict in Hg; [|discriminate].
    now destruct Hg.
  - exists [], kp, x0, t'. auto.
  - rewrite tree_bind_Dict in Hb. inv_bind Hb. injection Hb as <-.
    destruct kp as [|k kp]; [discriminate|]. simpl in Hg.
    pose proof (dict_get_mapM (fun _ => tree_bind f) _ Ha k) as Hk.
    destruct (dict_get String.eqb k a) as [zc|]; [|discriminate].
    destruct Hk as (c & Hc & Hz). rewrite Forall_forall in IH.
    destruct (IH _ (dict_get_string_In _ _ Hc) zc kp y Hz Hg)
      as (kp1 & kp2 & x & r & -> & H1 & H2 & H3).
    exists (k :: kp1), kp2, x, r. simpl. rewrite Hc. auto.
Qed.

Lemma tree_get_leaf_In {X} (t : PyTree X) :
  forall kp x, tree_get kp t = Some (Leaf x) -> In x (tree_leaves t).
Proof.
  induction t as [|x0|items IH] using PyTree_nested_ind; intros kp x Hg.
  - apply tree_get_not_dict in Hg; [|discriminate]. now destruct Hg.
  - apply tree_get_not_dict in Hg; [|discriminate].
    destruct Hg as (_ & [= ->]). now left.
  - destruct kp as [|k kp]; [discriminate|]. simpl in Hg.
    destruct (dict_get String.eqb k items) as [c|] eqn:Hc; [|discriminate].
    apply dict_get_string_In in Hc. rewrite tree_leaves_Dict.
    apply in_flat_map. exists (k, c). split; [exact Hc|].
    rewrite Forall_forall in IH. apply (IH _ Hc kp x Hg).
Qed.

Lemma _get_param_info_of_leaf (env : World) (directory : Path)
  (limiter : option ByteLimiter) (ocdbt : bool) (kp : TupleKey) (v : Value)
  (r : PyTree ParamInfo) :
  _get_param_info env directory limiter ocdbt kp (Leaf v) = Ok r ->
  exists info, r = Leaf info.
Proof.
  unfold _get_param_info. destruct (leaf_is_placeholder (Leaf v));
    [intros [= <-]; eauto|].
  destruct v; simpl;
    try (destruct (is_supported_aggregation_type env _); [|discriminate]);
    intros [= <-]; eauto.
Qed.

Lemma get_restore_parameters_info_inv (env : World) (directory : Path)
  (limiter : option ByteLimiter) (item structure : PyTree Value)
  (restore_args : PyTree RestoreArgs) (d : bool)
  (param_infos : PyTree ParamInfo) (out_args : PyTree RestoreArgs)
  (kp : TupleKey) (info : ParamInfo) :
  _get_restore_parameters env directory limiter item structure PNone
    restore_args d = Ok (param_infos, out_args) ->
  tree_get kp param_infos = Some (Leaf info) ->
  exists v,
    tree_get kp structure = Some (Leaf v)
    /\ _get_param_info env directory limiter
         (dir_is_ocdbt_checkpoint env directory) kp (Leaf v)
       = Ok (Leaf info).
Proof.
  unfold _get_restore_parameters. intros H Hg.
  inv_bind H. rename a into flat. inv_bind H. injection H as <- _.
  unfold from_flat_dict, tree_map_with_path in Ha0.
  destruct (tree_get_bind_inv _ _ _ Ha0 Hg)
    as (kp1 & kp2 & [kp0 s] & r & -> & Hp & Hr & Hr2).
  pose proof (tree_get_leaf_In _ _ Hp) as Hin.
  pose proof (tree_leaves_positions structure []) as Hl.
  rewrite Forall_forall in Hl. destruct (Hl _ Hin) as (v & Hv).
  simpl in Hv. subst s.
  apply tree_get_positions in Hp. destruct Hp as (-> & Hs). simpl in Hr.
  pose proof (@to_flat_dict_from_leaf _ true structure [] kp1 _ Hs) as Hf.
  change ([] ++ kp1) with kp1 in Hf.
  fold (to_flat_dict true structure) in Hf.
  destruct (@dict_get_mapM_tuplekey _ _
              (_get_param_info env directory limiter
                 (dir_is_ocdbt_checkpoint env directory)) _ _ Ha _ _ Hf)
    as (r' & Hi & Hout).
  rewrite Hout in Hr. injection Hr as <-.
  destruct (_get_param_info_of_leaf _ _ _ _ _ _ Hi) as (info' & ->).
  apply tree_get_not_dict in Hr2; [|discriminate].
  destruct Hr2 as (-> & [= ->]). rewrite app_nil_r. eauto.
Qed.

Lemma _get_param_info_stored_path (env : World) (directory : Path)
  (limiter : option ByteLimiter) (ocdbt : bool) (kp : TupleKey) (v : Value)
  (r : PyTree ParamInfo) :
  _get_param_info env directory limiter ocdbt kp (Leaf v) = Ok r ->
  r = Leaf (mkParamInfo (Some (String.concat "." kp))
              (stored_path env directory v)
              (match stored_path env directory v with
               | None => true
               | Some _ => false
               end)
              (Some ocdbt) limiter).
Proof.
  unfold _get_param_info.
  destruct v; simpl;
    try (destruct (is_supported_aggregation_type env _); [|discriminate]);
    now intros [= <-].
Qed.

(** X15: without transforms, the ParamInfo tree of restore has a
    ParamInfo exactly at the leaves of the checkpoint structure, none
    at its empty nodes; the ParamInfo is named by the dot-joined key
    path, has the path a placeholder or a [ts.Spec] names, and is
    skipped when the leaf is neither. *)
Theorem restore_infos_at_leaves (env : World) (directory : Path)
  (limiter : option ByteLimiter) (item structure : PyTree Value)
  (restore_args : PyTree RestoreArgs) (d : bool)
  (param_infos : PyTree ParamInfo) (out_args : PyTree RestoreArgs)
  (kp : TupleKey) (info : ParamInfo) :
  _get_restore_parameters env directory limiter item structure PNone
    restore_args d = Ok (param_infos, out_args) ->
  (tree_get kp param_infos = Some (Leaf info)
   <-> exists v,
         tree_get kp structure = Some (Leaf v)
         /\ info = mkParamInfo (Some (String.concat "." kp))
                     (stored_path env directory v)
                     (match stored_path env directory v with
                      | None => true
                      | Some _ => false
                      end)
                     (Some (dir_is_ocdbt_checkpoint env directory))
                     limiter).
Proof.
  intros H. split.
  - intros Hg.
    destruct (@get_restore_parameters_info_inv env directory limiter item
                structure restore_args d param_infos out_args kp info H Hg)
      as (v & Hv & Hi).
    exists v. split; [exact Hv|].
    apply _get_param_info_stored_path in Hi. now injection Hi.
  - intros (v & Hv & ->).
    destruct (@get_restore_parameters_at_leaf env directory limiter item
                structure restore_args d param_infos out_args kp v H Hv)
      as (r & Hi & Hr).
    apply _get_param_info_stored_path in Hi. now subst r.
Qed.

Lemma restore_infos_at_leaves_witness :
  exists param_infos out_args,
    _get_restore_parameters world0 "ckpt" None PNone
      (Dict [("a", leaf_placeholder "a"); ("e", Dict [])]) PNone PNone true
    = Ok (param_infos, out_args)
    /\ (tree_get ["a"] param_infos
        = Some (Leaf (mkParamInfo (Some "a") (Some "ckpt/a") false
                        (Some false) None))
        <-> exists v,
              tree_get ["a"]
                (Dict [("a", leaf_placeholder "a"); ("e", Dict [])])
              = Some (Leaf v)
              /\ mkParamInfo (Some "a") (Some "ckpt/a") false (Some false)
                   None
                 = mkParamInfo (Some (String.concat "." ["a"]))
                     (stored_path world0 "ckpt" v)
                     (match stored_path world0 "ckpt" v with
                      | None => true
                      | Some _ => false
                      end)
                     (Some (dir_is_ocdbt_checkpoint world0 "ckpt")) None).
Proof.
  eexists. eexists. split; [reflexivity|].
  eapply (@restore_infos_at_leaves world0 "ckpt" None PNone
           (Dict [("a", leaf_placeholder "a"); ("e", Dict [])]) PNone true).
  reflexivity.
Defined.


Lemma mapM_raises {A B} (f : A -> result B) (e : PyError) (l : list A) :
  (forall x, In x l -> f x = Raise e \/ exists y, f x = Ok y) ->
  (exists x, In x l /\ f x = Raise e) ->
  mapM f l = Raise e.
Proof.
  induction l as [|a r IH]; intros Hall (x & Hin & Hx); [destruct Hin|].
  simpl. destruct (Hall a (or_introl eq_refl)) as [Ha|(y & Ha)]; rewrite Ha;
    [reflexivity|].
  simpl. rewrite IH; [reflexivity | |].
  - intros x' Hx'. apply Hall. now right.
  - destruct Hin as [->|Hin]; [congruence|]. eauto.
Qed.

Lemma _get_param_info_raises (env : World) (directory : Path)
  (limiter : option ByteLimiter) (ocdbt : bool) (kp : TupleKey)
  (leaf : PyTree Value) :
  _get_param_info env directory limiter ocdbt kp leaf
  = Raise unsupported_type_error
  \/ exists r, _get_param_info env directory limiter ocdbt kp leaf = Ok r.
Proof.
  unfold _get_param_info. destruct (leaf_is_placeholder leaf); [eauto|].
  destruct leaf as [|v|items].
  - simpl. eauto.
  - destruct v; simpl; eauto;
      destruct (is_supported_aggregation_type env _); eauto.
  - destruct (is_supported_empty_aggregation_type (Dict items)); [eauto|].
    destruct (is_supported_aggregation_type env _); eauto.
Qed.

Lemma restore_parameters_reject_unsupported_leaf (env : World)
  (directory : Path) (limiter : option ByteLimiter)
  (item structure : PyTree Value) (restore_args : PyTree RestoreArgs)
  (d : bool) (kp : TupleKey) (v : Value) :
  tree_get kp structure = Some (Leaf v) ->
  stored_path env directory v = None ->
  is_supported_aggregation_type env (Leaf v) = false ->
  _get_restore_parameters env directory limiter item structure PNone
    restore_args d = Raise unsupported_type_error.
Proof.
  intros Hg Hp Hs. unfold _get_restore_parameters.
  rewrite (@mapM_raises _ _ _ unsupported_type_error); [reflexivity| |].
  - intros [k x] _. simpl.
    destruct (_get_param_info_raises env directory limiter
                (dir_is_ocdbt_checkpoint env directory) k x) as [E|(r & E)];
      rewrite E; [now left | right; simpl; eauto].
  - exists (kp, Leaf v). split.
    + apply dict_get_tuplekey_In.
      apply (@to_flat_dict_from_leaf _ true structure [] kp _ Hg).
    + simpl. unfold _get_param_info.
      destruct v; try discriminate; simpl in *; now rewrite Hs.
Qed.

Lemma io_bind_emit {B} (ev : Event) (k : unit -> IO B) :
  io_bind (io_emit ev) k = (fst (k tt), ev :: snd (k tt)).
Proof. unfold io_emit, io_bind. now destruct (k tt). Qed.

Lemma io_bind_lift_Raise {A B} (e : PyError) (k : A -> IO B) :
  io_bind (io_lift (Raise e)) k = (Raise e, []).
Proof. reflexivity. Qed.

Lemma io_bind_Ok_trace {A B} (a : A) (trace : list Event) (k : A -> IO B) :
  io_bind (Ok a, trace) k = (fst (k a), trace ++ snd (k a)).
Proof. unfold io_bind. now destruct (k a). Qed.

(** X16: when the structure of the checkpoint holds a leaf that is
    not a placeholder, not a [ts.Spec] and not of a supported
    aggregation type, [restore] without transforms raises a ValueError
    right after reading the structure: no type handler is called and
    the barrier is not reached. *)
Theorem restore_rejects_unsupported_leaf (env : World)
  (self : PyTreeCheckpointHandler) (directory : Path) (item : PyTree Value)
  (restore_args : PyTree RestoreArgs) (d : bool)
  (transform_fn : option TransformFn)
  (saved : PyTree Value) (trace : list Event) (kp : TupleKey) (v : Value) :
  path_exists env directory = true ->
  structure env self directory = (Ok saved, trace) ->
  tree_get kp saved = Some (Leaf v) ->
  stored_path env directory v = None ->
  is_supported_aggregation_type env (Leaf v) = false ->
  exists msg,
    restore env self directory item restore_args PNone d transform_fn
    = (Raise (ValueError msg), EvByteLimiter (_concurrent_bytes self) :: trace).
Proof.
  intros He Hst Hg Hp Hs. exists "Unsupported type".
  unfold restore. rewrite He. cbn [negb].
  rewrite io_bind_emit, Hst, io_bind_Ok_trace.
  rewrite (@restore_parameters_reject_unsupported_leaf env directory
             (Some (_concurrent_bytes self)) item saved restore_args d kp v
             Hg Hp Hs).
  unfold unsupported_type_error. rewrite io_bind_lift_Raise. simpl.
  now rewrite app_nil_r.
Qed.

Lemma restore_rejects_unsupported_leaf_witness :
  exists msg,
    restore (Scenario.world disk_unsupported) Scenario.handler0 "ckpt"
      PNone PNone PNone true None
    = (Raise (ValueError msg),
       [EvByteLimiter (_concurrent_bytes Scenario.handler0);
        EvAggregateDeserialize "ckpt/checkpoint"]).
Proof.
  apply (@restore_rejects_unsupported_leaf (Scenario.world disk_unsupported)
           Scenario.handler0 "ckpt" PNone PNone true None
           (Dict [("x", Leaf (VObject "Foo"))])
           [EvAggregateDeserialize "ckpt/checkpoint"] ["x"] (VObject "Foo"));
    reflexivity.
Defined.


(** X17: given both [transforms] and a [transform_fn], [restore]
    never returns and never calls a type handler; once the directory
    exists, the structure is read and the restore parameters are
    built, the error is the ValueError that both were provided. *)
Theorem restore_rejects_transforms_with_transform_fn (env : World)
  (self : PyTreeCheckpointHandler) (directory : Path) (item : PyTree Value)
  (restore_args : PyTree RestoreArgs) (transforms : PyTree Transform)
  (d : bool) (fn : TransformFn) :
  transforms <> PNone ->
  existsb touches_type_handler
    (snd (restore env self directory item restore_args transforms d
            (Some fn))) = false
  /\ (forall restored,
        fst (restore env self directory item restore_args transforms d
               (Some fn)) <> Ok restored)
  /\ (forall saved trace parameters,
        path_exists env directory = true ->
        structure env self directory = (Ok saved, trace) ->
        _get_restore_parameters env directory
          (Some (_concurrent_bytes self)) item saved transforms
          restore_args d = Ok parameters ->
        restore env self directory item restore_args transforms d (Some fn)
        = (Raise (ValueError
                    "Cannot provide both `transforms` and `transform_fn`."),
           EvByteLimiter (_concurrent_bytes self) :: trace)).
Proof.
  intros Ht.
  pose proof (structure_calls_no_type_handler env self directory) as Hc.
  unfold restore.
  destruct (path_exists env directory) eqn:He; cbn [negb].
  2:{ split; [reflexivity|]. split; [discriminate|]. intros; discriminate. }
  rewrite io_bind_emit.
  destruct (structure env self directory) as [[saved|e] trace] eqn:Hst.
  2:{ simpl in *. split; [exact Hc|]. split; [discriminate|].
      intros; discriminate. }
  rewrite io_bind_Ok_trace.
  destruct (_get_restore_parameters env directory
              (Some (_concurrent_bytes self)) item saved transforms
              restore_args d) as [[pi cra]|e] eqn:Hp.
  2:{ rewrite io_bind_lift_Raise. simpl in *. rewrite app_nil_r.
      split; [exact Hc|]. split; [discriminate|].
      intros saved' trace' parameters _ [= <- <-]. congruence. }
  rewrite io_bind_lift. cbv beta iota.
  assert (E : forall k : _ -> IO (PyTree Value),
             io_bind
               match transforms with
               | PNone =>
                   ' (structure, param_infos) <~
                     io_lift (fn item saved pi) ;;
                   let restore_args0 :=
                     match restore_args with
                     | PNone => tree_fmap (fun _ => default_RestoreArgs) item
                     | _ => restore_args
                     end in
                   io_ret (structure, param_infos, restore_args0,
                           restore_args0)
               | _ =>
                   io_raise (ValueError
                     "Cannot provide both `transforms` and `transform_fn`.")
               end k
             = (Raise (ValueError
                  "Cannot provide both `transforms` and `transform_fn`."),
                [])).
  { intros k. destruct transforms; [now destruct Ht | reflexivity..]. }
  rewrite E. simpl in *. rewrite app_nil_r.
  split; [exact Hc|]. split; [discriminate|].
  intros saved' trace' parameters _ [= <- <-] _. reflexivity.
Qed.

Lemma restore_rejects_transforms_with_transform_fn_witness :
  existsb touches_type_handler
    (snd (restore world_a1 Scenario.handler0 "ckpt" (Dict [("a", Leaf (VInt 2))])
            (Dict [("a", Leaf restore_args_int)])
            (Dict [("a", Leaf fallback_rule)]) true
            (Some identity_transform_fn))) = false
  /\ (forall restored,
        fst (restore world_a1 Scenario.handler0 "ckpt"
               (Dict [("a", Leaf (VInt 2))])
               (Dict [("a", Leaf restore_args_int)])
               (Dict [("a", Leaf fallback_rule)]) true
               (Some identity_transform_fn)) <> Ok restored)
  /\ (forall saved trace parameters,
        path_exists world_a1 "ckpt" = true ->
        structure world_a1 Scenario.handler0 "ckpt" = (Ok saved, trace) ->
        _get_restore_parameters world_a1 "ckpt"
          (Some (_concurrent_bytes Scenario.handler0))
          (Dict [("a", Leaf (VInt 2))]) saved
          (Dict [("a", Leaf fallback_rule)])
          (Dict [("a", Leaf restore_args_int)]) true = Ok parameters ->
        restore world_a1 Scenario.handler0 "ckpt" (Dict [("a", Leaf (VInt 2))])
          (Dict [("a", Leaf restore_args_int)])
          (Dict [("a", Leaf fallback_rule)]) true
          (Some identity_transform_fn)
        = (Raise (ValueError
                    "Cannot provide both `transforms` and `transform_fn`."),
           EvByteLimiter (_concurrent_bytes Scenario.handler0) :: trace)).
Proof.
  apply (@restore_rejects_transforms_with_transform_fn world_a1
           Scenario.handler0 "ckpt" (Dict [("a", Leaf (VInt 2))])
           (Dict [("a", Leaf restore_args_int)])
           (Dict [("a", Leaf fallback_rule)]) true identity_transform_fn).
  discriminate.
Defined.


(** X18: when [_has_use_fallback_transform] returns, it returns true
    exactly when some rule, anywhere in the flattened transforms, has
    [use_fallback] set and a key pattern that matches the whole input
    key. *)
Theorem has_use_fallback_transform_iff (env : World) (input_key : TupleKey)
  (flat_transforms : dict TupleKey Transform) (found : bool) :
  _has_use_fallback_transform env input_key flat_transforms = Ok found ->
  (found = true
   <-> exists transform_key transform m,
         In (transform_key, transform) flat_transforms
         /\ re_fullmatch env (_keystr transform_key) (_keystr input_key)
            = Ok (Some m)
         /\ use_fallback transform = true).
Proof.
  revert found.
  induction flat_transforms as [|[tk t] rest IH]; simpl; intros found H.
  - injection H as <-. split; [discriminate | intros (? & ? & ? & [] & _)].
  - inv_bind H. inv_bind H. rename a into m, a0 into result.
    specialize (IH result Ha0). destruct m as [m|].
    + injection H as <-. split.
      * intros Hor. apply orb_prop in Hor. destruct Hor as [Hu|Hr].
        -- exists tk, t, m. auto.
        -- apply IH in Hr. destruct Hr as (tk' & t' & m' & Hin & Hm & Hu).
           exists tk', t', m'. auto.
      * intros (tk' & t' & m' & [[= <- <-]|Hin] & Hm & Hu).
        -- now rewrite Hu.
        -- apply orb_true_iff. right. apply IH.
           exists tk', t', m'. auto.
    + injection H as <-. rewrite IH. split.
      * intros (tk' & t' & m' & Hin & Hm & Hu). exists tk', t', m'. auto.
      * intros (tk' & t' & m' & [[= <- <-]|Hin] & Hm & Hu).
        -- congruence.
        -- exists tk', t', m'. auto.
Qed.

Lemma has_use_fallback_transform_iff_witness :
  _has_use_fallback_transform world0 ["a"]
    [(["b"], rename_rule "a"); (["a"], fallback_rule)] = Ok true
  /\ (true = true
      <-> exists transform_key transform m,
            In (transform_key, transform)
              [(["b"], rename_rule "a"); (["a"], fallback_rule)]
            /\ re_fullmatch world0 (_keystr transform_key) (_keystr ["a"])
               = Ok (Some m)
            /\ use_fallback transform = true).
Proof.
  split; [reflexivity|].
  apply (@has_use_fallback_transform_iff world0 ["a"]
           [(["b"], rename_rule "a"); (["a"], fallback_rule)] true).
  reflexivity.
Defined.


(** X19: the name and the path that [_get_param_infos] gives a leaf
    depend only on its dot-joined key path: two leaves whose key paths
    join to the same string get the same name and the same path. *)
Theorem param_paths_depend_on_joined_name (item : PyTree Value)
  (directory : Path) (save_args : PyTree SaveArgs)
  (param_infos : PyTree ParamInfo) (all_params_aggregated : bool)
  (kp1 kp2 : TupleKey) (info1 info2 : ParamInfo) :
  _get_param_infos item directory save_args
  = Ok (param_infos, all_params_aggregated) ->
  tree_get kp1 param_infos = Some (Leaf info1) ->
  tree_get kp2 param_infos = Some (Leaf info2) ->
  String.concat "." kp1 = String.concat "." kp2 ->
  name info1 = name info2 /\ path info1 = path info2.
Proof.
  intros H H1 H2 E.
  destruct (get_param_infos_of_info _ _ _ H _ H1) as (a1 & _ & N1 & _ & P1).
  destruct (get_param_infos_of_info _ _ _ H _ H2) as (a2 & _ & N2 & _ & P2).
  unfold _param_name_from_keypath in *. rewrite N1, N2, P1, P2, E. auto.
Qed.

Lemma param_paths_depend_on_joined_name_witness :
  exists param_infos,
    _get_param_infos item_dotted "ckpt" save_args_dotted
    = Ok (param_infos, false)
    /\ tree_get ["a"; "b"] param_infos = Some (Leaf info_dotted)
    /\ tree_get ["a.b"] param_infos = Some (Leaf info_dotted)
    /\ name info_dotted = name info_dotted
    /\ path info_dotted = path info_dotted.
Proof.
  eexists. split; [reflexivity|]. split; [reflexivity|].
  split; [reflexivity|].
  eapply (@param_paths_depend_on_joined_name item_dotted "ckpt"
           save_args_dotted _ false ["a"; "b"] ["a.b"] info_dotted
           info_dotted); reflexivity.
Defined.

(** ** Barriers and configuration errors *)

Lemma barriers_app (t1 t2 : list Event) :
  barriers (t1 ++ t2) = barriers t1 ++ barriers t2.
Proof. apply flat_map_app. Qed.

Lemma barriers_free (trace : list Event) :
  existsb is_barrier trace = false -> barriers trace = [].
Proof.
  induction trace as [|ev r IH]; [reflexivity|]. simpl.
  destruct ev; simpl; try discriminate; exact IH.
Qed.

Lemma barriers_makedirs (paths : list Path) :
  barriers (map EvMakedirs paths) = [].
Proof. induction paths as [|p r IH]; [reflexivity | exact IH]. Qed.

(** X20: [async_save] reaches the barrier
    'PyTreeCheckpointHandler:create_param_save_dirs' exactly once when
    the handler does not use OCDBT and some parameter is not
    aggregated, on every process; otherwise it reaches no barrier. *)
Theorem async_save_barrier (env : World) (self : PyTreeCheckpointHandler)
  (directory : Path) (item : PyTree Value) (user_args : PyTree ArgLeaf)
  (save_args : PyTree SaveArgs) (param_infos : PyTree ParamInfo)
  (all_params_aggregated : bool) :
  _default_save_args env item user_args = Ok save_args ->
  _get_param_infos item directory save_args
  = Ok (param_infos, all_params_aggregated) ->
  barriers (snd (async_save env self directory item user_args))
  = if negb (_use_ocdbt self) && negb all_params_aggregated then
      ["PyTreeCheckpointHandler:create_param_save_dirs"]
    else [].
Proof.
  intros Hsa Hpi. unfold async_save.
  rewrite Hsa, io_bind_lift. cbv beta. rewrite Hpi, io_bind_lift.
  cbv beta iota. rewrite io_bind_trace, barriers_app.
  match goal with
  | |- _ ++ barriers ?rest = _ => assert (Hrest : barriers rest = [])
  end.
  { apply barriers_free.
    destruct (fst _); [|reflexivity].
    apply io_bind_free; [now apply serialize_stage_free|]. intros futures _.
    apply io_bind_free; [|reflexivity].
    now apply write_aggregate_file_free. }
  rewrite Hrest, app_nil_r. clear Hrest.
  destruct (create_param_save_dirs env _ _ _ Hpi) as (ops & done & Hops & Hg).
  destruct (negb (_use_ocdbt self) && negb all_params_aggregated);
    [|reflexivity].
  rewrite Hops, io_bind_lift, Hg, io_bind_Ok_trace. simpl snd.
  rewrite barriers_app. simpl.
  destruct (Nat.eqb _ _); [now rewrite barriers_makedirs | reflexivity].
Qed.

Lemma async_save_barrier_witness :
  _default_save_args world0 item_mixed PNone = Ok save_args_mixed
  /\ _get_param_infos item_mixed "ckpt" save_args_mixed
     = Ok (param_infos_mixed, false)
  /\ barriers (snd (async_save world0 Scenario.handler0 "ckpt" item_mixed
                      PNone))
     = ["PyTreeCheckpointHandler:create_param_save_dirs"].
Proof.
  split; [reflexivity|]. split; [reflexivity|].
  apply (@async_save_barrier world0 Scenario.handler0 "ckpt" item_mixed
           PNone save_args_mixed param_infos_mixed false); reflexivity.
Defined.


(** X21: when every parameter is aggregated, [async_save] does
    nothing but write the aggregate file: it creates no directory,
    reaches no barrier, calls no type handler, and returns the one
    future of that write. *)
Theorem async_save_all_aggregated (env : World)
  (self : PyTreeCheckpointHandler) (directory : Path) (item : PyTree Value)
  (user_args : PyTree ArgLeaf) (save_args : PyTree SaveArgs)
  (param_infos : PyTree ParamInfo) :
  _default_save_args env item user_args = Ok save_args ->
  _get_param_infos item directory save_args = Ok (param_infos, true) ->
  async_save env self directory item user_args
  = match _write_aggregate_file env self directory item param_infos
            save_args with
    | (Ok aggregate_commit_future, trace) =>
        (Ok [aggregate_commit_future], trace)
    | (Raise e, trace) => (Raise e, trace)
    end.
Proof.
  intros Hsa Hpi. unfold async_save.
  rewrite Hsa, io_bind_lift. cbv beta. rewrite Hpi, io_bind_lift.
  cbv beta iota. rewrite andb_false_r.
  destruct (_write_aggregate_file env self directory item param_infos
              save_args) as [[f|e] trace]; simpl; now rewrite ?app_nil_r.
Qed.

Lemma async_save_all_aggregated_witness :
  _default_save_args world0 item_opt PNone = Ok save_args_opt
  /\ _get_param_infos item_opt "ckpt" save_args_opt
     = Ok (param_infos_opt, true)
  /\ async_save world0 Scenario.handler0 "ckpt" item_opt PNone
     = match _write_aggregate_file world0 Scenario.handler0 "ckpt" item_opt
               param_infos_opt save_args_opt with
       | (Ok aggregate_commit_future, trace) =>
           (Ok [aggregate_commit_future], trace)
       | (Raise e, trace) => (Raise e, trace)
       end.
Proof.
  split; [reflexivity|]. split; [reflexivity|].
  apply (@async_save_all_aggregated world0 Scenario.handler0 "ckpt" item_opt
           PNone save_args_opt param_infos_opt); reflexivity.
Defined.


(** X22: with [transforms] but without [restore_args] (and without
    [transform_fn]), [restore] never returns a tree: whatever it read,
    it ends in an error. *)
Theorem restore_with_transforms_needs_restore_args (env : World)
  (self : PyTreeCheckpointHandler) (directory : Path) (item : PyTree Value)
  (transforms : PyTree Transform) (d : bool) :
  transforms <> PNone ->
  is_ok (fst (restore env self directory item PNone transforms d None))
  = false.
Proof.
  intros Ht. unfold restore.
  destruct (negb (path_exists env directory)); [reflexivity|].
  cbv zeta. rewrite io_bind_result. cbn [fst io_emit].
  rewrite io_bind_result.
  destruct (fst (structure env self directory)) as [saved|e];
    [|reflexivity].
  rewrite io_bind_result. cbn [fst io_lift].
  destruct (_get_restore_parameters _ _ _ _ _ _ _ _) as [[pi cra]|e];
    [|reflexivity].
  rewrite io_bind_result. cbn [fst io_ret].
  rewrite io_bind_result.
  destruct (fst (_maybe_deserialize env saved pi cra)); [|reflexivity].
  rewrite io_bind_result. cbn [fst io_lift].
  unfold _transform_structure.
  destruct item, transforms; try reflexivity; now destruct Ht.
Qed.

Lemma restore_with_transforms_needs_restore_args_witness :
  is_ok (fst (restore world_a1 Scenario.handler0 "ckpt"
                (Dict [("a", Leaf (VInt 2))]) PNone
                (Dict [("a", Leaf fallback_rule)]) true None))
  = false.
Proof.
  apply (@restore_with_transforms_needs_restore_args world_a1
           Scenario.handler0 "ckpt" (Dict [("a", Leaf (VInt 2))])
           (Dict [("a", Leaf fallback_rule)]) true).
  discriminate.
Defined.


(** X23: when the checkpoint structure is not empty and the first of
    the flattened transforms has a [multi_value_fn] but is a plain
    [Transform], [_get_restore_parameters] raises the ValueError that a
    [RestoreTransform] must be used. *)
Theorem restore_parameters_reject_plain_multi_value_fn (env : World)
  (directory : Path) (limiter : option ByteLimiter)
  (item structure : PyTree Value) (transforms : PyTree Transform)
  (restore_args : PyTree RestoreArgs) (d : bool)
  (transform_key : TupleKey) (rule : Transform)
  (rest : dict TupleKey Transform) :
  item <> PNone ->
  to_flat_dict true structure <> [] ->
  flat_leaves (to_flat_dict false transforms) = (transform_key, rule) :: rest ->
  multi_value_fn rule <> None ->
  is_RestoreTransform rule = false ->
  _get_restore_parameters env directory limiter item structure transforms
    restore_args d = Raise plain_multi_value_fn_error.
Proof.
  intros Hi Hs Hf Hfn Hrt. unfold _get_restore_parameters.
  assert (Ht : transforms <> PNone) by (intros ->; discriminate).
  assert (Hloop :
    forall flat_item flat_restore_args,
      mapM (fun kv =>
              r <- _restore_parameter_of_key env directory limiter
                     (dir_is_ocdbt_checkpoint env directory) flat_item
                     ((transform_key, rule) :: rest) flat_restore_args d
                     (fst kv) (snd kv) ;;
              Ok (fst kv, r)) (to_flat_dict true structure)
      = Raise plain_multi_value_fn_error).
  { intros flat_item flat_restore_args.
    destruct (to_flat_dict true structure) as [|[k x] l]; [now destruct Hs|].
    simpl. unfold _restore_parameter_of_key. simpl.
    destruct (multi_value_fn rule); [|now destruct Hfn].
    now rewrite Hrt. }
  destruct transforms; [now destruct Ht | |];
    (destruct item; [now destruct Hi | |]); rewrite Hf, Hloop; reflexivity.
Qed.

Lemma restore_parameters_reject_plain_multi_value_fn_witness :
  _get_restore_parameters world_a1 "ckpt" None (Dict [("z", Leaf (VInt 0))])
    (Dict [("a", leaf_placeholder "a")])
    (Dict [("z", Leaf plain_merge_rule)])
    (Dict [("z", Leaf restore_args_int)]) true
  = Raise plain_multi_value_fn_error.
Proof.
  apply (@restore_parameters_reject_plain_multi_value_fn world_a1 "ckpt" None
           (Dict [("z", Leaf (VInt 0))]) (Dict [("a", leaf_placeholder "a")])
           (Dict [("z", Leaf plain_merge_rule)])
           (Dict [("z", Leaf restore_args_int)]) true ["z"] plain_merge_rule
           []); try reflexivity; discriminate.
Defined.

(** ** Trees flattened along their own shape *)

Lemma mapM_map_items {X Y Z} (F : string -> X -> Y)
  (g : string -> Y -> result Z) (items : list (string * X)) :
  mapM (fun kc => z <- g (fst kc) (snd kc) ;; Ok (fst kc, z))
    (map (fun kc => (fst kc, F (fst kc) (snd kc))) items)
  = mapM (fun kc => z <- g (fst kc) (F (fst kc) (snd kc)) ;; Ok (fst kc, z))
      items.
Proof.
  induction items as [|[k c] r IH]; [reflexivity|]. simpl. now rewrite IH.
Qed.

Lemma flatten_positions_self {A} (is_leaf : PyTree A -> bool) (t : PyTree A) :
  forall pre,
    wf_keys t ->
    exists z,
      flatten_up_to (tree_positions is_leaf pre t) t = Ok z
      /\ map snd (tree_leaves z)
         = map snd (tree_leaves (tree_positions is_leaf pre t)).
Proof.
  induction t as [|x|items IH] using PyTree_nested_ind; intros pre Hw.
  - simpl. destruct (is_leaf PNone); eexists; split; reflexivity.
  - simpl. destruct (is_leaf (Leaf x)); eexists; split; reflexivity.
  - destruct (is_leaf (Dict items)) eqn:Hl.
    + simpl tree_positions. rewrite Hl. eexists. split; reflexivity.
    + rewrite (tree_positions_Dict _ _ _ Hl).
      apply wf_keys_Dict in Hw. destruct Hw as [Hn Hw].
      rewrite flatten_up_to_Dict, length_map, Nat.eqb_refl.
      pose proof (mapM_map_items
                    (fun k => tree_positions is_leaf (pre ++ [k]))
                    (flatten_item items) items) as E.
      cbv beta in E. rewrite E. clear E.
      assert (Hloop :
        forall l, incl l items ->
          exists zs,
            mapM (fun kc =>
                    z <- flatten_item items (fst kc)
                           (tree_positions is_leaf (pre ++ [fst kc])
                              (snd kc)) ;;
                    Ok (fst kc, z)) l = Ok zs
            /\ map snd (flat_map (fun kc => tree_leaves (snd kc)) zs)
               = map snd
                   (flat_map
                      (fun kc =>
                         tree_leaves
                           (tree_positions is_leaf (pre ++ [fst kc])
                              (snd kc))) l)).
      { induction l as [|[k c] r IHr]; intros Hincl.
        - exists []. split; reflexivity.
        - assert (Hin : In (k, c) items) by (apply Hincl; now left).
          rewrite Forall_forall in IH, Hw.
          destruct (IH _ Hin (pre ++ [k]) (Hw _ Hin)) as (z & Hz & Hlz).
          destruct IHr as (zs & Hzs & Hlzs).
          { intros x Hx. apply Hincl. now right. }
          exists ((k, z) :: zs). simpl. unfold flatten_item at 1.
          rewrite (dict_get_NoDup _ _ _ Hn Hin). simpl in Hz. rewrite Hz.
          simpl. rewrite Hzs. simpl. split; [reflexivity|].
          now rewrite !map_app, Hlz, Hlzs. }
      destruct (Hloop items (incl_refl _)) as (zs & Hzs & Hlzs).
      exists (Dict zs). rewrite Hzs. split; [reflexivity|].
      rewrite !tree_leaves_Dict, Hlzs. f_equal. symmetry.
      rewrite flat_map_concat_map, map_map, <- flat_map_concat_map.
      reflexivity.
Qed.

Lemma tree_leaves_fmap {A B} (f : A -> B) (t : PyTree A) :
  tree_leaves (tree_fmap f t) = map f (tree_leaves t).
Proof.
  induction t as [|x|items IH] using PyTree_nested_ind; try reflexivity.
  rewrite tree_fmap_Dict, !tree_leaves_Dict.
  rewrite flat_map_concat_map, map_map, <- flat_map_concat_map.
  induction items as [|[k c] r IHr]; [reflexivity|].
  inversion IH as [|? ? IHc IHrest]; subst. simpl in *.
  now rewrite map_app, IHc, IHr.
Qed.

Lemma dict_get_leaves_incl {X} (k : string) (items : list (string * PyTree X))
  (c : PyTree X) :
  dict_get String.eqb k items = Some c ->
  incl (tree_leaves c) (tree_leaves (Dict items)).
Proof.
  intros Hg x Hx. rewrite tree_leaves_Dict. apply in_flat_map.
  exists (k, c). split; [now apply dict_get_string_In | exact Hx].
Qed.

Lemma flatten_up_to_leaves_sub {X B} (P : B -> Prop) (s : PyTree X) :
  forall (t : PyTree B) z,
    flatten_up_to s t = Ok z ->
    Forall P (tree_leaves t) ->
    Forall (fun p => Forall P (tree_leaves (snd p))) (tree_leaves z).
Proof.
  induction s as [|x|items IH] using PyTree_nested_ind; intros t z H HP.
  - simpl in H. destruct t; try discriminate. injection H as <-. constructor.
  - injection H as <-. constructor; [exact HP | constructor].
  - destruct t as [| |items']; try discriminate.
    rewrite flatten_up_to_Dict in H.
    destruct (Nat.eqb _ _); [|discriminate].
    inv_bind H. injection H as <-. rewrite tree_leaves_Dict.
    revert a Ha. induction items as [|[k c] r IHr]; simpl; intros zs H.
    + injection H as <-. constructor.
    + inv_bind H. inv_bind Ha. injection Ha as <-.
      inv_bind H. injection H as <-. simpl.
      inversion IH as [|? ? IHc IHrest]; subst. unfold flatten_item in Ha0.
      destruct (dict_get String.eqb k items') as [c'|] eqn:Hc;
        [|discriminate].
      apply Forall_app. split; [|now apply IHr].
      apply (IHc _ _ Ha0). rewrite Forall_forall in *. intros x Hx.
      apply HP. exact (@dict_get_leaves_incl _ _ _ _ Hc x Hx).
Qed.

(** ** The leaves of what save derives *)

Lemma Forall2_by_maps {Z L Y U V} (R : Z -> Y -> Prop)
  (f1 : Z -> U) (g1 : L -> U) (f2 : Z -> V) (g2 : L -> V) (h : L -> Y)
  (zs : list Z) (ys : list Y) :
  Forall2 R zs ys ->
  (forall z l y, R z y -> f1 z = g1 l -> f2 z = g2 l -> y = h l) ->
  forall ls, map f1 zs = map g1 ls -> map f2 zs = map g2 ls ->
             ys = map h ls.
Proof.
  intros HF Hh. induction HF as [|z y zs ys Hzy _ IH];
    intros [|l ls] H1 H2; try discriminate; [reflexivity|].
  simpl in *. injection H1 as E1 H1. injection H2 as E2 H2.
  f_equal; [now apply (Hh z) | now apply IH].
Qed.

Lemma default_save_args_skeleton (env : World) (item : PyTree Value)
  (user_args : PyTree ArgLeaf) (save_args : PyTree SaveArgs) :
  _default_save_args env item user_args = Ok save_args ->
  skeleton save_args = skeleton (tree_positions is_empty_or_leaf [] item).
Proof.
  intros Hd. unfold _default_save_args, tree_map2 in Hd.
  inv_bind Hd. rename a into z.
  assert (Hb : skeleton save_args = skeleton z).
  { eapply tree_bind_skeleton; [|exact Hd].
    intros [[kp a] b] r [= <-]. eauto. }
  rewrite Hb. eapply flatten_up_to_skeleton. exact Ha.
Qed.

Lemma default_save_args_leaves (env : World) (item : PyTree Value)
  (save_args : PyTree SaveArgs) :
  _default_save_args env item PNone = Ok save_args ->
  tree_leaves save_args = map (default_args_of env) (item_leaves item).
Proof.
  intros Hd. unfold _default_save_args, tree_map2, _args_or_item in Hd.
  inv_bind Hd. rename a into z.
  assert (HP : Forall (fun p => Forall (fun a => exists v, a = AOther v)
                                  (tree_leaves (snd p))) (tree_leaves z)).
  { eapply flatten_up_to_leaves_sub; [exact Ha|].
    rewrite tree_leaves_fmap. apply Forall_forall. intros a Hin.
    apply in_map_iff in Hin. destruct Hin as (v & <- & _). eauto. }
  pose proof (tree_leaves_flatten_up_to _ _ Ha) as Hfst.
  assert (Hf : forall (x : TupleKey * PyTree Value * PyTree ArgLeaf) r,
             (let '(_, a, b) := x in
              Ok (Leaf (_maybe_set_default_save_args env a b))) = Ok r ->
             exists y : SaveArgs, r = Leaf y).
  { intros [[kp a] b] r [= <-]. eauto. }
  pose proof (tree_leaves_bind _ _ Hf Hd) as HF.
  unfold item_leaves. rewrite <- Hfst. rewrite map_map.
  revert HP. clear Hfst.
  induction HF as [|[[kp a] b] y zs ys Hy _ IH]; intros HP; [reflexivity|].
  inversion HP as [|? ? Hb HP']; subst. simpl. f_equal; [|now apply IH].
  injection Hy as <-. unfold default_args_of, _maybe_set_default_save_args.
  simpl in *. destruct b as [|[s|v]|]; try reflexivity.
  inversion Hb as [|? ? (v & Hv) _]; discriminate.
Qed.

Lemma get_param_infos_leaves_of_item (env : World) (item : PyTree Value)
  (directory : Path) (save_args : PyTree SaveArgs)
  (param_infos : PyTree ParamInfo) (all_params_aggregated : bool) :
  wf_keys item ->
  _default_save_args env item PNone = Ok save_args ->
  _get_param_infos item directory save_args
  = Ok (param_infos, all_params_aggregated) ->
  tree_leaves param_infos
  = map (save_info_of env directory) (item_leaves item).
Proof.
  intros Hw Hd H.
  pose proof (default_save_args_skeleton _ _ _ Hd) as Hsk.
  pose proof (default_save_args_leaves _ _ Hd) as Hsa.
  assert (Hwsa : wf_keys save_args).
  { eapply (@wf_keys_skeleton _ _ (tree_positions is_empty_or_leaf [] item));
      [now rewrite Hsk | now apply wf_keys_positions]. }
  unfold _get_param_infos in H.
  inv_bind H. destruct (negb a); [discriminate|].
  inv_bind H. rename a0 into z1. inv_bind H. injection H as <- _.
  rename a0 into param_infos.
  destruct (flatten_positions_self no_is_leaf save_args [] Hwsa)
    as (z0 & Hz0 & Hl0).
  assert (Hs : skeleton (tree_positions no_is_leaf [] save_args)
               = skeleton (tree_positions no_is_leaf [] (_get_param_names item))).
  { rewrite !skeleton_positions, Hsk. unfold _get_param_names.
    now rewrite skeleton_fmap. }
  destruct (flatten_up_to_same_skeleton _ _ _ Hs Hz0) as (z2 & Hz2 & Hl2).
  rewrite Ha0 in Hz2. injection Hz2 as <-.
  rewrite Hl0, tree_leaves_positions_no_is_leaf, Hsa, map_map in Hl2.
  pose proof (tree_leaves_flatten_up_to _ _ Ha0) as Hfst.
  apply (f_equal (map snd)) in Hfst.
  rewrite tree_leaves_positions_no_is_leaf in Hfst.
  unfold _get_param_names in Hfst. rewrite tree_leaves_fmap in Hfst.
  rewrite !map_map in Hfst. fold (item_leaves item) in Hfst.
  pose proof (tree_leaves_bind _ _ (_param_info_leaf directory) Ha1) as HF.
  refine (@Forall2_by_maps _ _ _ _ _ _ _ _ _ _
            (save_info_of env directory) _ _ HF _ (item_leaves item) Hfst
            (eq_sym Hl2)).
  intros [[kp n] b] l info Hr E1 E2. simpl in *. subst n b.
  unfold _param_info in Hr. now injection Hr as <-.
Qed.

Lemma flatten_like {X A} (is_leaf : PyTree A -> bool) (s : PyTree X)
  (t : PyTree A) (pre : TupleKey) :
  wf_keys t ->
  skeleton s = skeleton (tree_positions is_leaf pre t) ->
  exists z,
    flatten_up_to s t = Ok z
    /\ map snd (tree_leaves z)
       = map snd (tree_leaves (tree_positions is_leaf pre t)).
Proof.
  intros Hw Hs.
  destruct (flatten_positions_self is_leaf t pre Hw) as (z0 & Hz0 & Hl0).
  destruct (flatten_up_to_same_skeleton _ _ _ (eq_sym Hs) Hz0)
    as (z & Hz & Hl).
  exists z. split; [exact Hz|]. now rewrite <- Hl.
Qed.

Lemma get_param_infos_skeleton (item : PyTree Value) (directory : Path)
  (save_args : PyTree SaveArgs) (param_infos : PyTree ParamInfo)
  (all_params_aggregated : bool) :
  _get_param_infos item directory save_args
  = Ok (param_infos, all_params_aggregated) ->
  skeleton param_infos = skeleton (tree_positions is_empty_or_leaf [] item).
Proof.
  unfold _get_param_infos. intros H.
  inv_bind H. destruct (negb a); [discriminate|].
  inv_bind H. rename a0 into z1. inv_bind H. injection H as <- _.
  rewrite (tree_bind_skeleton _ (_param_info_leaf directory) _ Ha1).
  rewrite (flatten_up_to_skeleton _ _ Ha0), skeleton_positions.
  unfold _get_param_names. now rewrite skeleton_fmap.
Qed.

Lemma save_batch_leaves (env : World) (item : PyTree Value)
  (directory : Path) (save_args : PyTree SaveArgs)
  (param_infos : PyTree ParamInfo) (all_params_aggregated : bool) :
  wf_keys item ->
  _default_save_args env item PNone = Ok save_args ->
  _get_param_infos item directory save_args
  = Ok (param_infos, all_params_aggregated) ->
  exists leaves,
    batch_leaves item param_infos (tree_fmap BSave save_args) = Ok leaves
    /\ map (fun l => snd (fst (fst l))) leaves
       = map (fun p => Leaf (save_info_of env directory p)) (item_leaves item)
    /\ map (fun l => snd (fst l)) leaves = map snd (item_leaves item)
    /\ map snd leaves
       = map (fun p => Leaf (BSave (default_args_of env p)))
           (item_leaves item).
Proof.
  intros Hw Hd Hpi.
  pose proof (default_save_args_skeleton _ _ _ Hd) as Hsk.
  pose proof (default_save_args_leaves _ _ Hd) as Hsa.
  pose proof (get_param_infos_skeleton _ _ _ Hpi) as Hpsk.
  pose proof (@get_param_infos_leaves_of_item env item directory save_args
                param_infos all_params_aggregated Hw Hd Hpi) as Hpl.
  assert (Hwsa : wf_keys (tree_fmap BSave save_args)).
  { eapply (@wf_keys_skeleton _ _ (tree_positions is_empty_or_leaf [] item));
      [now rewrite skeleton_fmap, Hsk | now apply wf_keys_positions]. }
  destruct (@flatten_like _ _ is_empty_or_leaf
              (tree_positions no_is_leaf [] param_infos) item [] Hw)
    as (z2 & Hz2 & Hl2).
  { now rewrite skeleton_positions. }
  destruct (@flatten_like _ _ no_is_leaf z2 (tree_fmap BSave save_args) []
              Hwsa) as (z3 & Hz3 & Hl3).
  { rewrite (flatten_up_to_skeleton _ _ Hz2), !skeleton_positions.
    now rewrite skeleton_fmap, Hpsk, Hsk. }
  exists (tree_leaves z3). unfold batch_leaves. rewrite Hz2. simpl.
  rewrite Hz3. simpl. split; [reflexivity|].
  pose proof (tree_leaves_flatten_up_to _ _ Hz3) as F3.
  pose proof (tree_leaves_flatten_up_to _ _ Hz2) as F2.
  rewrite tree_leaves_positions_no_is_leaf, tree_leaves_fmap, Hsa, !map_map
    in Hl3.
  repeat split.
  - rewrite <- (map_map fst (fun x => snd (fst x))), F3.
    rewrite <- (map_map fst snd), F2, tree_leaves_positions_no_is_leaf, Hpl.
    now rewrite map_map.
  - rewrite <- (map_map fst snd), F3. exact Hl2.
  - exact Hl3.
Qed.

Lemma save_kept_leaves_have_handlers (env : World) (directory : Path)
  (leaves : list (TupleKey * PyTree ParamInfo * PyTree Value
                  * PyTree BatchArg)) :
  handlers_registered env ->
  forall ls,
    map (fun l => snd (fst (fst l))) leaves
    = map (fun p => Leaf (save_info_of env directory p)) ls ->
    map (fun l => snd (fst l)) leaves = map snd ls ->
    map snd leaves
    = map (fun p => Leaf (BSave (default_args_of env p))) ls ->
    Forall (fun leaf => exists h,
              handler_of_leaf env (fst (fst leaf)) (snd leaf) = Ok h)
      (kept_leaves leaves).
Proof.
  intros Hreg. induction leaves as [|[[[kp info] value] arg] rest IH];
    intros [|l ls] E1 E2 E3; try discriminate; [constructor|].
  simpl in *. injection E1 as -> E1. injection E2 as -> E2.
  injection E3 as -> E3. unfold kept_leaves. simpl. fold (kept_leaves rest).
  destruct (has_type_handler env (type_of (snd l))) eqn:Hh; simpl.
  - constructor; [|now apply (IH ls)]. simpl. now apply Hreg.
  - now apply (IH ls).
Qed.

Lemma save_tree_for_aggregation_total (env : World) (item : PyTree Value)
  (directory : Path) (save_args : PyTree SaveArgs)
  (param_infos : PyTree ParamInfo) (all_params_aggregated : bool) :
  wf_keys item ->
  has_type_handler env TJaxArray = true ->
  _default_save_args env item PNone = Ok save_args ->
  _get_param_infos item directory save_args
  = Ok (param_infos, all_params_aggregated) ->
  exists ser_item,
    _get_tree_for_aggregation env param_infos save_args item = Ok ser_item.
Proof.
  intros Hw Hjax Hd Hpi.
  pose proof (default_save_args_skeleton _ _ _ Hd) as Hsk.
  pose proof (default_save_args_leaves _ _ Hd) as Hsa.
  pose proof (get_param_infos_skeleton _ _ _ Hpi) as Hpsk.
  pose proof (@get_param_infos_leaves_of_item env item directory save_args
                param_infos all_params_aggregated Hw Hd Hpi) as Hpl.
  assert (Hwsa : wf_keys save_args).
  { eapply (@wf_keys_skeleton _ _ (tree_positions is_empty_or_leaf [] item));
      [now rewrite Hsk | now apply wf_keys_positions]. }
  destruct (@flatten_like _ _ no_is_leaf
              (tree_positions no_is_leaf [] param_infos) save_args [] Hwsa)
    as (z2 & Hz2 & Hl2).
  { now rewrite !skeleton_positions, Hpsk, Hsk. }
  destruct (@flatten_like _ _ is_empty_or_leaf z2 item [] Hw)
    as (z3 & Hz3 & Hl3).
  { now rewrite (flatten_up_to_skeleton _ _ Hz2), skeleton_positions. }
  unfold _get_tree_for_aggregation, tree_map3. rewrite Hz2. simpl.
  rewrite Hz3. simpl. apply tree_bind_total.
  pose proof (tree_leaves_flatten_up_to _ _ Hz3) as F3.
  pose proof (tree_leaves_flatten_up_to _ _ Hz2) as F2.
  rewrite tree_leaves_positions_no_is_leaf, Hsa, map_map in Hl2.
  assert (E1 : map (fun l => snd (fst (fst l))) (tree_leaves z3)
               = map (fun p => Leaf (save_info_of env directory p))
                   (item_leaves item)).
  { rewrite <- (map_map fst (fun x => snd (fst x))), F3.
    rewrite <- (map_map fst snd), F2, tree_leaves_positions_no_is_leaf, Hpl.
    now rewrite map_map. }
  assert (E2 : map (fun l => snd (fst l)) (tree_leaves z3)
               = map (fun p => Leaf (default_args_of env p))
                   (item_leaves item)).
  { rewrite <- (map_map fst snd), F3. exact Hl2. }
  fold (item_leaves item) in Hl3.
  revert E1 E2 Hl3. clear F3 F2 Hz3 Hz2 Hl2 Hpl Hsa.
  generalize (item_leaves item) as ls. generalize (tree_leaves z3) as T.
  induction T as [|[[[kp info] arg] value] rest IH];
    intros [|l ls] E1 E2 E3; try discriminate; constructor.
  - simpl in *. injection E1 as -> _. injection E2 as -> _.
    injection E3 as -> _. unfold _get_leaf_for_aggregation. simpl.
    destruct (has_type_handler env (type_of (snd l))) eqn:Hh; simpl;
      [eauto|].
    destruct (is_unreplicated_jax_array (snd l)) eqn:Hu; [|eauto].
    destruct (snd l) as [|[]|]; try discriminate. simpl in Hh. congruence.
  - simpl in *. injection E1 as _ E1. injection E2 as _ E2.
    injection E3 as _ E3. now apply (IH ls).
Qed.

Lemma io_bind_returns {A B} (c : IO A) (k : A -> IO B) (a : A)
  (trace : list Event) :
  c = (Ok a, trace) ->
  (exists b trace', k a = (Ok b, trace')) ->
  exists b trace', io_bind c k = (Ok b, trace').
Proof.
  intros -> (b & t' & Hk). exists b, (trace ++ t'). simpl. now rewrite Hk.
Qed.

(** X25: for a non-empty tree without repeated keys and no
    [save_args], [async_save] returns whenever its collaborators do:
    the registry has a handler for every type it claims (and for
    [jax.Array]), and the serialize calls of the type handlers and of
    the aggregate handler succeed. *)
Theorem async_save_returns (env : World) (self : PyTreeCheckpointHandler)
  (directory : Path) (item : PyTree Value) :
  wf_keys item ->
  truth item = Ok true ->
  handlers_registered env ->
  has_type_handler env TJaxArray = true ->
  (forall h batch_values batch_infos batch_args,
      exists futures,
        handler_serialize env h batch_values batch_infos batch_args
        = Ok futures) ->
  (forall p ser_item, exists f, aggregate_serialize env p ser_item = Ok f) ->
  exists commit_futures trace,
    async_save env self directory item PNone = (Ok commit_futures, trace).
Proof.
  intros Hw Ht Hreg Hjax Hser Hagg.
  destruct (default_save_args_total env item Hw) as (sa & Hd).
  destruct (get_param_infos_total env item directory PNone Hw Ht Hd)
    as (pi & agg & Hpi).
  unfold async_save. rewrite Hd, io_bind_lift. cbv beta.
  rewrite Hpi, io_bind_lift. cbv beta iota.
  destruct (create_param_save_dirs env _ _ _ Hpi)
    as (ops & done & Hops & Hg).
  assert (Hdirs : exists u trace,
             (if negb (_use_ocdbt self) && negb agg then
                ops <~ io_lift (tree_map2 no_is_leaf
                                  (_create_param_save_dir_at env) pi sa) ;;
                _ <~ io_gather (tree_leaves ops) ;;
                io_emit (EvSyncGlobalDevices
                           "PyTreeCheckpointHandler:create_param_save_dirs")
              else io_ret tt) = (Ok u, trace)).
  { destruct (negb (_use_ocdbt self) && negb agg).
    - rewrite Hops, io_bind_lift, Hg. eexists. eexists. reflexivity.
    - eexists. eexists. reflexivity. }
  destruct Hdirs as (u & t1 & Hdirs).
  apply (io_bind_returns _ Hdirs).
  assert (Hbatch : exists futures trace,
             (if agg then io_ret []
              else
                batch_requests <~
                  io_lift (_batched_serialization_requests env item pi
                             (tree_fmap BSave sa)) ;;
                commit_futures <~
                  io_gather (map (_serialize_request env) batch_requests) ;;
                io_ret (List.concat commit_futures))
             = (Ok futures, trace)).
  { destruct agg; [eexists; eexists; reflexivity|].
    destruct (@save_batch_leaves env item directory sa pi false Hw Hd Hpi)
      as (leaves & Hl & E1 & E2 & E3).
    assert (Hreq : exists requests,
               _batched_serialization_requests env item pi
                 (tree_fmap BSave sa) = Ok requests).
    { unfold _batched_serialization_requests. unfold batch_leaves in Hl.
      inv_bind Hl. inv_bind Hl. injection Hl as <-.
      rewrite Ha. simpl. rewrite Ha0. simpl.
      assert (Hb : batch_leaves item pi (tree_fmap BSave sa)
                   = Ok (tree_leaves a0)).
      { unfold batch_leaves. rewrite Ha. simpl. now rewrite Ha0. }
      destruct (proj2 (_group_values_total env
                         (batch_leaves_are_leaves _ _ _ Hb) []))
        as (grouped & Hgr).
      { eapply save_kept_leaves_have_handlers; eassumption. }
      rewrite Hgr. simpl. eauto. }
    destruct Hreq as (requests & Hreq). rewrite Hreq, io_bind_lift.
    destruct (@io_gather_all_ok _ (map (_serialize_request env) requests))
      as (l & Hgather).
    { apply Forall_forall. intros op Hop. apply in_map_iff in Hop.
      destruct Hop as (r & <- & _). unfold _serialize_request.
      destruct (Hser (handler r) (values r) (infos r) (args r)) as (fs & E).
      rewrite E. simpl. eauto. }
    rewrite Hgather. eexists. eexists. reflexivity. }
  destruct Hbatch as (futures & t2 & Hbatch).
  apply (io_bind_returns _ Hbatch).
  destruct (@save_tree_for_aggregation_total env item directory sa pi agg
              Hw Hjax Hd Hpi) as (ser & Hser_item).
  unfold _write_aggregate_file. rewrite Hser_item, io_bind_lift.
  destruct (Hagg (path_join directory (_aggregate_filename self)) ser)
    as (f & Hf).
  rewrite Hf. eexists. eexists. reflexivity.
Qed.

Lemma async_save_returns_witness :
  exists commit_futures trace,
    async_save world0 Scenario.handler0 "ckpt" item_mixed PNone
    = (Ok commit_futures, trace).
Proof.
  apply (@async_save_returns world0 Scenario.handler0 "ckpt" item_mixed).
  - simpl. repeat split; repeat constructor; simpl; intuition discriminate.
  - reflexivity.
  - intros ty H. destruct ty; try discriminate H; eexists; reflexivity.
  - reflexivity.
  - intros. eexists. reflexivity.
  - intros. eexists. reflexivity.
Defined.



Lemma structure_no_barrier (env : World) (self : PyTreeCheckpointHandler)
  (directory : Path) :
  barriers (snd (structure env self directory)) = [].
Proof.
  unfold structure. destruct (path_exists env _).
  - rewrite io_bind_emit. reflexivity.
  - destruct (_use_ocdbt self); [reflexivity|].
    rewrite io_bind_emit. reflexivity.
Qed.

Lemma _maybe_deserialize_no_barrier (env : World) (structure : PyTree Value)
  (param_infos : PyTree ParamInfo) (restore_args : PyTree RestoreArgs) :
  barriers (snd (_maybe_deserialize env structure param_infos restore_args))
  = [].
Proof.
  apply barriers_free. unfold _maybe_deserialize.
  apply io_bind_free; [reflexivity|]. intros s' _.
  apply io_bind_free; [reflexivity|]. intros requests _.
  apply io_bind_free; [|reflexivity].
  apply io_gather_free. apply Forall_forall. intros op Hop.
  apply in_map_iff in Hop. destruct Hop as (r & <- & _).
  unfold _deserialize_request. apply io_bind_free; reflexivity.
Qed.

Lemma io_bind_barrier {A B} (c : IO A) (k : A -> IO B)
  (reached : list string) :
  barriers (snd c) = [] ->
  (forall a, fst c = Ok a ->
     barriers (snd (k a)) = if is_ok (fst (k a)) then reached else []) ->
  barriers (snd (io_bind c k))
  = if is_ok (fst (io_bind c k)) then reached else [].
Proof.
  intros Hc Hk. rewrite io_bind_trace, io_bind_result, barriers_app, Hc.
  destruct (fst c) as [a|e]; [now apply Hk | reflexivity].
Qed.

(** X26: [restore] reaches the barrier
    'PyTreeCheckpointHandler:restore' exactly when it returns, and then
    once; a call that raises reaches no barrier. *)
Theorem restore_barrier_iff_returns (env : World)
  (self : PyTreeCheckpointHandler) (directory : Path) (item : PyTree Value)
  (restore_args : PyTree RestoreArgs) (transforms : PyTree Transform)
  (d : bool) (transform_fn : option TransformFn) :
  barriers (snd (restore env self directory item restore_args transforms d
                   transform_fn))
  = if is_ok (fst (restore env self directory item restore_args transforms d
                     transform_fn))
    then ["PyTreeCheckpointHandler:restore"]
    else [].
Proof.
  unfold restore.
  destruct (negb (path_exists env directory)); [reflexivity|].
  cbv zeta.
  apply io_bind_barrier; [reflexivity|]. intros _ _.
  apply io_bind_barrier; [apply structure_no_barrier|]. intros saved _.
  apply io_bind_barrier; [reflexivity|]. intros [pi cra] _.
  apply io_bind_barrier.
  { destruct transform_fn as [fn|]; [|reflexivity].
    destruct transforms; try reflexivity.
    apply barriers_free. apply io_bind_free; [reflexivity|].
    intros [s' pi'] _. reflexivity. }
  intros [[[s' pi'] ra'] cra'] _.
  apply io_bind_barrier; [apply _maybe_deserialize_no_barrier|].
  intros restored _.
  apply io_bind_barrier.
  { destruct transform_fn; reflexivity. }
  intros restored' _. rewrite io_bind_emit. reflexivity.
Qed.

(** ** What [StandardCheckpointHandler] accepts *)

(** X27: when [_validate_save_state] returns, every leaf of the item
    is of a supported type, and what [save_args] holds at a leaf is
    [None] or a SaveArgs that does not ask for aggregation. *)
Theorem validate_save_state_guarantees (self : StandardCheckpointHandler)
  (item : PyTree Value) (save_args : PyTree SaveArgs)
  (kp : TupleKey) (v : Value) :
  _validate_save_state self item save_args = Ok tt ->
  tree_get kp item = Some (Leaf v) ->
  _supported_types self (type_of (Leaf v)) = true
  /\ (save_args <> PNone ->
      exists arg,
        tree_get kp save_args = Some arg
        /\ (arg = PNone \/ exists a, arg = Leaf a /\ aggregate a = false)).
Proof.
  intros H Hg. unfold _validate_save_state in H.
  destruct item as [|x|items] eqn:Hitem; [discriminate| |];
    rewrite <- Hitem in *; clear Hitem;
    inv_bind H; rename a into z; inv_bind H;
    pose proof (tree_get_positions_leaf item [] kp Hg) as Hp;
    destruct (tree_get_flatten_up_to_leaf _ _ _ Ha Hp) as (b & Hb & Hz);
    destruct (tree_get_bind _ _ _ Ha0 Hz) as (r & Hr & _);
    simpl in Hr; unfold _check_input_save in Hr; inv_bind Hr;
    (split;
     [ destruct (_supported_types self (type_of (Leaf v)));
         [reflexivity | discriminate]
     | intros Hne; exists b; split;
         [ destruct save_args; [now destruct Hne | exact Hb | exact Hb]
         | destruct b as [|sa|]; [now left | | discriminate];
           right; exists sa; split; [reflexivity|];
           destruct (aggregate sa); [discriminate | reflexivity] ] ]).
Qed.

Lemma validate_save_state_guarantees_witness :
  _supported_types standard_handler (type_of (Leaf (VInt 1))) = true
  /\ (Dict [("a", Leaf (mkSaveArgs false None))] <> PNone ->
      exists arg,
        tree_get ["a"] (Dict [("a", Leaf (mkSaveArgs false None))])
        = Some arg
        /\ (arg = PNone
            \/ exists a, arg = Leaf a /\ aggregate a = false)).
Proof.
  apply (@validate_save_state_guarantees standard_handler tree_a1
           (Dict [("a", Leaf (mkSaveArgs false None))]) ["a"] (VInt 1));
    reflexivity.
Defined.


Lemma tree_bind_Ok_leaves {X C} (f : X -> result (PyTree C)) (t : PyTree X) :
  forall t',
    tree_bind f t = Ok t' ->
    Forall (fun x => exists r, f x = Ok r) (tree_leaves t).
Proof.
  induction t as [|x|items IH] using PyTree_nested_ind; intros t' H.
  - constructor.
  - constructor; [eauto | constructor].
  - rewrite tree_bind_Dict in H. inv_bind H. clear H.
    rewrite tree_leaves_Dict.
    revert a Ha. induction items as [|[k c] r IHr]; simpl; intros zs H.
    + constructor.
    + inv_bind H. inv_bind Ha. inv_bind H.
      inversion IH as [|? ? IHc IHrest]; subst.
      apply Forall_app. split; [now apply (IHc a0) | now apply (IHr IHrest a1)].
Qed.

(** X28: [_validate_restore_state] returns exactly when every leaf of
    the item is of a supported type or a [jax.ShapeDtypeStruct]; an
    item without leaves always passes. *)
Theorem validate_restore_state_iff (self : StandardCheckpointHandler)
  (item : PyTree Value) :
  _validate_restore_state self item = Ok tt
  <-> forallb (fun v => _supported_types self (type_of (Leaf v))
                        || is_ShapeDtypeStruct (Leaf v))
        (tree_leaves item) = true.
Proof.
  unfold _validate_restore_state, tree_map_with_path.
  pose proof (tree_leaves_positions_no_is_leaf item []) as Hl.
  split.
  - intros H. inv_bind H. apply tree_bind_Ok_leaves in Ha.
    revert Hl Ha. generalize (tree_leaves item) as vs.
    generalize (tree_leaves (tree_positions no_is_leaf [] item)) as ps.
    induction ps as [|[kp x] ps IH]; intros [|v vs] Hl Ha;
      try discriminate; [reflexivity|].
    simpl in Hl. injection Hl as -> Hl.
    inversion Ha as [|? ? (r & Hr) Ha']; subst. cbn [forallb].
    rewrite (IH vs Hl Ha'), andb_true_r.
    unfold _check_input_restore in Hr.
    destruct (_supported_types self (type_of (Leaf v))); [reflexivity|].
    destruct (is_ShapeDtypeStruct (Leaf v)); [reflexivity | discriminate].
  - intros H.
    destruct (tree_bind_total
                (fun '(kp, a) => _check_input_restore self kp a)
                (tree_positions no_is_leaf [] item)) as (t' & Ht).
    + revert Hl H. generalize (tree_leaves item) as vs.
      generalize (tree_leaves (tree_positions no_is_leaf [] item)) as ps.
      induction ps as [|[kp x] ps IH]; intros [|v vs] Hl H;
        try discriminate; constructor.
      * simpl in Hl. cbn [forallb] in H. injection Hl as -> _.
        apply andb_prop in H. destruct H as [H _].
        unfold _check_input_restore.
        apply orb_prop in H. destruct H as [-> | ->]; cbn [negb andb];
          eauto.
        rewrite andb_false_r. eauto.
      * simpl in Hl. cbn [forallb] in H. injection Hl as _ Hl.
        apply andb_prop in H. now apply (IH vs).
    + now rewrite Ht.
Qed.

Lemma none_like_Dict {A B} (items : list (string * PyTree A)) :
  @none_like A B (Dict items)
  = Dict (map (fun kc => (fst kc, none_like (snd kc))) items).
Proof.
  simpl. f_equal.
  induction items as [|[k c] r IH]; simpl; [reflexivity|]. now rewrite IH.
Qed.

Lemma covers_none_like {A B} (t : PyTree A) :
  forall pre,
    wf_keys t ->
    covers (fun _ (b : PyTree B) => b = PNone)
      (tree_positions no_is_leaf pre t) (none_like t).
Proof.
  induction t as [|x|items IH] using PyTree_nested_ind; intros pre Hw;
    try reflexivity.
  rewrite tree_positions_Dict by reflexivity. rewrite none_like_Dict.
  apply wf_keys_Dict in Hw. destruct Hw as [Hn Hw].
  apply covers_Dict. split; [now rewrite !length_map|].
  rewrite Forall_forall in *. intros [k z] Hin.
  apply in_map_iff in Hin. destruct Hin as ([k' c] & [= <- <-] & Hin).
  simpl. exists (none_like c). split.
  - apply dict_get_NoDup.
    + rewrite map_map. exact Hn.
    + apply in_map_iff. now exists (k', c).
  - apply (IH _ Hin). apply (Hw _ Hin).
Qed.

(** X29: without [save_args], [_validate_save_state] returns exactly
    when the item is not [None] and every leaf of it is of a supported
    type. *)
Theorem validate_save_state_without_args_iff
  (self : StandardCheckpointHandler) (item : PyTree Value) :
  wf_keys item ->
  (_validate_save_state self item PNone = Ok tt
   <-> item <> PNone
       /\ forallb (fun v => _supported_types self (type_of (Leaf v)))
            (tree_leaves item) = true).
Proof.
  intros Hw.
  destruct (@flatten_up_to_covers _ _ _ _ _
              (@covers_none_like _ SaveArgs item [] Hw))
    as (z & Hz & _ & Hnone).
  pose proof (tree_leaves_flatten_up_to _ _ Hz) as Hfst.
  apply (f_equal (map snd)) in Hfst.
  rewrite tree_leaves_positions_no_is_leaf, map_map in Hfst.
  assert (Hcheck :
    (exists r, tree_bind (fun '(k, x, arg) => _check_input_save self k x arg)
                 z = Ok r)
    <-> forallb (fun v => _supported_types self (type_of (Leaf v)))
          (tree_leaves item) = true).
  { split.
    - intros (r & Hr). apply tree_bind_Ok_leaves in Hr.
      revert Hfst Hr. generalize (tree_leaves item) as vs. clear Hnone Hz.
      generalize (tree_leaves z) as ps.
      induction ps as [|[[kp x] arg] ps IH]; intros [|v vs] Hl Hr;
        try discriminate; [reflexivity|].
      simpl in Hl. injection Hl as -> Hl.
      inversion Hr as [|? ? (r' & Hr') Hr'']; subst. cbn [forallb].
      rewrite (IH vs Hl Hr''), andb_true_r.
      unfold _check_input_save in Hr'. inv_bind Hr'.
      destruct (_supported_types self (type_of (Leaf v)));
        [reflexivity | discriminate].
    - intros H. apply tree_bind_total.
      revert Hfst Hnone H. generalize (tree_leaves item) as vs. clear Hz.
      generalize (tree_leaves z) as ps.
      induction ps as [|[[kp x] arg] ps IH]; intros [|v vs] Hl Hn H;
        try discriminate; constructor.
      + simpl in Hl. cbn [forallb] in H. injection Hl as -> _.
        inversion Hn as [|? ? Harg _]; subst. simpl in Harg. subst arg.
        apply andb_prop in H. destruct H as [H _].
        unfold _check_input_save. cbn [rbind]. rewrite H. cbn [negb]. eauto.
      + simpl in Hl. cbn [forallb] in H. injection Hl as _ Hl.
        inversion Hn; subst. apply andb_prop in H. now apply (IH vs). }
  unfold _validate_save_state. split.
  - intros H. destruct item as [|x|items] eqn:Hitem; [discriminate| |];
      rewrite <- Hitem in *; (split; [rewrite Hitem; discriminate|]);
      apply Hcheck; rewrite Hz in H; simpl in H; inv_bind H; eauto.
  - intros [Hne H]. apply Hcheck in H. destruct H as (r & Hr).
    destruct item as [|x|items] eqn:Hitem; [now destruct Hne| |];
      rewrite <- Hitem in *; rewrite Hz; simpl; rewrite Hr; reflexivity.
Qed.

Lemma validate_save_state_without_args_iff_witness :
  _validate_save_state standard_handler tree_a1 PNone = Ok tt
  <-> tree_a1 <> PNone
      /\ forallb (fun v => _supported_types standard_handler
                             (type_of (Leaf v)))
           (tree_leaves tree_a1) = true.
Proof.
  apply (@validate_save_state_without_args_iff standard_handler tree_a1).
  simpl. repeat split; repeat constructor; simpl; intuition discriminate.
Defined.

(** ** The values that save writes *)

Lemma item_leaves_at {A} (is_leaf : PyTree A -> bool) (t : PyTree A) :
  forall pre kp v,
    wf_keys t ->
    In (kp, v) (tree_leaves (tree_positions is_leaf pre t)) ->
    exists suffix, kp = pre ++ suffix /\ tree_get suffix t = Some v.
Proof.
  induction t as [|x|items IH] using PyTree_nested_ind; intros pre kp v Hw Hin.
  - simpl in Hin. destruct (is_leaf PNone); [|destruct Hin].
    destruct Hin as [[= <- <-]|[]]. exists []. now rewrite app_nil_r.
  - assert (Hp : tree_positions is_leaf pre (Leaf x) = Leaf (pre, Leaf x))
      by (simpl; now destruct (is_leaf (Leaf x))).
    rewrite Hp in Hin. destruct Hin as [[= <- <-]|[]].
    exists []. now rewrite app_nil_r.
  - destruct (is_leaf (Dict items)) eqn:Hl.
    + simpl tree_positions in Hin. rewrite Hl in Hin.
      destruct Hin as [[= <- <-]|[]]. exists []. now rewrite app_nil_r.
    + rewrite (tree_positions_Dict _ _ _ Hl), tree_leaves_Dict in Hin.
      apply wf_keys_Dict in Hw. destruct Hw as [Hn Hw].
      apply in_flat_map in Hin. destruct Hin as ([k z] & Hz & Hin).
      apply in_map_iff in Hz. destruct Hz as ([k' c] & [= <- <-] & Hc).
      rewrite Forall_forall in IH, Hw. simpl in Hin.
      destruct (IH _ Hc (pre ++ [k']) kp v (Hw _ Hc) Hin)
        as (suffix & -> & Hg).
      exists (k' :: suffix). rewrite <- app_assoc. split; [reflexivity|].
      simpl. now rewrite (dict_get_NoDup _ _ _ Hn Hc).
Qed.

Lemma kept_leaves_of_item (env : World) (directory : Path)
  (leaves : list (TupleKey * PyTree ParamInfo * PyTree Value
                  * PyTree BatchArg)) :
  forall ls,
    map (fun l => snd (fst (fst l))) leaves
    = map (fun p => Leaf (save_info_of env directory p)) ls ->
    map (fun l => snd (fst l)) leaves = map snd ls ->
    map snd leaves
    = map (fun p => Leaf (BSave (default_args_of env p))) ls ->
    Forall (fun leaf =>
              exists kp,
                In (kp, fst (fst leaf)) ls
                /\ snd (fst leaf)
                   = save_info_of env directory (kp, fst (fst leaf))
                /\ has_type_handler env (type_of (fst (fst leaf))) = true)
      (kept_leaves leaves).
Proof.
  induction leaves as [|[[[kp info] value] arg] rest IH];
    intros [|[kp' v'] ls] E1 E2 E3; try discriminate; [constructor|].
  simpl in *. injection E1 as -> E1. injection E2 as -> E2.
  injection E3 as -> E3. unfold kept_leaves. simpl. fold (kept_leaves rest).
  assert (Hrest : Forall (fun leaf =>
              exists kp,
                In (kp, fst (fst leaf)) ((kp', v') :: ls)
                /\ snd (fst leaf)
                   = save_info_of env directory (kp, fst (fst leaf))
                /\ has_type_handler env (type_of (fst (fst leaf))) = true)
            (kept_leaves rest)).
  { eapply Forall_impl; [|exact (IH ls E1 E2 E3)].
    intros leaf (k & Hin & H). exists k. split; [now right | exact H]. }
  destruct (has_type_handler env (type_of v')) eqn:Hh; simpl;
    [|exact Hrest].
  constructor; [|exact Hrest]. exists kp'. simpl.
  split; [now left|]. split; [|exact Hh].
  unfold save_info_of. simpl. now rewrite Hh.
Qed.

(** X30: without [save_args], every value that [async_save] hands to
    a type handler is a leaf of the item whose type has a handler, and
    the ParamInfo that goes with it carries that leaf's dot-joined key
    path as name and [directory / name] as path. *)
Theorem async_save_writes_each_leaf_under_its_name (env : World)
  (self : PyTreeCheckpointHandler) (directory : Path) (item : PyTree Value)
  (h : Handler) (batch_values : list (PyTree Value))
  (batch_infos : list ParamInfo) (batch_args : list (PyTree BatchArg)) :
  wf_keys item ->
  In (EvSerialize h batch_values batch_infos batch_args)
    (snd (async_save env self directory item PNone)) ->
  Forall (fun leaf =>
            exists kp,
              tree_get kp item = Some (fst (fst leaf))
              /\ has_type_handler env (type_of (fst (fst leaf))) = true
              /\ name (snd (fst leaf)) = Some (String.concat "." kp)
              /\ path (snd (fst leaf))
                 = Some (path_join directory (String.concat "." kp)))
    (combine (combine batch_values batch_infos) batch_args).
Proof.
  intros Hw H. unfold async_save in H.
  apply io_bind_In in H. destruct H as [[]|(sa & Hd & H)].
  apply io_bind_In in H. destruct H as [[]|([pi agg] & Hpi & H)].
  simpl in Hd, Hpi.
  apply io_bind_In in H. destruct H as [H|(u & _ & H)].
  { exfalso.
    assert (Ht : existsb touches_type_handler
                   (snd (if negb (_use_ocdbt self) && negb agg then
                           ops <~ io_lift (tree_map2 no_is_leaf
                                             (_create_param_save_dir_at env)
                                             pi sa) ;;
                           _ <~ io_gather (tree_leaves ops) ;;
                           io_emit (EvSyncGlobalDevices
                             "PyTreeCheckpointHandler:create_param_save_dirs")
                         else io_ret tt)) = true).
    { apply existsb_exists. eexists. split; [exact H | reflexivity]. }
    rewrite create_dirs_stage_free in Ht; [discriminate | reflexivity..]. }
  apply io_bind_In in H. destruct H as [H|(futures & _ & H)].
  - destruct agg; [destruct H|].
    apply io_bind_In in H. destruct H as [[]|(requests & Hr & H)].
    simpl in Hr.
    apply io_bind_In in H. destruct H as [H|(l & _ & [])].
    apply io_gather_In in H. destruct H as (op & Hop & H).
    apply in_map_iff in Hop. destruct Hop as (request & <- & Hin).
    unfold _serialize_request in H.
    apply io_bind_In in H. destruct H as [[H|[]]|(u' & _ & [])].
    injection H as <- <- <- <-.
    destruct (batched_request_leaves _ _ _ _ Hr) as (leaves & Hl & Hreq).
    destruct (@save_batch_leaves env item directory sa pi false Hw Hd Hpi)
      as (leaves' & Hl' & E1 & E2 & E3).
    rewrite Hl in Hl'. injection Hl' as <-.
    pose proof (kept_leaves_of_item env directory leaves _ E1 E2 E3) as Hk.
    fold (request_leaves request). rewrite (Hreq _ Hin).
    rewrite Forall_forall in *. intros leaf Hleaf.
    apply filter_In in Hleaf. destruct Hleaf as [Hleaf _].
    destruct (Hk _ Hleaf) as (kp & Hkp & Hinfo & Hh).
    destruct (item_leaves_at _ _ _ _ _ Hw Hkp) as (suffix & -> & Hg).
    exists suffix. rewrite Hinfo. simpl. auto.
  - apply io_bind_In in H. destruct H as [H|(f & _ & [])].
    unfold _write_aggregate_file in H.
    apply io_bind_In in H. destruct H as [[]|(ser & _ & H)].
    apply io_bind_In in H. destruct H as [[H|[]]|(u' & _ & [])].
    discriminate.
Qed.

Lemma async_save_writes_each_leaf_under_its_name_witness :
  Forall (fun leaf =>
            exists kp,
              tree_get kp item_mixed = Some (fst (fst leaf))
              /\ has_type_handler world0 (type_of (fst (fst leaf))) = true
              /\ name (snd (fst leaf)) = Some (String.concat "." kp)
              /\ path (snd (fst leaf))
                 = Some (path_join "ckpt" (String.concat "." kp)))
    (combine
       (combine [Leaf (VInt 1)]
          [mkParamInfo (Some "w") (Some "ckpt/w") false None None])
       [Leaf (BSave (mkSaveArgs false None))]).
Proof.
  apply (@async_save_writes_each_leaf_under_its_name world0
           Scenario.handler0 "ckpt" item_mixed "ScalarHandler").
  - simpl. repeat split; repeat constructor; simpl; intuition discriminate.
  - right; right; left; reflexivity.
Defined.
